(** * setup_hr_db: the Fitbit heart-rate synchronisation script

    A shallow embedding of [setup_hr_db.py] and the properties of its
    functions: the date-range generator, the watermark query, the rate
    limiter's construction, the credential refresh, and the persistence
    loop of [main].

    Conventions.
    - A Python exception is a constructor of [exn]; a computation that may
      raise returns a [result].
    - Code that touches the outside (the token file, the database table, the
      remote service, standard output, the clock) is a state transformer on
      a [world], with the replies of the outside taken from an [env].
    - The table is reached through the one [Connection] the script opens:
      the [world] holds the committed table and, beside it, the table as
      seen inside the transaction that is open on that connection, if one
      is.
    - A [datetime.date] is represented by its proleptic Gregorian ordinal
      ([date.toordinal()]), a [timedelta] by its number of days. *)

From Stdlib Require Import ZArith QArith List String Ascii Lia Bool.
From stdpp Require Import gmap strings list fin_maps.

Local Open Scope string_scope.
Local Open Scope list_scope.
Local Open Scope Z_scope.

(** ** Exceptions and results *)

Inductive exn : Type :=
| KeyError                (* d[k] on a dict without k *)
| IndexError              (* l[0] on an empty sequence *)
| AttributeError          (* x.get / x.date on an object without it *)
| TypeError               (* subscripting something that has no items *)
| ValueError              (* date(y, m, d) out of range *)
| OverflowError           (* date arithmetic out of range, int too large *)
| ZeroDivisionError       (* float division by zero *)
| IOError                 (* open() on a missing file *)
| IntegrityError (text : string)  (* sqlalchemy.exc.IntegrityError, with its str() *)
| DataError               (* sqlalchemy.exc.DataError *)
| ProgrammingError        (* sqlalchemy.exc.ProgrammingError *)
| HTTPError (code : Z).   (* whatever the fitbit client raises *)

#[global] Instance exn_eq_dec : EqDecision exn.
Proof. solve_decision. Defined.

Inductive result (A : Type) : Type :=
| Ok (a : A)
| Raise (e : exn).
Arguments Ok {A} a.
Arguments Raise {A} e.

Definition rbind {A B} (r : result A) (k : A -> result B) : result B :=
  match r with
  | Ok a => k a
  | Raise e => Raise e
  end.

Definition is_ok {A} (r : result A) : bool :=
  match r with Ok _ => true | Raise _ => false end.

(** ** Python values: what [json.load] and the fitbit client hand back *)

#[local] Unset Elimination Schemes.
Inductive pyval : Type :=
| PNone
| PBool (b : bool)
| PInt (n : Z)
| PStr (s : string)
| PList (l : list pyval)
| PDict (kv : list (string * pyval)).
#[local] Set Elimination Schemes.

(** Lookup of a key in a dict's items. *)
Fixpoint assoc (k : string) (kv : list (string * pyval)) : option pyval :=
  match kv with
  | [] => None
  | (k', v) :: rest => if String.eqb k k' then Some v else assoc k rest
  end.

(** [d[k] = v] on a dict: the item is replaced in place or appended. *)
Fixpoint assoc_set (k : string) (v : pyval) (kv : list (string * pyval))
  : list (string * pyval) :=
  match kv with
  | [] => [(k, v)]
  | (k', v') :: rest =>
      if String.eqb k k' then (k, v) :: rest else (k', v') :: assoc_set k v rest
  end.

(** [x[k]] with a string key. *)
Definition getitem (x : pyval) (k : string) : result pyval :=
  match x with
  | PDict kv => match assoc k kv with Some v => Ok v | None => Raise KeyError end
  | _ => Raise TypeError
  end.

(** [x[0]]. The dicts here come from JSON, so their keys are strings and
    [0] is never one of them. *)
Definition getitem0 (x : pyval) : result pyval :=
  match x with
  | PList [] => Raise IndexError
  | PList (v :: _) => Ok v
  | PStr EmptyString => Raise IndexError
  | PStr (String c _) => Ok (PStr (String c EmptyString))
  | PDict _ => Raise KeyError
  | _ => Raise TypeError
  end.

(** [x.get(k)]: only dicts have the method; a missing key gives [None]. *)
Definition get (x : pyval) (k : string) : result pyval :=
  match x with
  | PDict kv => match assoc k kv with Some v => Ok v | None => Ok PNone end
  | _ => Raise AttributeError
  end.

(** [x[k] = v] with a string key. *)
Definition setitem (x : pyval) (k : string) (v : pyval) : result pyval :=
  match x with
  | PDict kv => Ok (PDict (assoc_set k v kv))
  | _ => Raise TypeError
  end.

(** ** [datetime.date] and [timedelta], as in CPython's [datetime] *)

Module datetime.

Abbreviation date := Z (only parsing).        (* the ordinal, day 1 is 0001-01-01 *)
Abbreviation timedelta := Z (only parsing).   (* days *)

Definition MINYEAR : Z := 1.
Definition MAXYEAR : Z := 9999.

Definition is_leap (y : Z) : bool :=
  (y mod 4 =? 0) && (negb (y mod 100 =? 0) || (y mod 400 =? 0)).

Definition days_before_year (year : Z) : Z :=
  let y := year - 1 in y * 365 + y / 4 - y / 100 + y / 400.

Definition DAYS_IN_MONTH : list Z :=
  [31; 28; 31; 30; 31; 30; 31; 31; 30; 31; 30; 31].

Definition days_in_month (y m : Z) : Z :=
  if (m =? 2) && is_leap y then 29
  else nth (Z.to_nat (m - 1)) DAYS_IN_MONTH 0.

Definition DAYS_BEFORE_MONTH : list Z :=
  [0; 31; 59; 90; 120; 151; 181; 212; 243; 273; 304; 334].

Definition days_before_month (y m : Z) : Z :=
  nth (Z.to_nat (m - 1)) DAYS_BEFORE_MONTH 0
  + (if (2 <? m) && is_leap y then 1 else 0).

Definition ymd2ord (y m d : Z) : Z :=
  days_before_year y + days_before_month y m + d.

(** [date.max.toordinal()] *)
Definition MAXORDINAL : Z := 3652059.

Definition valid (d : date) : Prop := 1 <= d <= MAXORDINAL.

Definition in_range (d : Z) : bool := (1 <=? d) && (d <=? MAXORDINAL).

(** [date(y, m, d)] *)
Definition new (y m d : Z) : result date :=
  if (MINYEAR <=? y) && (y <=? MAXYEAR) && (1 <=? m) && (m <=? 12)
     && (1 <=? d) && (d <=? days_in_month y m)
  then Ok (ymd2ord y m d)
  else Raise ValueError.

(** [(a - b).days] for two dates *)
Definition days_between (a b : date) : Z := a - b.

(** [d + timedelta(n)] *)
Definition add (d : date) (n : timedelta) : result date :=
  if in_range (d + n) then Ok (d + n) else Raise OverflowError.

(** [d - timedelta(n)] *)
Definition sub (d : date) (n : timedelta) : result date := add d (- n).

End datetime.

(** [range(n)]: [0, 1, ..., n - 1], empty when [n <= 0] *)
Definition range (n : Z) : list Z := seqZ 0 n.

(** A generator run to its end: the values it yields, closed by a normal
    return ([StopIteration]) or by the exception that escaped its body. *)
Inductive generator (A : Type) : Type :=
| StopIteration
| Yield (a : A) (rest : generator A)
| Throws (e : exn).
Arguments StopIteration {A}.
Arguments Yield {A} a rest.
Arguments Throws {A} e.

(** The generator that yields the elements of a list and returns. *)
Fixpoint yields {A} (l : list A) : generator A :=
  match l with
  | [] => StopIteration
  | a :: rest => Yield a (yields rest)
  end.

(** [for n in ns: yield start_date + timedelta(n)] *)
Fixpoint daterange_loop (start_date : datetime.date) (ns : list Z)
  : generator datetime.date :=
  match ns with
  | [] => StopIteration
  | n :: rest =>
      match datetime.add start_date n with
      | Ok d => Yield d (daterange_loop start_date rest)
      | Raise e => Throws e
      end
  end.

(** [daterange(start_date, end_date)] *)
Definition daterange (start_date end_date : datetime.date)
  : generator datetime.date :=
  daterange_loop start_date
    (range (datetime.days_between end_date start_date + 1)).

(** ** The outside world *)

(** A file holds a JSON document or something [json.load] rejects. *)
Inductive file : Type :=
| Json (v : pyval)
| Garbage.

(** The ORM object [HeartRate(date=..., hr=..., r_hr=...)]. *)
Module HeartRate.
Record t : Type := new { date : pyval; r_hr : pyval; hr : pyval }.
End HeartRate.

(** A stored row of [fitbit.heart_rate], without its key. *)
Record row : Type := Row { row_r_hr : pyval; row_hr : pyval }.

(** The client object [fitbit.Fitbit(...)]: known by what it was built
    from. What the library keeps inside it is not visible to the script. *)
Record Fitbit : Type := mkFitbit {
  client_id : pyval;
  client_secret : pyval;
  access_token : pyval;
  refresh_token : pyval;
}.

(** The [base_date] argument of [intraday_time_series]: a date object, or
    the ['%Y-%m-%d'] text of a date. *)
Inductive base_date : Type :=
| OnDate (d : datetime.date)
| OnText (d : datetime.date).

(** Calls made to the remote service. *)
Inductive call : Type :=
| Sleep (c : Fitbit)                                  (* client.sleep() *)
| RefreshToken (c : Fitbit)                           (* client.client.refresh_token() *)
| IntradayTimeSeries (c : Fitbit) (b : base_date).    (* client.intraday_time_series(...) *)

Record world : Type := World {
  files : gmap string file;        (* the file system, by path *)
  heart_rate : gmap Z row;         (* the committed table, by date (primary key) *)
  calls : list call;               (* remote calls so far, oldest first *)
  stdout : list string;            (* what print() was called with, oldest first *)
  clock_reads : nat;               (* number of time.clock() readings so far *)
  sleeps : list Q;                 (* arguments of time.sleep(), oldest first *)
  lastTimeCalled : Q;              (* the cell lastTimeCalled[0] *)
  transaction : option (gmap Z row);
    (* the transaction open on the script's Connection, if any: the table
       as seen inside it, uncommitted rows included *)
}.

(** What the run does not control.
    - [to_date] is the reading of a date literal by the Date column
      ([None]: the literal is refused).
    - [to_jsonb] is the document the JSONB column stores for a value
      ([None]: the value is refused).
    - [other_values] is the verdict of the driver and the database on an
      object whose [r_hr] is neither [None] nor an int: the date and the
      row the INSERT would store, or the exception it is refused with.
    - [error_text] is the [str()] of the [IntegrityError] that the INSERT of
      an object raises when the database rejects it. *)
Record env : Type := Env {
  today : datetime.date;                       (* date.today() *)
  clock : nat -> Q;                            (* the n-th reading of time.clock() *)
  sleep_reply : result pyval;                  (* of client.sleep() *)
  refresh_token_reply : result pyval;          (* of client.client.refresh_token() *)
  intraday_reply : base_date -> result pyval;  (* of intraday_time_series *)
  to_date : string -> option Z;
  to_jsonb : pyval -> option pyval;
  other_values : HeartRate.t -> result (Z * row);
  error_text : HeartRate.t -> string;
}.

Definition set_files (f : gmap string file) (w : world) : world :=
  World f (heart_rate w) (calls w) (stdout w) (clock_reads w) (sleeps w)
    (lastTimeCalled w) (transaction w).
Definition set_heart_rate (t : gmap Z row) (w : world) : world :=
  World (files w) t (calls w) (stdout w) (clock_reads w) (sleeps w)
    (lastTimeCalled w) (transaction w).
Definition set_calls (c : list call) (w : world) : world :=
  World (files w) (heart_rate w) c (stdout w) (clock_reads w) (sleeps w)
    (lastTimeCalled w) (transaction w).
Definition set_stdout (o : list string) (w : world) : world :=
  World (files w) (heart_rate w) (calls w) o (clock_reads w) (sleeps w)
    (lastTimeCalled w) (transaction w).
Definition set_clock_reads (n : nat) (w : world) : world :=
  World (files w) (heart_rate w) (calls w) (stdout w) n (sleeps w)
    (lastTimeCalled w) (transaction w).
Definition set_sleeps (l : list Q) (w : world) : world :=
  World (files w) (heart_rate w) (calls w) (stdout w) (clock_reads w) l
    (lastTimeCalled w) (transaction w).
Definition set_lastTimeCalled (t : Q) (w : world) : world :=
  World (files w) (heart_rate w) (calls w) (stdout w) (clock_reads w) (sleeps w)
    t (transaction w).
Definition set_transaction (t : option (gmap Z row)) (w : world) : world :=
  World (files w) (heart_rate w) (calls w) (stdout w) (clock_reads w) (sleeps w)
    (lastTimeCalled w) t.

(** The table as a statement on the script's Connection sees it: inside
    the open transaction if there is one, as committed otherwise. *)
Definition seen (w : world) : gmap Z row :=
  match transaction w with
  | Some t => t
  | None => heart_rate w
  end.

(** ** Computations: state passing with exceptions *)

Definition M (A : Type) : Type := world -> world * result A.

Definition ret {A} (a : A) : M A := fun w => (w, Ok a).
Definition raise {A} (e : exn) : M A := fun w => (w, Raise e).
Definition lift {A} (r : result A) : M A := fun w => (w, r).

Definition bind {A B} (c : M A) (k : A -> M B) : M B :=
  fun w =>
    match c w with
    | (w', Ok a) => k a w'
    | (w', Raise e) => (w', Raise e)
    end.

Notation "x <- c ;; k" := (bind c (fun x => k))
  (at level 100, c at next level, right associativity).
Notation "c ;; k" := (bind c (fun _ => k))
  (at level 100, right associativity).

(** [try: c  except ...: h]. The except clause is given by the handler it
    has for an exception ([None]: the clause does not name it). *)
Definition try_except {A} (c : M A) (except : exn -> option (M A)) : M A :=
  fun w =>
    match c w with
    | (w', Raise e) =>
        match except e with
        | Some h => h w'
        | None => (w', Raise e)
        end
    | r => r
    end.

(** [try: c  except: h] *)
Definition try_except_any {A} (c : M A) (h : M A) : M A :=
  fun w =>
    match c w with
    | (w', Raise _) => h w'
    | r => r
    end.

Definition store_of {A} (r : world * result A) : gmap Z row := heart_rate (fst r).

(** ** The rate limiter

    Floats are represented by the rationals they approximate; rounding is
    left out, the exceptions of the float operations are kept. *)

(** [float(n)] of an int raises once [n] would round to [2**1024]. *)
Definition FLOAT_LIMIT : Z := 2 ^ 1024 - 2 ^ 970.

Definition float (n : Z) : result Q :=
  if FLOAT_LIMIT <=? Z.abs n then Raise OverflowError else Ok (inject_Z n).

(** [a / b] on floats *)
Definition truediv (a b : Q) : result Q :=
  if Qeq_bool b 0 then Raise ZeroDivisionError else Ok (a / b)%Q.

(** [rate_limited(maxPerSecond)]: the decorator it returns is known by the
    [minInterval] it has captured. *)
Definition rate_limited (maxPerSecond : Z) : result Q :=
  rbind (float maxPerSecond) (fun f => truediv 1 f).

Definition time_clock (E : env) : M Q :=
  fun w => (set_clock_reads (S (clock_reads w)) w, Ok (clock E (clock_reads w))).

Definition time_sleep (t : Q) : M unit :=
  fun w => (set_sleeps (sleeps w ++ [t]) w, Ok tt).

(** Reading and writing the cell [lastTimeCalled[0]] *)
Definition read_lastTimeCalled : M Q :=
  fun w => (w, Ok (lastTimeCalled w)).

Definition write_lastTimeCalled (t : Q) : M unit :=
  fun w => (set_lastTimeCalled t w, Ok tt).

(** [rateLimitedFunction], the wrapper the decorator puts around [func] *)
Definition rateLimitedFunction (E : env) (minInterval : Q) {A} (func : M A) : M A :=
  now <- time_clock E ;;
  last <- read_lastTimeCalled ;;
  let elapsed := (now - last)%Q in
  let leftToWait := (minInterval - elapsed)%Q in
  (if Qle_bool leftToWait 0 then ret tt else time_sleep leftToWait) ;;
  r <- func ;;
  now' <- time_clock E ;;
  write_lastTimeCalled now' ;;
  ret r.

(** ** The table [fitbit.heart_rate]

    Every [Session] of the script is made by [sessionmaker(engine)], where
    [engine] is the one [Connection] of [db.connect()]. A Session that
    needs the connection begins a transaction on it, or joins the one that
    is open there. Its [commit()] ends the transaction only when the
    Session itself began it, and an exception in its flush rolls back the
    transaction of the connection, whoever began it. *)

(** The range of the INTEGER column [r_hr]. *)
Definition INT4_MIN : Z := - 2 ^ 31.
Definition INT4_MAX : Z := 2 ^ 31 - 1.

(** [None] (stored as NULL) or an int within the range of the column. *)
Definition fits_integer (v : pyval) : bool :=
  match v with
  | PNone => true
  | PInt n => (INT4_MIN <=? n) && (n <=? INT4_MAX)
  | _ => false
  end.

(** What the INSERT of [obj] stores, and under which date, when the date is
    not yet a key; or the exception the values are refused with.
    - A list or a dict as [date] cannot be hashed into the identity key of
      the object: [TypeError], before any statement is sent.
    - A [date] that is an int or a bool has the wrong type for the column:
      [ProgrammingError]; a string is read as a date literal; a literal,
      a document or an int that its column refuses gives [DataError].
    - The key is NOT NULL: [IntegrityError] for [None], once the other
      values have passed. *)
Definition insert_values (E : env) (obj : HeartRate.t) : result (Z * row) :=
  match HeartRate.date obj with
  | PList _ | PDict _ => Raise TypeError
  | date =>
      match HeartRate.r_hr obj with
      | PBool _ | PStr _ | PList _ | PDict _ => other_values E obj
      | r_hr =>
          match date with
          | PStr s =>
              match to_date E s, to_jsonb E (HeartRate.hr obj) with
              | Some d, Some hr =>
                  if fits_integer r_hr then Ok (d, Row r_hr hr)
                  else Raise DataError
              | _, _ => Raise DataError
              end
          | PNone =>
              match to_jsonb E (HeartRate.hr obj) with
              | Some _ =>
                  if fits_integer r_hr
                  then Raise (IntegrityError (error_text E obj))
                  else Raise DataError
              | None => Raise DataError
              end
          | _ => Raise ProgrammingError
          end
      end
  end.

(** [session.add(obj); session.commit()] on a new Session: one INSERT,
    refused with [IntegrityError] when the date is already a key of the
    table as the connection sees it. Any exception rolls back the
    transaction of the connection: the rows inserted since it was begun
    are gone. When the INSERT passes inside a transaction that was
    already open, the row stays in that transaction, uncommitted; with no
    transaction open, the Session begins one and its commit ends it. *)
Definition session_add_commit (E : env) (obj : HeartRate.t) : M unit :=
  fun w =>
    match insert_values E obj with
    | Raise e => (set_transaction None w, Raise e)
    | Ok (d, r) =>
        match seen w !! d with
        | Some _ =>
            (set_transaction None w, Raise (IntegrityError (error_text E obj)))
        | None =>
            match transaction w with
            | Some t => (set_transaction (Some (<[d := r]> t)) w, Ok tt)
            | None => (set_heart_rate (<[d := r]> (heart_rate w)) w, Ok tt)
            end
        end
    end.

(** Of two rows, the one with the later date. *)
Definition later (a b : Z * row) : Z * row := if fst a <? fst b then b else a.

(** [session.query(obj).order_by(desc(obj.date)).first()] *)
Definition query_first_by_date_desc (t : gmap Z row) : option (Z * row) :=
  match map_to_list t with
  | [] => None
  | x :: rest => Some (foldr later x rest)
  end.

(** The query of a Session that is never closed nor committed: it reads
    the table as the connection sees it, and leaves a transaction open on
    the connection (the one that was open, or one of its own). *)
Definition session_query_first : M (option (Z * row)) :=
  fun w =>
    (set_transaction (Some (seen w)) w, Ok (query_first_by_date_desc (seen w))).

(** [d.date] *)
Definition getattr_date (d : option (Z * row)) : result datetime.date :=
  match d with
  | Some (k, _) => Ok k
  | None => Raise AttributeError
  end.

(** ** The functions of the script *)

(** The three reads of [add_hr_to_db] and the object built from them. *)
Definition heart_rate_object (data : pyval) : result HeartRate.t :=
  rbind (rbind (rbind (getitem data "activities-heart") getitem0)
           (fun x => get x "dateTime")) (fun date =>
  rbind (rbind (get data "activities-heart-intraday")
           (fun x => get x "dataset")) (fun hr =>
  rbind (rbind (rbind (rbind (get data "activities-heart") getitem0)
                  (fun x => get x "value"))
           (fun x => get x "restingHeartRate")) (fun r_hr =>
  Ok (HeartRate.new date r_hr hr)))).

Definition add_hr_to_db (E : env) (data : pyval) : M unit :=
  obj <- lift (heart_rate_object data) ;;
  session_add_commit E obj.

(** [with open(in_file) as f: data = json.load(f)] *)
Definition json_load (in_file : string) : M pyval :=
  fun w =>
    match files w !! in_file with
    | None => (w, Raise IOError)
    | Some Garbage => (w, Raise ValueError)
    | Some (Json v) => (w, Ok v)
    end.

(** [with open(outfile, 'w') as out: json.dump(v, out)] *)
Definition json_dump (outfile : string) (v : pyval) : M unit :=
  fun w => (set_files (<[outfile := Json v]> (files w)) w, Ok tt).

Definition get_tokens (in_file : string) : M pyval :=
  data <- json_load in_file ;;
  id <- lift (getitem data "CLIENT_ID") ;;
  secret <- lift (getitem data "CLIENT_SECRET") ;;
  refresh <- lift (getitem data "REFRESH_TOKEN") ;;
  access <- lift (getitem data "ACCESS_TOKEN") ;;
  ret (PDict [("CLIENT_ID", id); ("CLIENT_SECRET", secret);
              ("REFRESH_TOKEN", refresh); ("ACCESS_TOKEN", access)]).

(** A remote call: recorded, then answered by the environment. *)
Definition remote (c : call) (reply : result pyval) : M pyval :=
  fun w => (set_calls (calls w ++ [c]) w, reply).

Definition update_tokens (E : env) (authd_client : Fitbit) (tokens : pyval)
    (outfile : string) : M Fitbit :=
  params <- remote (RefreshToken authd_client) (refresh_token_reply E) ;;
  r <- lift (getitem params "refresh_token") ;;
  tokens <- lift (setitem tokens "REFRESH_TOKEN" r) ;;
  a <- lift (getitem params "access_token") ;;
  tokens <- lift (setitem tokens "ACCESS_TOKEN" a) ;;
  json_dump outfile tokens ;;
  ret authd_client.

Definition set_client (E : env) (tokens_file : option string) : M Fitbit :=
  let tokens_file :=
    match tokens_file with None => "tokens.json" | Some f => f end in
  tokens <- get_tokens tokens_file ;;
  id <- lift (getitem tokens "CLIENT_ID") ;;
  secret <- lift (getitem tokens "CLIENT_SECRET") ;;
  access <- lift (getitem tokens "ACCESS_TOKEN") ;;
  refresh <- lift (getitem tokens "REFRESH_TOKEN") ;;
  let client := mkFitbit id secret access refresh in
  try_except_any
    (remote (Sleep client) (sleep_reply E) ;; ret client)
    (update_tokens E client tokens "tokens.json").

Definition get_most_recent_date (E : env) : M datetime.date :=
  try_except
    (d <- session_query_first ;;
     lift (getattr_date d))
    (fun e =>
       match e with
       | AttributeError => Some (lift (datetime.new 2015 12 26))
       | _ => None
       end).

Definition get_daily_data (E : env) (client : Fitbit) (base : base_date) : M pyval :=
  remote (IntradayTimeSeries client base) (intraday_reply E base).

(** [[get_daily_data(client, x) for x in dr]] *)
Fixpoint fetch_each (E : env) (client : Fitbit) (dr : generator datetime.date)
  : M (list pyval) :=
  match dr with
  | StopIteration => ret []
  | Throws e => raise e
  | Yield x rest =>
      v <- get_daily_data E client (OnDate x) ;;
      vs <- fetch_each E client rest ;;
      ret (v :: vs)
  end.

(** The body of [get_intra_hr], before decoration. [all([start_date,
    end_date])] holds when neither is [None]: a date is always true. *)
Definition get_intra_hr_body (E : env) (client : Fitbit)
    (start_date end_date : option datetime.date) : M (list pyval) :=
  match start_date, end_date with
  | Some s, Some e => fetch_each E client (daterange s e)
  | _, _ =>
      dr <- lift (datetime.sub (today E) 1) ;;
      v <- get_daily_data E client (OnText dr) ;;
      ret [v]
  end.

(** [@rate_limited(1)] *)
Definition get_intra_hr (E : env) (client : Fitbit)
    (start_date end_date : option datetime.date) : M (list pyval) :=
  match rate_limited 1 with
  | Raise e => raise e
  | Ok minInterval =>
      rateLimitedFunction E minInterval
        (get_intra_hr_body E client start_date end_date)
  end.

Definition print (line : string) : M unit :=
  fun w => (set_stdout (stdout w ++ [line]) w, Ok tt).

(** The end of a line *)
Definition newline : string := String (ascii_of_nat 10) EmptyString.

(** ["Integrity error raised.\n{}".format(e)] *)
Definition report (text : string) : string :=
  "Integrity error raised." ++ newline ++ text.

(** [for day in x: try: add_hr_to_db(day) except exc.IntegrityError as e: ...] *)
Fixpoint persist (E : env) (x : list pyval) : M unit :=
  match x with
  | [] => ret tt
  | day :: rest =>
      try_except (add_hr_to_db E day)
        (fun e =>
           match e with
           | IntegrityError text => Some (print (report text))
           | _ => None
           end) ;;
      persist E rest
  end.

Definition main (E : env) : M unit :=
  client <- set_client E None ;;
  start_date <- get_most_recent_date E ;;
  end_date <- lift (datetime.sub (today E) 1) ;;
  x <- get_intra_hr E client (Some start_date) (Some end_date) ;;
  persist E x.

(** ** Sample data

    A reader of ISO date literals for the Date column, a payload in the
    shape the remote service answers with, and small worlds. *)

Module Samples.

Definition digit (c : ascii) : option Z :=
  let n := Z.of_nat (nat_of_ascii c) in
  if (48 <=? n) && (n <=? 57) then Some (n - 48) else None.

Fixpoint number (acc : Z) (s : list ascii) : option Z :=
  match s with
  | [] => Some acc
  | c :: rest =>
      match digit c with
      | Some n => number (10 * acc + n) rest
      | None => None
      end
  end.

(** ['YYYY-MM-DD'] *)
Definition iso_date (s : string) : option Z :=
  match list_ascii_of_string s with
  | [y1; y2; y3; y4; "-"%char; m1; m2; "-"%char; d1; d2] =>
      match number 0 [y1; y2; y3; y4], number 0 [m1; m2], number 0 [d1; d2] with
      | Some y, Some m, Some d =>
          match datetime.new y m d with Ok o => Some o | Raise _ => None end
      | _, _, _ => None
      end
  | _ => None
  end.

Definition day_summary (date : string) (resting : Z) : pyval :=
  PDict [("dateTime", PStr date);
         ("value", PDict [("restingHeartRate", PInt resting)])].

Definition dataset : pyval :=
  PList [PDict [("time", PStr "00:00:00"); ("value", PInt 61)];
         PDict [("time", PStr "00:00:01"); ("value", PInt 62)]].

Definition payload (date : string) (resting : Z) : pyval :=
  PDict [("activities-heart", PList [day_summary date resting]);
         ("activities-heart-intraday", PDict [("dataset", dataset)])].

(** The same day without its intraday part. *)
Definition payload_no_intraday (date : string) (resting : Z) : pyval :=
  PDict [("activities-heart", PList [day_summary date resting])].

Definition d_2015_12_26 : datetime.date := 735958.
Definition d_2015_12_27 : datetime.date := 735959.
Definition d_2015_12_28 : datetime.date := 735960.
Definition d_2015_12_29 : datetime.date := 735961.
Definition d_2015_12_30 : datetime.date := 735962.
Definition d_2016_01_02 : datetime.date := 735965.
Definition d_2030_01_01 : datetime.date := 741078.

Definition text_of (d : datetime.date) : string :=
  if d =? d_2015_12_26 then "2015-12-26"
  else if d =? d_2015_12_27 then "2015-12-27"
  else if d =? d_2015_12_28 then "2015-12-28"
  else "2015-12-29".

Definition tokens : pyval :=
  PDict [("CLIENT_ID", PStr "22ABCD"); ("CLIENT_SECRET", PStr "s3cr3t");
         ("ACCESS_TOKEN", PStr "access-0"); ("REFRESH_TOKEN", PStr "refresh-0");
         ("NOTE", PStr "not a credential")].

Definition new_tokens : pyval :=
  PDict [("access_token", PStr "access-1"); ("refresh_token", PStr "refresh-1");
         ("expires_in", PInt 28800)].

Definition client : Fitbit :=
  mkFitbit (PStr "22ABCD") (PStr "s3cr3t") (PStr "access-0") (PStr "refresh-0").

Definition table (rows : list (Z * row)) : gmap Z row := list_to_map rows.

Definition a_row : row := Row (PInt 58) dataset.

(** The service has the days 2015-12-26 to 2015-12-29 and no other. *)
Definition served (d : datetime.date) : result pyval :=
  if (d_2015_12_26 <=? d) && (d <=? d_2015_12_29)
  then Ok (payload (text_of d) 58)
  else Raise (HTTPError 404).

(** The text of a rejected INSERT. *)
Definition error_text (obj : HeartRate.t) : string :=
  match HeartRate.date obj with
  | PStr s => "duplicate key value violates unique constraint: (date)=(" ++ s ++ ")"
  | _ => "null value in column date violates not-null constraint"
  end.

(** A world with the token file and the given table, before any run. *)
Definition world_with (t : gmap Z row) : world :=
  World {[ "tokens.json" := Json tokens ]} t [] [] 0 [] 0 None.

(** An environment with the given date, probe reply, refresh reply and
    fetch replies; documents are stored as given. *)
Definition env_with (today : datetime.date) (probe refresh : result pyval)
    (fetch : datetime.date -> result pyval) : env :=
  Env today (fun n => inject_Z (Z.of_nat n)) probe refresh
    (fun b => match b with OnDate d | OnText d => fetch d end)
    iso_date (fun v => Some v) (fun _ => Raise ProgrammingError) error_text.

(** The probe succeeds. *)
Definition env_ok (today : datetime.date) : env :=
  env_with today (Ok (PDict [])) (Ok new_tokens) served.

(** The probe fails with 401, the refresh succeeds. *)
Definition env_expired (today : datetime.date) : env :=
  env_with today (Raise (HTTPError 401)) (Ok new_tokens) served.

(** The probe and the refresh both fail. *)
Definition env_revoked (today : datetime.date) : env :=
  env_with today (Raise (HTTPError 401)) (Raise (HTTPError 400)) served.

(** The fetch of 2015-12-27 fails with 500, the others are served. *)
Definition env_one_bad_day (today : datetime.date) : env :=
  env_with today (Ok (PDict [])) (Ok new_tokens)
    (fun d => if d =? d_2015_12_27 then Raise (HTTPError 500) else served d).

End Samples.

(** ** Notions used in the statements *)

(** A computation leaves a component of the world as it found it. *)
Definition preserves {B} (proj : world -> B) {A} (c : M A) : Prop :=
  forall w, proj (fst (c w)) = proj w.

(** A remote call that is a fetch made through client [c]. *)
Definition fetched_by (c : Fitbit) (x : call) : Prop :=
  exists b, x = IntradayTimeSeries c b.

(** The fetch of day [d], as a call. *)
Definition fetch_of (c : Fitbit) (d : datetime.date) : call :=
  IntradayTimeSeries c (OnDate d).

(** The payload served for day [d] ([None] stands in when the fetch fails). *)
Definition payload_of (E : env) (d : datetime.date) : pyval :=
  match intraday_reply E (OnDate d) with
  | Ok v => v
  | Raise _ => PNone
  end.

(** The world in which the function wrapped by the rate limiter starts:
    the clock has been read once and the wait, if any, has been slept. *)
Definition before_call (E : env) (minInterval : Q) (w : world) : world :=
  let now := clock E (clock_reads w) in
  let leftToWait := (minInterval - (now - lastTimeCalled w))%Q in
  let w1 := set_clock_reads (S (clock_reads w)) w in
  if Qle_bool leftToWait 0 then w1 else set_sleeps (sleeps w1 ++ [leftToWait]) w1.

(** The world the rate limiter leaves once the wrapped function, which
    ended in [w], has returned: the clock is read again and remembered. *)
Definition after_call (E : env) (w : world) : world :=
  set_lastTimeCalled (clock E (clock_reads w))
    (set_clock_reads (S (clock_reads w)) w).

(** [date(2015, 12, 26)], the date returned for a table without rows. *)
Definition epoch : datetime.date := 735958.

(** What [add_hr_to_db] would insert for a payload, and under which date,
    when the three reads succeed and the values are accepted. *)
Definition row_of (E : env) (data : pyval) : result (Z * row) :=
  rbind (heart_rate_object data) (insert_values E).

(** The date under which [add_hr_to_db] inserts the row of a payload. *)
Definition key_of (E : env) (data : pyval) : result Z :=
  rbind (row_of E data) (fun dr => Ok (fst dr)).

(** The payload is one whose insert would be under a date that is
    already a key of table [t]. *)
Definition already_stored (E : env) (t : gmap Z row) (data : pyval) : Prop :=
  exists d, key_of E data = Ok d /\ is_Some (t !! d).

(** The values a generator yields before it ends. *)
Fixpoint yielded {A} (g : generator A) : list A :=
  match g with
  | Yield a rest => a :: yielded rest
  | StopIteration | Throws _ => []
  end.

(** The service answers the fetch of a day with that day's payload: when a
    row can be built from the payload served for day [k], its date is [k]. *)
Definition dated_as_asked (E : env) : Prop :=
  forall k d, key_of E (payload_of E k) = Ok d -> d = k.

(** What a read gives for an entry that may be absent. *)
Definition or_None (v : option pyval) : pyval :=
  match v with Some x => x | None => PNone end.

(** The text of an [IntegrityError], no text for another exception. *)
Definition integrity_text (e : exn) : option string :=
  match e with
  | IntegrityError text => Some text
  | _ => None
  end.

(** The world in which the next run of the script starts: the process has
    ended, so the transaction left open on its connection is gone with
    the rows that were not committed, and [lastTimeCalled] is a new cell. *)
Definition restart (w : world) : world :=
  set_transaction None (set_lastTimeCalled 0 w).

(** * Properties *)

Example maxordinal_is_9999_12_31 : datetime.new 9999 12 31 = Ok datetime.MAXORDINAL.
Proof. reflexivity. Qed.

Example ordinal_2015_12_26 : datetime.new 2015 12 26 = Ok Samples.d_2015_12_26.
Proof. reflexivity. Qed.

Example ordinal_2030_01_01 : datetime.new 2030 1 1 = Ok Samples.d_2030_01_01.
Proof. reflexivity. Qed.

Example ordinal_2016_01_02 :
  datetime.new 2016 1 2 = Ok Samples.d_2016_01_02
  /\ datetime.new 2015 12 30 = Ok Samples.d_2015_12_30.
Proof. split; reflexivity. Qed.

Example daterange_3 : daterange 735958 735960 = yields [735958; 735959; 735960].
Proof. reflexivity. Qed.

Example sample_dates :
  Samples.iso_date "2015-12-26" = Some Samples.d_2015_12_26
  /\ Samples.iso_date "2015-12-27" = Some Samples.d_2015_12_27
  /\ Samples.iso_date "2015-12-28" = Some Samples.d_2015_12_28
  /\ Samples.iso_date "2015-12-29" = Some Samples.d_2015_12_29
  /\ Samples.iso_date "2015-02-29" = None
  /\ Samples.iso_date "2016-02-29" = Some 736023.
Proof. repeat split; reflexivity. Qed.

(** ** The date range *)

Lemma in_range_valid (d : datetime.date) :
  datetime.valid d -> datetime.in_range d = true.
Proof.
  unfold datetime.valid, datetime.in_range. intros [H1 H2].
  apply andb_true_intro. split; apply Z.leb_le; assumption.
Qed.

Lemma daterange_loop_yields (s : datetime.date) (ns : list Z) :
  Forall (fun n => datetime.valid (s + n)) ns ->
  daterange_loop s ns = yields (Z.add s <$> ns).
Proof.
  induction 1 as [|n ns Hn _ IH]; simpl; [reflexivity|].
  unfold datetime.add. rewrite (in_range_valid _ Hn), IH. reflexivity.
Qed.

Lemma daterange_yields (s e : datetime.date) :
  datetime.valid s -> datetime.valid e ->
  daterange s e = yields (seqZ s (e - s + 1)).
Proof.
  intros Hs He. unfold daterange, range, datetime.days_between.
  rewrite daterange_loop_yields.
  - rewrite fmap_add_seqZ. f_equal. f_equal. lia.
  - apply Forall_seqZ. intros n Hn. unfold datetime.valid in *. lia.
Qed.

(** C3. For two dates with [start_date <= end_date], [daterange] yields
    exactly [(end_date - start_date).days + 1] dates and returns: the first
    is [start_date], the last is [end_date], each next one is the day after
    the one before (strictly ascending, no gap), none occurs twice, and the
    dates yielded are exactly those from [start_date] to [end_date]. *)
Theorem daterange_inclusive (start_date end_date : datetime.date) :
  datetime.valid start_date -> datetime.valid end_date ->
  start_date <= end_date ->
  exists l : list datetime.date,
    daterange start_date end_date = yields l
    /\ Z.of_nat (length l) = datetime.days_between end_date start_date + 1
    /\ head l = Some start_date
    /\ last l = Some end_date
    /\ (forall i a b, l !! i = Some a -> l !! S i = Some b -> b = a + 1)
    /\ NoDup l
    /\ (forall d, d ∈ l <-> start_date <= d <= end_date).
Proof.
  intros Hs He Hle. exists (seqZ start_date (end_date - start_date + 1)).
  split; [apply daterange_yields; assumption|].
  unfold datetime.days_between.
  repeat split.
  - rewrite length_seqZ. lia.
  - rewrite head_lookup, lookup_seqZ_lt by lia. f_equal. lia.
  - rewrite last_lookup, length_seqZ, lookup_seqZ_lt by lia. f_equal. lia.
  - intros i a b Ha Hb. apply lookup_seqZ in Ha, Hb. lia.
  - apply NoDup_seqZ.
  - rewrite elem_of_seqZ in H. lia.
  - rewrite elem_of_seqZ in H. lia.
  - intros [H1 H2]. apply elem_of_seqZ. lia.
Qed.

Lemma daterange_inclusive_witness :
  exists l : list datetime.date,
    daterange Samples.d_2015_12_26 Samples.d_2015_12_28 = yields l
    /\ Z.of_nat (length l) = 3
    /\ head l = Some Samples.d_2015_12_26
    /\ last l = Some Samples.d_2015_12_28.
Proof.
  destruct (daterange_inclusive Samples.d_2015_12_26 Samples.d_2015_12_28)
    as (l & H1 & H2 & H3 & H4 & _).
  - unfold datetime.valid; vm_compute; split; discriminate.
  - unfold datetime.valid; vm_compute; split; discriminate.
  - vm_compute; discriminate.
  - exists l. repeat split; assumption.
Defined.

(** C4. For two dates with [start_date > end_date], [daterange] yields
    nothing and returns without raising. *)
Theorem daterange_empty (start_date end_date : datetime.date) :
  end_date < start_date ->
  daterange start_date end_date = StopIteration.
Proof.
  intros Hlt. unfold daterange, range, datetime.days_between.
  rewrite seqZ_nil by lia. reflexivity.
Qed.

Lemma daterange_empty_witness :
  daterange Samples.d_2015_12_28 Samples.d_2015_12_26 = StopIteration.
Proof. apply daterange_empty. vm_compute. reflexivity. Defined.

(** ** The watermark *)

Lemma later_foldr_elem (x : Z * row) (rest : list (Z * row)) :
  foldr later x rest ∈ x :: rest.
Proof.
  induction rest as [|y rest IH]; simpl.
  - apply list_elem_of_here.
  - unfold later at 1. destruct (fst y <? fst (foldr later x rest)).
    + apply elem_of_cons in IH as [->|IH].
      * apply list_elem_of_here.
      * do 2 apply list_elem_of_further. exact IH.
    + apply list_elem_of_further, list_elem_of_here.
Qed.

Lemma later_foldr_max (x : Z * row) (rest : list (Z * row)) (y : Z * row) :
  y ∈ x :: rest -> fst y <= fst (foldr later x rest).
Proof.
  induction rest as [|z rest IH]; simpl; intros Hy.
  - apply elem_of_cons in Hy as [->|Hy]; [lia|]. inversion Hy.
  - unfold later at 1.
    destruct (Z.ltb_spec (fst z) (fst (foldr later x rest))) as [Hlt|Hge].
    + apply elem_of_cons in Hy as [->|Hy]; [apply IH, list_elem_of_here|].
      apply elem_of_cons in Hy as [->|Hy]; [lia|].
      apply IH, list_elem_of_further, Hy.
    + apply elem_of_cons in Hy as [->|Hy].
      { pose proof (IH (list_elem_of_here _ _)). lia. }
      apply elem_of_cons in Hy as [->|Hy]; [lia|].
      pose proof (IH (list_elem_of_further _ _ _ Hy)). lia.
Qed.

Lemma query_first_empty (t : gmap Z row) :
  t = ∅ -> query_first_by_date_desc t = None.
Proof. intros ->. unfold query_first_by_date_desc. rewrite map_to_list_empty. reflexivity. Qed.

(** On a table with rows, the query returns the row of the latest date. *)
Lemma query_first_latest (t : gmap Z row) :
  t <> ∅ ->
  exists d r, query_first_by_date_desc t = Some (d, r)
    /\ t !! d = Some r
    /\ forall k, is_Some (t !! k) -> k <= d.
Proof.
  intros Hne. unfold query_first_by_date_desc.
  destruct (map_to_list t) as [|x rest] eqn:Hl.
  { apply map_to_list_empty_iff in Hl. contradiction. }
  destruct (foldr later x rest) as [d r] eqn:Hf.
  exists d, r. split; [reflexivity|]. split.
  - apply elem_of_map_to_list. rewrite Hl, <- Hf. apply later_foldr_elem.
  - intros k [rk Hk]. apply elem_of_map_to_list in Hk. rewrite Hl in Hk.
    apply later_foldr_max in Hk. rewrite Hf in Hk. exact Hk.
Qed.

Lemma seen_committed (w : world) : transaction w = None -> seen w = heart_rate w.
Proof. unfold seen. intros ->. reflexivity. Qed.

Lemma seen_in_transaction (w : world) t : transaction w = Some t -> seen w = t.
Proof. unfold seen. intros ->. reflexivity. Qed.

Lemma set_transaction_same (w : world) : set_transaction (transaction w) w = w.
Proof. destruct w; reflexivity. Qed.

Lemma get_most_recent_date_eq (E : env) (w : world) :
  get_most_recent_date E w
  = (set_transaction (Some (seen w)) w,
     match query_first_by_date_desc (seen w) with
     | Some (d, _) => Ok d
     | None => datetime.new 2015 12 26
     end).
Proof.
  unfold get_most_recent_date, try_except, bind, lift, session_query_first.
  destruct (query_first_by_date_desc (seen w)) as [[d r]|]; reflexivity.
Qed.

(** C5. On a table without rows the query's [first()] is [None], the
    [AttributeError] of [None.date] is caught, and [get_most_recent_date]
    returns [date(2015, 12, 26)]; on a table with rows it returns the
    latest stored date. Neither case raises. The table is the one the
    connection sees, which is the committed table when no transaction is
    open on it; the one thing the call changes is that the Session it was
    given, which nobody closes, leaves a transaction open. *)
Theorem get_most_recent_date_watermark (E : env) (w : world) :
  (seen w = ∅ ->
     get_most_recent_date E w
     = (set_transaction (Some (seen w)) w, datetime.new 2015 12 26)
     /\ datetime.new 2015 12 26 = Ok epoch)
  /\ (seen w <> ∅ ->
      exists d,
        get_most_recent_date E w = (set_transaction (Some (seen w)) w, Ok d)
        /\ is_Some (seen w !! d)
        /\ forall k, is_Some (seen w !! k) -> k <= d)
  /\ (transaction w = None -> seen w = heart_rate w).
Proof.
  rewrite get_most_recent_date_eq. split; [|split].
  - intros Hempty. rewrite (query_first_empty _ Hempty). split; reflexivity.
  - intros Hne. destruct (query_first_latest _ Hne) as (d & r & -> & Hd & Hmax).
    exists d. split; [reflexivity|]. split; [exists r; exact Hd | exact Hmax].
  - apply seen_committed.
Qed.

Lemma get_most_recent_date_watermark_witness :
  snd (get_most_recent_date (Samples.env_ok Samples.d_2016_01_02)
         (Samples.world_with ∅)) = Ok epoch
  /\ exists d,
      snd (get_most_recent_date (Samples.env_ok Samples.d_2016_01_02)
             (Samples.world_with
                (Samples.table [(Samples.d_2015_12_30, Samples.a_row);
                                (Samples.d_2016_01_02, Samples.a_row)]))) = Ok d
      /\ Samples.d_2015_12_30 <= d /\ Samples.d_2016_01_02 <= d.
Proof.
  split.
  - destruct (get_most_recent_date_watermark (Samples.env_ok Samples.d_2016_01_02)
                (Samples.world_with ∅)) as [H _].
    destruct H as [-> ->]; reflexivity.
  - destruct (get_most_recent_date_watermark (Samples.env_ok Samples.d_2016_01_02)
                (Samples.world_with
                   (Samples.table [(Samples.d_2015_12_30, Samples.a_row);
                                   (Samples.d_2016_01_02, Samples.a_row)])))
      as (_ & H & _).
    destruct H as (d & -> & _ & Hmax).
    + intros Hempty.
      apply (f_equal (fun t : gmap Z row => t !! Samples.d_2015_12_30)) in Hempty.
      vm_compute in Hempty. discriminate.
    + exists d. split; [reflexivity|].
      split; apply Hmax; vm_compute; eauto.
Defined.

Example watermark_of_two_dates :
  snd (get_most_recent_date (Samples.env_ok Samples.d_2016_01_02)
         (Samples.world_with
            (Samples.table [(Samples.d_2015_12_30, Samples.a_row);
                            (Samples.d_2016_01_02, Samples.a_row)])))
  = Ok Samples.d_2016_01_02.
Proof. vm_compute. reflexivity. Qed.

(** C6, as stated, fails: with 2030-01-01 in the table and the system
    date at 2015-12-29, [get_most_recent_date] returns 2030-01-01. *)
Lemma watermark_in_future :
  snd (get_most_recent_date (Samples.env_ok Samples.d_2015_12_29)
         (Samples.world_with (Samples.table [(Samples.d_2030_01_01, Samples.a_row)])))
  = Ok Samples.d_2030_01_01
  /\ today (Samples.env_ok Samples.d_2015_12_29) < Samples.d_2030_01_01.
Proof. split; vm_compute; reflexivity. Qed.

(** C6, amended. [get_most_recent_date] never looks at the system date: it
    returns the latest date of the table as the connection sees it, or
    2015-12-26 for a table without rows. So its result is not in the
    future when no stored date is and the system date is not before
    2015-12-26. *)
Theorem watermark_not_in_future (E : env) (w : world) :
  epoch <= today E ->
  (forall k, is_Some (seen w !! k) -> k <= today E) ->
  exists d,
    get_most_recent_date E w = (set_transaction (Some (seen w)) w, Ok d)
    /\ d <= today E.
Proof.
  intros Hdefault Hstored. rewrite get_most_recent_date_eq.
  destruct (decide (seen w = ∅)) as [Hempty|Hne].
  - rewrite (query_first_empty _ Hempty). exists epoch.
    split; [reflexivity | exact Hdefault].
  - destruct (query_first_latest _ Hne) as (d & r & -> & Hd & _).
    exists d. split; [reflexivity|]. apply Hstored. exists r. exact Hd.
Qed.

Lemma watermark_not_in_future_witness :
  exists d,
    snd (get_most_recent_date (Samples.env_ok Samples.d_2016_01_02)
           (Samples.world_with (Samples.table [(Samples.d_2015_12_30, Samples.a_row)])))
    = Ok d
    /\ d <= Samples.d_2016_01_02.
Proof.
  destruct (watermark_not_in_future (Samples.env_ok Samples.d_2016_01_02)
              (Samples.world_with
                 (Samples.table [(Samples.d_2015_12_30, Samples.a_row)])))
    as (d & Hd & Hle).
  - vm_compute. discriminate.
  - intros k [r Hk]. unfold seen in Hk. simpl in *.
    unfold Samples.table in Hk. simpl in Hk.
    apply lookup_insert_Some in Hk as [[<- _]|[_ Hk]].
    + vm_compute. discriminate.
    + rewrite lookup_empty in Hk. discriminate.
  - exists d. rewrite Hd. split; [reflexivity | exact Hle].
Defined.

(** ** The rate limiter's construction *)

Lemma float_limit_positive : (FLOAT_LIMIT <=? 0) = false.
Proof. vm_compute. reflexivity. Qed.

Lemma Qeq_bool_inject_Z_0 (n : Z) : n <> 0 -> Qeq_bool (inject_Z n) 0 = false.
Proof.
  intros Hn. unfold Qeq_bool, inject_Z. simpl.
  apply Z.eqb_neq. lia.
Qed.

(** C8, as stated, fails: the non-positive rate [-1] is accepted, with
    the negative interval [-1] captured by the decorator. *)
Lemma negative_rate_accepted : rate_limited (-1) = Ok (-1 # 1)%Q.
Proof. vm_compute. reflexivity. Qed.

(** C8, amended. [rate_limited] checks nothing about its argument. The
    rate [0] raises [ZeroDivisionError] from [1.0 / float(0)]; every other
    rate that [float] can convert, negative or positive, is accepted and
    gives [minInterval = 1 / maxPerSecond]; an int too large for [float]
    raises [OverflowError]. *)
Theorem rate_limited_construction (maxPerSecond : Z) :
  (maxPerSecond = 0 -> rate_limited maxPerSecond = Raise ZeroDivisionError)
  /\ (maxPerSecond <> 0 -> Z.abs maxPerSecond < FLOAT_LIMIT ->
      rate_limited maxPerSecond = Ok (1 / inject_Z maxPerSecond)%Q)
  /\ (FLOAT_LIMIT <= Z.abs maxPerSecond ->
      rate_limited maxPerSecond = Raise OverflowError).
Proof.
  unfold rate_limited, float, truediv. repeat split.
  - intros ->. change (Z.abs 0) with 0.
    pose proof float_limit_positive as Hpos. rewrite Hpos. reflexivity.
  - intros Hn Hlt.
    destruct (Z.leb_spec FLOAT_LIMIT (Z.abs maxPerSecond)) as [Hge|_]; [lia|].
    simpl. rewrite (Qeq_bool_inject_Z_0 _ Hn). reflexivity.
  - intros Hge.
    destruct (Z.leb_spec FLOAT_LIMIT (Z.abs maxPerSecond)) as [_|Hlt]; [|lia].
    reflexivity.
Qed.

Lemma rate_limited_construction_witness :
  rate_limited 0 = Raise ZeroDivisionError
  /\ rate_limited 1 = Ok (1 / inject_Z 1)%Q
  /\ rate_limited (-3) = Ok (1 / inject_Z (-3))%Q
  /\ rate_limited (2 ^ 1024) = Raise OverflowError.
Proof.
  split; [|split; [|split]].
  - apply (rate_limited_construction 0). reflexivity.
  - apply (rate_limited_construction 1); [discriminate | vm_compute; reflexivity].
  - apply (rate_limited_construction (-3)); [discriminate | vm_compute; reflexivity].
  - apply (rate_limited_construction (2 ^ 1024)). vm_compute. discriminate.
Defined.

(** ** What each computation leaves untouched *)

Section Frame.
Context {B : Type} (proj : world -> B).

Lemma preserves_ret {A} (a : A) : preserves proj (ret a).
Proof. intros w. reflexivity. Qed.

Lemma preserves_raise {A} (e : exn) : preserves proj (@raise A e).
Proof. intros w. reflexivity. Qed.

Lemma preserves_lift {A} (r : result A) : preserves proj (lift r).
Proof. intros w. reflexivity. Qed.

Lemma preserves_bind {A C} (c : M A) (k : A -> M C) :
  preserves proj c -> (forall a, preserves proj (k a)) ->
  preserves proj (bind c k).
Proof.
  intros Hc Hk w. unfold bind. specialize (Hc w).
  destruct (c w) as [w' [a|e]]; simpl in *.
  - rewrite Hk. exact Hc.
  - exact Hc.
Qed.

Lemma preserves_try_except {A} (c : M A) (except : exn -> option (M A)) :
  preserves proj c -> (forall e h, except e = Some h -> preserves proj h) ->
  preserves proj (try_except c except).
Proof.
  intros Hc Hh w. unfold try_except. specialize (Hc w).
  destruct (c w) as [w' [a|e']]; simpl in *; [exact Hc|].
  destruct (except e') as [h|] eqn:He; simpl; [rewrite (Hh _ _ He)|]; exact Hc.
Qed.

Lemma preserves_try_except_any {A} (c h : M A) :
  preserves proj c -> preserves proj h -> preserves proj (try_except_any c h).
Proof.
  intros Hc Hh w. unfold try_except_any. specialize (Hc w).
  destruct (c w) as [w' [a|e']]; simpl in *; [exact Hc|].
  rewrite Hh. exact Hc.
Qed.

Lemma preserves_if {A} (b : bool) (c d : M A) :
  preserves proj c -> preserves proj d -> preserves proj (if b then c else d).
Proof. destruct b; auto. Qed.

Lemma preserves_read_lastTimeCalled : preserves proj read_lastTimeCalled.
Proof. intros w. reflexivity. Qed.

Lemma preserves_json_load (f : string) : preserves proj (json_load f).
Proof. intros w. unfold json_load. destruct (files w !! f) as [[v|]|]; reflexivity. Qed.
End Frame.

Create HintDb frame.
#[local] Hint Resolve preserves_ret preserves_raise preserves_lift preserves_bind
  preserves_try_except_any preserves_if
  preserves_read_lastTimeCalled preserves_json_load : frame.

Lemma remote_keeps_table c r : preserves heart_rate (remote c r).
Proof. intros w. reflexivity. Qed.
Lemma remote_keeps_stdout c r : preserves stdout (remote c r).
Proof. intros w. reflexivity. Qed.
Lemma remote_keeps_files c r : preserves files (remote c r).
Proof. intros w. reflexivity. Qed.
Lemma json_dump_keeps_table f v : preserves heart_rate (json_dump f v).
Proof. intros w. reflexivity. Qed.
Lemma json_dump_keeps_stdout f v : preserves stdout (json_dump f v).
Proof. intros w. reflexivity. Qed.
Lemma json_dump_keeps_calls f v : preserves calls (json_dump f v).
Proof. intros w. reflexivity. Qed.
Lemma print_keeps_table l : preserves heart_rate (print l).
Proof. intros w. reflexivity. Qed.
Lemma print_keeps_files l : preserves files (print l).
Proof. intros w. reflexivity. Qed.
Lemma print_keeps_calls l : preserves calls (print l).
Proof. intros w. reflexivity. Qed.
Lemma time_clock_keeps_table E : preserves heart_rate (time_clock E).
Proof. intros w. reflexivity. Qed.
Lemma time_clock_keeps_stdout E : preserves stdout (time_clock E).
Proof. intros w. reflexivity. Qed.
Lemma time_clock_keeps_files E : preserves files (time_clock E).
Proof. intros w. reflexivity. Qed.
Lemma time_clock_keeps_calls E : preserves calls (time_clock E).
Proof. intros w. reflexivity. Qed.
Lemma time_sleep_keeps_table t : preserves heart_rate (time_sleep t).
Proof. intros w. reflexivity. Qed.
Lemma time_sleep_keeps_stdout t : preserves stdout (time_sleep t).
Proof. intros w. reflexivity. Qed.
Lemma time_sleep_keeps_files t : preserves files (time_sleep t).
Proof. intros w. reflexivity. Qed.
Lemma time_sleep_keeps_calls t : preserves calls (time_sleep t).
Proof. intros w. reflexivity. Qed.
Lemma write_last_keeps_table t : preserves heart_rate (write_lastTimeCalled t).
Proof. intros w. reflexivity. Qed.
Lemma write_last_keeps_stdout t : preserves stdout (write_lastTimeCalled t).
Proof. intros w. reflexivity. Qed.
Lemma write_last_keeps_files t : preserves files (write_lastTimeCalled t).
Proof. intros w. reflexivity. Qed.
Lemma write_last_keeps_calls t : preserves calls (write_lastTimeCalled t).
Proof. intros w. reflexivity. Qed.
Lemma remote_keeps_transaction c r : preserves transaction (remote c r).
Proof. intros w. reflexivity. Qed.
Lemma json_dump_keeps_transaction f v : preserves transaction (json_dump f v).
Proof. intros w. reflexivity. Qed.
Lemma print_keeps_transaction l : preserves transaction (print l).
Proof. intros w. reflexivity. Qed.
Lemma time_clock_keeps_transaction E : preserves transaction (time_clock E).
Proof. intros w. reflexivity. Qed.
Lemma time_sleep_keeps_transaction t : preserves transaction (time_sleep t).
Proof. intros w. reflexivity. Qed.
Lemma write_last_keeps_transaction t : preserves transaction (write_lastTimeCalled t).
Proof. intros w. reflexivity. Qed.

Ltac commit_cases E o w :=
  unfold session_add_commit;
  destruct (insert_values E o) as [[? ?]|]; [|reflexivity];
  destruct (seen w !! _); [reflexivity|];
  destruct (transaction w); reflexivity.

Lemma commit_keeps_files E o : preserves files (session_add_commit E o).
Proof. intros w. commit_cases E o w. Qed.
Lemma commit_keeps_calls E o : preserves calls (session_add_commit E o).
Proof. intros w. commit_cases E o w. Qed.
Lemma commit_keeps_stdout E o : preserves stdout (session_add_commit E o).
Proof. intros w. commit_cases E o w. Qed.

#[local] Hint Resolve remote_keeps_table remote_keeps_stdout remote_keeps_files
  json_dump_keeps_table json_dump_keeps_stdout json_dump_keeps_calls
  print_keeps_table print_keeps_files print_keeps_calls
  time_clock_keeps_table time_clock_keeps_stdout time_clock_keeps_files
  time_clock_keeps_calls time_sleep_keeps_table time_sleep_keeps_stdout
  time_sleep_keeps_files time_sleep_keeps_calls write_last_keeps_table
  write_last_keeps_stdout write_last_keeps_files write_last_keeps_calls
  commit_keeps_files commit_keeps_calls commit_keeps_stdout
  remote_keeps_transaction json_dump_keeps_transaction
  print_keeps_transaction time_clock_keeps_transaction
  time_sleep_keeps_transaction write_last_keeps_transaction : frame.

Ltac frame := repeat (progress (intros; cbv zeta)); eauto 30 with frame.

Lemma get_tokens_keeps {B} (proj : world -> B) f : preserves proj (get_tokens f).
Proof. unfold get_tokens. frame. Qed.

Lemma update_tokens_keeps_table E c t f : preserves heart_rate (update_tokens E c t f).
Proof. unfold update_tokens. frame. Qed.

Lemma update_tokens_keeps_stdout E c t f : preserves stdout (update_tokens E c t f).
Proof. unfold update_tokens. frame. Qed.
Lemma update_tokens_keeps_transaction E c t f :
  preserves transaction (update_tokens E c t f).
Proof. unfold update_tokens. frame. Qed.

#[local] Hint Resolve get_tokens_keeps update_tokens_keeps_table
  update_tokens_keeps_stdout update_tokens_keeps_transaction : frame.

(** [set_client] touches the token file and the service, not the table
    nor the connection. *)
Lemma set_client_keeps_table E f : preserves heart_rate (set_client E f).
Proof. unfold set_client. frame. Qed.

Lemma set_client_keeps_stdout E f : preserves stdout (set_client E f).
Proof. unfold set_client. frame. Qed.

Lemma set_client_keeps_transaction E f : preserves transaction (set_client E f).
Proof. unfold set_client. frame. Qed.

Lemma set_client_keeps_seen E f w : seen (fst (set_client E f w)) = seen w.
Proof.
  unfold seen. rewrite (set_client_keeps_transaction E f w),
    (set_client_keeps_table E f w). reflexivity.
Qed.

Lemma get_daily_data_keeps_table E c b : preserves heart_rate (get_daily_data E c b).
Proof. unfold get_daily_data. frame. Qed.
Lemma get_daily_data_keeps_stdout E c b : preserves stdout (get_daily_data E c b).
Proof. unfold get_daily_data. frame. Qed.
Lemma get_daily_data_keeps_files E c b : preserves files (get_daily_data E c b).
Proof. unfold get_daily_data. frame. Qed.
Lemma get_daily_data_keeps_transaction E c b :
  preserves transaction (get_daily_data E c b).
Proof. unfold get_daily_data. frame. Qed.

#[local] Hint Resolve set_client_keeps_table set_client_keeps_stdout
  get_daily_data_keeps_table
  get_daily_data_keeps_stdout get_daily_data_keeps_files
  get_daily_data_keeps_transaction : frame.

Lemma fetch_each_keeps_table E c g : preserves heart_rate (fetch_each E c g).
Proof. induction g; simpl; frame. Qed.
Lemma fetch_each_keeps_stdout E c g : preserves stdout (fetch_each E c g).
Proof. induction g; simpl; frame. Qed.
Lemma fetch_each_keeps_files E c g : preserves files (fetch_each E c g).
Proof. induction g; simpl; frame. Qed.
Lemma fetch_each_keeps_transaction E c g : preserves transaction (fetch_each E c g).
Proof. induction g; simpl; frame. Qed.

#[local] Hint Resolve fetch_each_keeps_table fetch_each_keeps_stdout
  fetch_each_keeps_files fetch_each_keeps_transaction : frame.

Lemma rate_limited_1 : rate_limited 1 = Ok 1%Q.
Proof. vm_compute. reflexivity. Qed.

Lemma rateLimitedFunction_keeps {B} (proj : world -> B) E mi {A} (func : M A) :
  preserves proj (time_clock E) ->
  (forall t, preserves proj (time_sleep t)) ->
  (forall t, preserves proj (write_lastTimeCalled t)) ->
  preserves proj func ->
  preserves proj (rateLimitedFunction E mi func).
Proof. intros. unfold rateLimitedFunction. frame. Qed.

Lemma get_intra_hr_body_keeps_table E c s e :
  preserves heart_rate (get_intra_hr_body E c s e).
Proof. unfold get_intra_hr_body. destruct s, e; frame. Qed.
Lemma get_intra_hr_body_keeps_files E c s e :
  preserves files (get_intra_hr_body E c s e).
Proof. unfold get_intra_hr_body. destruct s, e; frame. Qed.
Lemma get_intra_hr_body_keeps_transaction E c s e :
  preserves transaction (get_intra_hr_body E c s e).
Proof. unfold get_intra_hr_body. destruct s, e; frame. Qed.

(** The fetch touches neither the table, nor the connection, nor the
    files, nor the output. *)
Lemma get_intra_hr_keeps_table E c s e : preserves heart_rate (get_intra_hr E c s e).
Proof.
  unfold get_intra_hr. pose proof rate_limited_1 as H1. rewrite H1.
  apply rateLimitedFunction_keeps; frame. apply get_intra_hr_body_keeps_table.
Qed.
Lemma get_intra_hr_keeps_files E c s e : preserves files (get_intra_hr E c s e).
Proof.
  unfold get_intra_hr. pose proof rate_limited_1 as H1. rewrite H1.
  apply rateLimitedFunction_keeps; frame. apply get_intra_hr_body_keeps_files.
Qed.
Lemma get_intra_hr_keeps_transaction E c s e :
  preserves transaction (get_intra_hr E c s e).
Proof.
  unfold get_intra_hr. pose proof rate_limited_1 as H1. rewrite H1.
  apply rateLimitedFunction_keeps; frame. apply get_intra_hr_body_keeps_transaction.
Qed.

Lemma add_hr_to_db_keeps_files E day : preserves files (add_hr_to_db E day).
Proof. unfold add_hr_to_db. frame. Qed.
Lemma add_hr_to_db_keeps_calls E day : preserves calls (add_hr_to_db E day).
Proof. unfold add_hr_to_db. frame. Qed.
Lemma add_hr_to_db_keeps_stdout E day : preserves stdout (add_hr_to_db E day).
Proof. unfold add_hr_to_db. frame. Qed.


(** One turn of the loop leaves alone what the insert and the print do. *)
Lemma persist_turn_keeps {B} (proj : world -> B) E day :
  preserves proj (add_hr_to_db E day) ->
  (forall l, preserves proj (print l)) ->
  preserves proj
    (try_except (add_hr_to_db E day)
       (fun e =>
          match e with
          | IntegrityError text => Some (print (report text))
          | _ => None
          end)).
Proof.
  intros Ha Hp. apply preserves_try_except; [exact Ha|].
  intros e h He. destruct e; inversion He; subst. apply Hp.
Qed.

#[local] Hint Resolve add_hr_to_db_keeps_files add_hr_to_db_keeps_calls
  persist_turn_keeps : frame.

(** The persistence loop touches neither the files nor the service. *)
Lemma persist_keeps_files E x : preserves files (persist E x).
Proof. induction x; simpl; frame. Qed.
Lemma persist_keeps_calls E x : preserves calls (persist E x).
Proof. induction x; simpl; frame. Qed.

(** ** The rate-limited fetch *)

Lemma rateLimitedFunction_eq E mi {A} (func : M A) w :
  rateLimitedFunction E mi func w
  = match func (before_call E mi w) with
    | (w', Ok r) => (after_call E w', Ok r)
    | (w', Raise e) => (w', Raise e)
    end.
Proof.
  unfold rateLimitedFunction, before_call, bind, time_clock, read_lastTimeCalled.
  simpl.
  destruct (Qle_bool (mi - (clock E (clock_reads w) - lastTimeCalled w)) 0);
    simpl; destruct (func _) as [w' [r|e]]; reflexivity.
Qed.

Lemma get_intra_hr_eq E c s e w :
  get_intra_hr E c s e w
  = match get_intra_hr_body E c s e (before_call E 1 w) with
    | (w', Ok r) => (after_call E w', Ok r)
    | (w', Raise err) => (w', Raise err)
    end.
Proof.
  unfold get_intra_hr. pose proof rate_limited_1 as H1. rewrite H1.
  apply rateLimitedFunction_eq.
Qed.

Lemma before_call_calls E mi w : calls (before_call E mi w) = calls w.
Proof. unfold before_call. simpl. destruct (Qle_bool _ _); reflexivity. Qed.

Lemma set_calls_same w : set_calls (calls w) w = w.
Proof. destruct w; reflexivity. Qed.

(** When every day of [l] is served, the comprehension fetches each day
    of [l] once, in order, and returns the payloads in that order. *)
Lemma fetch_each_served E c (l : list datetime.date) w :
  Forall (fun d => is_ok (intraday_reply E (OnDate d)) = true) l ->
  fetch_each E c (yields l) w
  = (set_calls (calls w ++ (fetch_of c <$> l)) w, Ok (payload_of E <$> l)).
Proof.
  intros Hl. revert w. induction Hl as [|d l Hd _ IH]; intros w; simpl.
  - unfold ret. rewrite app_nil_r, set_calls_same. reflexivity.
  - unfold bind at 1, get_daily_data, remote. unfold payload_of at 1.
    destruct (intraday_reply E (OnDate d)) as [v|err]; [|discriminate].
    unfold bind at 1. rewrite IH. simpl. unfold ret, fetch_of.
    rewrite <- app_assoc. reflexivity.
Qed.

(** When the days of [pre] are served and the fetch of [d] raises, the
    comprehension stops there: [d] is the last day fetched and the
    exception comes out in place of a list. *)
Lemma fetch_each_failure E c (pre post : list datetime.date) d err w :
  Forall (fun d => is_ok (intraday_reply E (OnDate d)) = true) pre ->
  intraday_reply E (OnDate d) = Raise err ->
  fetch_each E c (yields (pre ++ d :: post)) w
  = (set_calls (calls w ++ (fetch_of c <$> (pre ++ [d]))) w, Raise err).
Proof.
  intros Hpre Hd. revert w. induction Hpre as [|k pre Hk _ IH]; intros w; simpl.
  - unfold bind at 1, get_daily_data, remote. rewrite Hd. reflexivity.
  - unfold bind at 1, get_daily_data, remote.
    destruct (intraday_reply E (OnDate k)) as [v|err']; [|discriminate].
    unfold bind at 1. rewrite IH. simpl. unfold fetch_of.
    rewrite <- app_assoc. reflexivity.
Qed.

(** Whatever happens, the comprehension only adds fetches by [c]. *)
Lemma fetch_each_calls E c g w :
  exists tr, calls (fst (fetch_each E c g w)) = calls w ++ tr
    /\ Forall (fetched_by c) tr.
Proof.
  revert w. induction g as [|d rest IH|err]; intros w; simpl.
  - exists []. rewrite app_nil_r. split; [reflexivity | constructor].
  - unfold bind at 1, get_daily_data, remote.
    destruct (intraday_reply E (OnDate d)) as [v|err].
    + unfold bind at 1.
      destruct (IH (set_calls (calls w ++ [IntradayTimeSeries c (OnDate d)]) w))
        as (tr & Htr & Hall).
      destruct (fetch_each E c rest _) as [w' [vs|err]]; simpl in *;
        exists (IntradayTimeSeries c (OnDate d) :: tr);
        (split; [rewrite Htr, <- app_assoc; reflexivity
                | constructor; [eexists; reflexivity | exact Hall]]).
    + simpl. exists [IntradayTimeSeries c (OnDate d)].
      split; [reflexivity|]. constructor; [eexists; reflexivity | constructor].
  - exists []. rewrite app_nil_r. split; [reflexivity | constructor].
Qed.

Lemma get_intra_hr_calls E c s e w :
  exists tr, calls (fst (get_intra_hr E c s e w)) = calls w ++ tr
    /\ Forall (fetched_by c) tr.
Proof.
  rewrite get_intra_hr_eq.
  assert (exists tr, calls (fst (get_intra_hr_body E c s e (before_call E 1 w)))
                     = calls w ++ tr /\ Forall (fetched_by c) tr) as (tr & Htr & Hall).
  { unfold get_intra_hr_body. destruct s as [s|], e as [e|].
    - rewrite <- (before_call_calls E 1 w). apply fetch_each_calls.
    - unfold bind, lift, get_daily_data, remote.
      destruct (datetime.sub (today E) 1) as [y|err]; simpl.
      + rewrite before_call_calls.
        destruct (intraday_reply E (OnText y)); simpl; eexists;
          (split; [reflexivity|]); constructor; (eexists; reflexivity) || constructor.
      + exists []. rewrite app_nil_r, before_call_calls. split; [reflexivity|constructor].
    - unfold bind, lift, get_daily_data, remote.
      destruct (datetime.sub (today E) 1) as [y|err]; simpl.
      + rewrite before_call_calls.
        destruct (intraday_reply E (OnText y)); simpl; eexists;
          (split; [reflexivity|]); constructor; (eexists; reflexivity) || constructor.
      + exists []. rewrite app_nil_r, before_call_calls. split; [reflexivity|constructor].
    - unfold bind, lift, get_daily_data, remote.
      destruct (datetime.sub (today E) 1) as [y|err]; simpl.
      + rewrite before_call_calls.
        destruct (intraday_reply E (OnText y)); simpl; eexists;
          (split; [reflexivity|]); constructor; (eexists; reflexivity) || constructor.
      + exists []. rewrite app_nil_r, before_call_calls. split; [reflexivity|constructor]. }
  exists tr. split; [|exact Hall].
  destruct (get_intra_hr_body E c s e (before_call E 1 w)) as [w' [r|err]];
    simpl in *; exact Htr.
Qed.

(** ** The run, step by step *)

Lemma main_set_client_raises E w w1 e :
  set_client E None w = (w1, Raise e) -> main E w = (w1, Raise e).
Proof. intros H. unfold main, bind. rewrite H. reflexivity. Qed.

(** Once the client is built, the watermark [s] read and yesterday [e]
    computed, the run is the fetch of [s .. e] followed by the loop, in a
    world where the watermark query has left its transaction open. *)
Lemma main_plan E w w1 c s e :
  set_client E None w = (w1, Ok c) ->
  snd (get_most_recent_date E w1) = Ok s ->
  datetime.sub (today E) 1 = Ok e ->
  main E w = bind (get_intra_hr E c (Some s) (Some e)) (persist E)
               (set_transaction (Some (seen w1)) w1).
Proof.
  intros Hc Hs He. unfold main. unfold bind at 1. rewrite Hc.
  unfold bind at 1. rewrite get_most_recent_date_eq in *. simpl in Hs. rewrite Hs.
  unfold bind at 1, lift. rewrite He. reflexivity.
Qed.

(** When yesterday does not exist the run ends after the watermark query. *)
Lemma main_no_yesterday E w w1 c err :
  set_client E None w = (w1, Ok c) ->
  datetime.sub (today E) 1 = Raise err ->
  main E w = (set_transaction (Some (seen w1)) w1, Raise err).
Proof.
  intros Hc He. unfold main, bind, lift. rewrite Hc, get_most_recent_date_eq.
  destruct (query_first_by_date_desc (seen w1)) as [[d r]|]; simpl;
    rewrite He; reflexivity.
Qed.

Lemma seqZ_split (s d e : Z) :
  s <= d <= e ->
  seqZ s (e - s + 1) = seqZ s (d - s) ++ d :: seqZ (d + 1) (e - d).
Proof.
  intros H. replace (e - s + 1) with ((d - s) + (e - d + 1)) by lia.
  rewrite seqZ_app by lia. f_equal.
  rewrite seqZ_cons by lia. f_equal; [lia|]. f_equal; lia.
Qed.

Lemma seqZ_snoc (s d : Z) :
  s <= d -> seqZ s (d - s) ++ [d] = seqZ s (d - s + 1).
Proof.
  intros H. rewrite seqZ_app by lia.
  f_equal. rewrite seqZ_cons by lia.
  rewrite seqZ_nil by lia. f_equal. lia.
Qed.

Lemma sub_valid (d n y : Z) : datetime.sub d n = Ok y -> datetime.valid y.
Proof.
  unfold datetime.sub, datetime.add, datetime.in_range, datetime.valid.
  destruct (Z.leb_spec 1 (d + - n)) as [H1|H1],
           (Z.leb_spec (d + - n) datetime.MAXORDINAL) as [H2|H2];
    simpl; intros Hy; inversion Hy; subst; split; assumption.
Qed.

(** When the days before [d] are served and the fetch of [d] raises, the
    rate-limited fetch raises that exception in place of a result, having
    fetched the days up to [d] and no further. *)
Lemma get_intra_hr_failure E c s e d err w :
  datetime.valid s -> datetime.valid e -> s <= d <= e ->
  (forall k, s <= k < d -> is_ok (intraday_reply E (OnDate k)) = true) ->
  intraday_reply E (OnDate d) = Raise err ->
  get_intra_hr E c (Some s) (Some e) w
  = (set_calls (calls w ++ (fetch_of c <$> seqZ s (d - s + 1)))
       (before_call E 1 w), Raise err).
Proof.
  intros Hs He Hd Hserved Hfail.
  rewrite get_intra_hr_eq. unfold get_intra_hr_body.
  rewrite (daterange_yields _ _ Hs He), (seqZ_split s d e Hd).
  rewrite (fetch_each_failure E c _ _ d err); [| |exact Hfail].
  - rewrite before_call_calls, (seqZ_snoc s d) by lia. reflexivity.
  - apply Forall_seqZ. intros k Hk. apply Hserved. lia.
Qed.

(** [main] does not catch it: the run ends with the exception, nothing
    inserted, nothing printed. *)
Lemma main_fetch_failure E w0 w c s e d err :
  set_client E None w0 = (w, Ok c) ->
  snd (get_most_recent_date E w) = Ok s ->
  datetime.sub (today E) 1 = Ok e ->
  datetime.valid s -> s <= d <= e ->
  (forall k, s <= k < d -> is_ok (intraday_reply E (OnDate k)) = true) ->
  intraday_reply E (OnDate d) = Raise err ->
  snd (main E w0) = Raise err
  /\ heart_rate (fst (main E w0)) = heart_rate w0
  /\ stdout (fst (main E w0)) = stdout w0.
Proof.
  intros Hc Hwm Hy Hs Hd Hserved Hfail.
  rewrite (main_plan E w0 w c s e Hc Hwm Hy). unfold bind.
  rewrite (get_intra_hr_failure E c s e d err _ Hs (sub_valid _ _ _ Hy)
             Hd Hserved Hfail).
  simpl.
  pose proof (set_client_keeps_table E None w0) as Ht.
  pose proof (set_client_keeps_stdout E None w0) as Ho.
  rewrite Hc in Ht, Ho. simpl in Ht, Ho.
  unfold before_call. simpl. destruct (Qle_bool _ _); simpl; auto.
Qed.

(** When the watermark is after yesterday the plan is empty: nothing is
    fetched, inserted or printed, and the run ends normally. *)
Lemma main_empty_plan E w0 w c s e :
  set_client E None w0 = (w, Ok c) ->
  snd (get_most_recent_date E w) = Ok s ->
  datetime.sub (today E) 1 = Ok e ->
  e < s ->
  snd (main E w0) = Ok tt
  /\ heart_rate (fst (main E w0)) = heart_rate w0
  /\ calls (fst (main E w0)) = calls w
  /\ stdout (fst (main E w0)) = stdout w0.
Proof.
  intros Hc Hs He Hlt.
  pose proof (set_client_keeps_table E None w0) as Ht.
  pose proof (set_client_keeps_stdout E None w0) as Ho.
  rewrite Hc in Ht, Ho. simpl in Ht, Ho.
  rewrite (main_plan E w0 w c s e Hc Hs He). unfold bind.
  rewrite get_intra_hr_eq. unfold get_intra_hr_body.
  unfold daterange, range, datetime.days_between.
  rewrite seqZ_nil by lia. simpl.
  rewrite before_call_calls. unfold before_call. simpl.
  destruct (Qle_bool _ _); simpl; auto.
Qed.

(** C2, as stated, fails: with the fetch of 2015-12-27 answered by an
    error, [get_intra_hr] over 2015-12-26 .. 2015-12-28 returns no list but
    raises; 2015-12-28 is never fetched, and [main] ends with the error
    before inserting anything. *)
Lemma fetch_failure_is_fatal :
  snd (get_intra_hr (Samples.env_one_bad_day Samples.d_2015_12_29) Samples.client
         (Some Samples.d_2015_12_26) (Some Samples.d_2015_12_28)
         (Samples.world_with ∅))
  = Raise (HTTPError 500)
  /\ calls (fst (get_intra_hr (Samples.env_one_bad_day Samples.d_2015_12_29)
                   Samples.client
                   (Some Samples.d_2015_12_26) (Some Samples.d_2015_12_28)
                   (Samples.world_with ∅)))
     = [fetch_of Samples.client Samples.d_2015_12_26;
        fetch_of Samples.client Samples.d_2015_12_27]
  /\ snd (main (Samples.env_one_bad_day Samples.d_2015_12_29) (Samples.world_with ∅))
     = Raise (HTTPError 500)
  /\ heart_rate (fst (main (Samples.env_one_bad_day Samples.d_2015_12_29)
                        (Samples.world_with ∅)))
     = ∅.
Proof. repeat split; vm_compute; reflexivity. Qed.

(** C2, amended. The per-date fetches are not isolated. When the fetch of
    a date [d] of the range raises (the dates before it being served),
    [get_intra_hr] raises that exception in place of a result, having
    fetched the dates up to [d] and no further; [main] does not catch it,
    so the run ends with the exception, nothing inserted, nothing printed. *)
Theorem fetch_failure_aborts_run (E : env) (c : Fitbit)
    (s e d : datetime.date) (err : exn) (w : world) :
  datetime.valid s -> datetime.valid e -> s <= d <= e ->
  (forall k, s <= k < d -> is_ok (intraday_reply E (OnDate k)) = true) ->
  intraday_reply E (OnDate d) = Raise err ->
  snd (get_intra_hr E c (Some s) (Some e) w) = Raise err
  /\ calls (fst (get_intra_hr E c (Some s) (Some e) w))
     = calls w ++ (fetch_of c <$> seqZ s (d - s + 1))
  /\ (forall w0,
        set_client E None w0 = (w, Ok c) ->
        snd (get_most_recent_date E w) = Ok s ->
        datetime.sub (today E) 1 = Ok e ->
        snd (main E w0) = Raise err
        /\ heart_rate (fst (main E w0)) = heart_rate w0
        /\ stdout (fst (main E w0)) = stdout w0).
Proof.
  intros Hs He Hd Hserved Hfail.
  rewrite (get_intra_hr_failure E c s e d err w Hs He Hd Hserved Hfail).
  simpl. split; [reflexivity|]. split; [reflexivity|].
  intros w0 Hc Hwm Hy.
  exact (main_fetch_failure E w0 w c s e d err Hc Hwm Hy Hs Hd Hserved Hfail).
Qed.

Lemma fetch_failure_aborts_run_witness :
  snd (get_intra_hr (Samples.env_one_bad_day Samples.d_2015_12_29) Samples.client
         (Some Samples.d_2015_12_26) (Some Samples.d_2015_12_28)
         (Samples.world_with ∅))
  = Raise (HTTPError 500)
  /\ calls (fst (get_intra_hr (Samples.env_one_bad_day Samples.d_2015_12_29)
                   Samples.client
                   (Some Samples.d_2015_12_26) (Some Samples.d_2015_12_28)
                   (Samples.world_with ∅)))
     = calls (Samples.world_with ∅)
       ++ (fetch_of Samples.client
             <$> seqZ Samples.d_2015_12_26
                   (Samples.d_2015_12_27 - Samples.d_2015_12_26 + 1)).
Proof.
  destruct (fetch_failure_aborts_run
              (Samples.env_one_bad_day Samples.d_2015_12_29) Samples.client
              Samples.d_2015_12_26 Samples.d_2015_12_28 Samples.d_2015_12_27
              (HTTPError 500) (Samples.world_with ∅)) as (H1 & H2 & _).
  - unfold datetime.valid. vm_compute. split; discriminate.
  - unfold datetime.valid. vm_compute. split; discriminate.
  - vm_compute. split; discriminate.
  - intros k Hk. unfold Samples.d_2015_12_26, Samples.d_2015_12_27 in Hk.
    assert (k = 735958) as -> by lia. reflexivity.
  - reflexivity.
  - split; assumption.
Defined.

(** ** The persistence loop *)

Lemma add_hr_to_db_eq E day w :
  add_hr_to_db E day w
  = match heart_rate_object day with
    | Raise e => (w, Raise e)
    | Ok obj => session_add_commit E obj w
    end.
Proof.
  unfold add_hr_to_db, bind, lift. destruct (heart_rate_object day); reflexivity.
Qed.

(** One turn of the loop of [main]. *)
Lemma persist_cons E day rest w :
  persist E (day :: rest) w
  = match add_hr_to_db E day w with
    | (w', Ok _) => persist E rest w'
    | (w', Raise e) =>
        match integrity_text e with
        | Some text => persist E rest (set_stdout (stdout w' ++ [report text]) w')
        | None => (w', Raise e)
        end
    end.
Proof.
  simpl. unfold bind at 1, try_except.
  destruct (add_hr_to_db E day w) as [w' [[]|e]]; [reflexivity|].
  destruct e; reflexivity.
Qed.

Lemma rbind_raises {A B} (r : result A) (k : A -> result B) e :
  rbind r k = Raise e -> r = Raise e \/ exists a, r = Ok a /\ k a = Raise e.
Proof.
  destruct r as [a|e']; simpl; intros H; [eauto|].
  left. inversion H. reflexivity.
Qed.

Lemma getitem_raises x k e : getitem x k = Raise e -> integrity_text e = None.
Proof.
  destruct x; simpl; try destruct (assoc k kv); intros H; inversion H; reflexivity.
Qed.

Lemma getitem0_raises x e : getitem0 x = Raise e -> integrity_text e = None.
Proof.
  destruct x as [| | |s|l|kv]; simpl; try destruct s; try destruct l;
    intros H; inversion H; reflexivity.
Qed.

Lemma get_raises x k e : get x k = Raise e -> integrity_text e = None.
Proof.
  destruct x; simpl; try destruct (assoc k kv); intros H; inversion H; reflexivity.
Qed.

(** The reads of a payload do not raise [IntegrityError]. *)
Lemma heart_rate_object_raises day e :
  heart_rate_object day = Raise e -> integrity_text e = None.
Proof.
  unfold heart_rate_object. intros H.
  repeat match goal with
  | H : rbind _ _ = Raise _ |- _ => apply rbind_raises in H as [H|(? & _ & H)]
  | H : getitem _ _ = Raise _ |- _ => exact (getitem_raises _ _ _ H)
  | H : getitem0 _ = Raise _ |- _ => exact (getitem0_raises _ _ H)
  | H : get _ _ = Raise _ |- _ => exact (get_raises _ _ _ H)
  | H : Ok _ = Raise _ |- _ => discriminate H
  end.
Qed.

(** What [add_hr_to_db] does with a payload is fixed by the payload. Either
    it raises the same exception in every world: from the reads, with the
    world as it was, or from the flush, with the transaction rolled back.
    Or it is the insert of one row under the payload's date. *)
Lemma add_hr_to_db_cases E day :
  (exists e, key_of E day = Raise e
     /\ forall w,
          (add_hr_to_db E day w = (w, Raise e) /\ integrity_text e = None)
          \/ add_hr_to_db E day w = (set_transaction None w, Raise e))
  \/ (exists d r text, key_of E day = Ok d
        /\ forall w,
            add_hr_to_db E day w
            = match seen w !! d with
              | Some _ => (set_transaction None w, Raise (IntegrityError text))
              | None =>
                  match transaction w with
                  | Some t => (set_transaction (Some (<[d := r]> t)) w, Ok tt)
                  | None => (set_heart_rate (<[d := r]> (heart_rate w)) w, Ok tt)
                  end
              end).
Proof.
  unfold key_of, row_of.
  destruct (heart_rate_object day) as [obj|e] eqn:Hobj; simpl.
  - destruct (insert_values E obj) as [[d r]|e] eqn:Hv; simpl.
    + right. exists d, r, (error_text E obj). split; [reflexivity|]. intros w.
      rewrite add_hr_to_db_eq, Hobj. unfold session_add_commit. rewrite Hv.
      reflexivity.
    + left. exists e. split; [reflexivity|]. intros w. right.
      rewrite add_hr_to_db_eq, Hobj. unfold session_add_commit. rewrite Hv.
      reflexivity.
  - left. exists e. split; [reflexivity|]. intros w. left. split.
    + rewrite add_hr_to_db_eq, Hobj. reflexivity.
    + apply (heart_rate_object_raises day), Hobj.
Qed.

(** An exception of [add_hr_to_db] leaves the committed table and the
    output as they were; at most it has rolled the transaction back. *)
Lemma add_hr_to_db_raises E day w w' e :
  add_hr_to_db E day w = (w', Raise e) ->
  w' = w \/ w' = set_transaction None w.
Proof.
  destruct (add_hr_to_db_cases E day) as [(e' & _ & H)|(d & r & text & _ & H)].
  - destruct (H w) as [[-> _]| ->]; intros Heq; inversion Heq; auto.
  - rewrite H. destruct (seen w !! d); [intros Heq; inversion Heq; auto|].
    destruct (transaction w); discriminate.
Qed.

(** The insert of a date that the connection sees as a key is rejected,
    and the transaction of the connection is rolled back. *)
Lemma add_hr_to_db_duplicate E day w :
  already_stored E (seen w) day ->
  exists text,
    add_hr_to_db E day w = (set_transaction None w, Raise (IntegrityError text)).
Proof.
  intros (d & Hkey & r & Hr).
  destruct (add_hr_to_db_cases E day) as [(e' & Hk & _)|(d' & r' & text & Hk & H)];
    rewrite Hk in Hkey; inversion Hkey; subst.
  exists text. rewrite H, Hr. reflexivity.
Qed.

Lemma set_transaction_None (w : world) :
  transaction w = None -> set_transaction None w = w.
Proof. intros <-. apply set_transaction_same. Qed.

(** With no transaction open on the connection, every insert is committed
    on its own and a refused one changes nothing. *)
Lemma add_hr_to_db_committed E day :
  (exists e, key_of E day = Raise e
     /\ forall w, transaction w = None -> add_hr_to_db E day w = (w, Raise e))
  \/ (exists d r text, key_of E day = Ok d
        /\ forall w, transaction w = None ->
            add_hr_to_db E day w
            = match heart_rate w !! d with
              | Some _ => (w, Raise (IntegrityError text))
              | None => (set_heart_rate (<[d := r]> (heart_rate w)) w, Ok tt)
              end).
Proof.
  destruct (add_hr_to_db_cases E day) as [(e & Hk & H)|(d & r & text & Hk & H)].
  - left. exists e. split; [exact Hk|]. intros w Hw.
    destruct (H w) as [[-> _]| ->]; [reflexivity|].
    rewrite (set_transaction_None w Hw). reflexivity.
  - right. exists d, r, text. split; [exact Hk|]. intros w Hw.
    rewrite H, (seen_committed w Hw), Hw, (set_transaction_None w Hw).
    reflexivity.
Qed.

(** The loop never removes or changes a committed row. *)
Lemma persist_grows E x w : heart_rate w ⊆ store_of (persist E x w).
Proof.
  revert w. induction x as [|day rest IH]; intros w; [reflexivity|].
  rewrite persist_cons.
  destruct (add_hr_to_db_cases E day) as [(e & _ & H)|(d & r & text & _ & H)].
  - destruct (H w) as [[-> Hne]| ->].
    + rewrite Hne. reflexivity.
    + destruct (integrity_text e); [|reflexivity].
      apply (IH (set_stdout _ (set_transaction None w))).
  - rewrite H. destruct (seen w !! d) eqn:Hd.
    + apply (IH (set_stdout _ (set_transaction None w))).
    + destruct (transaction w) as [t|] eqn:Ht.
      * apply (IH (set_transaction _ w)).
      * etransitivity; [|apply IH]. simpl. apply insert_subseteq.
        rewrite (seen_committed w Ht) in Hd. exact Hd.
Qed.

(** The loop only adds reports of rejected inserts to the output, at most
    one for each payload. *)
Lemma persist_stdout E x w :
  exists texts, (length texts <= length x)%nat
    /\ stdout (fst (persist E x w)) = stdout w ++ (report <$> texts).
Proof.
  revert w. induction x as [|day rest IH]; intros w.
  { exists []. simpl. rewrite app_nil_r. split; [lia|reflexivity]. }
  rewrite persist_cons.
  assert (forall w1 text, stdout w1 = stdout w ->
            exists texts, (length texts <= length (day :: rest))%nat
              /\ stdout (fst (persist E rest
                                (set_stdout (stdout w1 ++ [report text]) w1)))
                 = stdout w ++ (report <$> texts)) as Hskip.
  { intros w1 text Hw1.
    destruct (IH (set_stdout (stdout w1 ++ [report text]) w1)) as (texts & Hn & Hout).
    exists (text :: texts). split; [simpl; lia|]. rewrite Hout. simpl.
    rewrite Hw1, <- app_assoc. reflexivity. }
  assert (forall w1, stdout w1 = stdout w ->
            exists texts, (length texts <= length (day :: rest))%nat
              /\ stdout (fst (persist E rest w1)) = stdout w ++ (report <$> texts))
    as Hnext.
  { intros w1 Hw1. destruct (IH w1) as (texts & Hn & Hout).
    exists texts. split; [simpl; lia|]. rewrite Hout, Hw1. reflexivity. }
  assert (forall (w1 : world) (e : exn), stdout w1 = stdout w ->
            exists texts, (length texts <= length (day :: rest))%nat
              /\ stdout (fst (w1, @Raise unit e)) = stdout w ++ (report <$> texts))
    as Hstop.
  { intros w1 e Hw1. exists []. simpl. rewrite app_nil_r. split; [lia|exact Hw1]. }
  destruct (add_hr_to_db_cases E day) as [(e & _ & H)|(d & r & text & _ & H)].
  - destruct (H w) as [[-> Hne]| ->].
    + rewrite Hne. apply Hstop. reflexivity.
    + destruct (integrity_text e); [apply Hskip | apply Hstop]; reflexivity.
  - rewrite H. destruct (seen w !! d).
    + apply Hskip. reflexivity.
    + destruct (transaction w); apply Hnext; reflexivity.
Qed.

(** A date in the committed table after the loop was there before, or is
    the date of one of the payloads. *)
Lemma persist_keys E x w k :
  is_Some (store_of (persist E x w) !! k) ->
  is_Some (heart_rate w !! k) \/ exists day, day ∈ x /\ key_of E day = Ok k.
Proof.
  revert w. induction x as [|day rest IH]; intros w; [simpl; auto|].
  rewrite persist_cons.
  assert (forall w1, heart_rate w1 = heart_rate w ->
            is_Some (store_of (persist E rest w1) !! k) ->
            is_Some (heart_rate w !! k)
            \/ exists day', day' ∈ day :: rest /\ key_of E day' = Ok k) as Hskip.
  { intros w1 Hw1 Hk. destruct (IH w1 Hk) as [H|(day' & Hin & Hkey)].
    - left. rewrite <- Hw1. exact H.
    - right. exists day'. split; [apply list_elem_of_further, Hin | exact Hkey]. }
  destruct (add_hr_to_db_cases E day) as [(e & _ & H)|(d & r & text & Hkey & H)].
  - destruct (H w) as [[-> Hne]| ->].
    + rewrite Hne. auto.
    + destruct (integrity_text e); [|auto]. apply Hskip. reflexivity.
  - rewrite H. destruct (seen w !! d) eqn:Hd.
    + apply Hskip. reflexivity.
    + destruct (transaction w) as [t|] eqn:Ht.
      * apply Hskip. reflexivity.
      * intros Hk. destruct (IH _ Hk) as [Hin|(day' & Hin & Hkey')].
        -- simpl in Hin. destruct (decide (d = k)) as [->|Hne].
           ++ right. exists day. split; [apply list_elem_of_here | exact Hkey].
           ++ left. rewrite lookup_insert_ne in Hin by exact Hne. exact Hin.
        -- right. exists day'.
           split; [apply list_elem_of_further, Hin | exact Hkey'].
Qed.

(** What the loop does to the committed table, and how it ends, is fixed
    by the payloads, the committed table and the open transaction. *)
Lemma persist_determined E x w w' :
  heart_rate w = heart_rate w' -> transaction w = transaction w' ->
  store_of (persist E x w) = store_of (persist E x w')
  /\ snd (persist E x w) = snd (persist E x w').
Proof.
  revert w w'. induction x as [|day rest IH]; intros w w' Hh Ht.
  { simpl. auto. }
  rewrite !persist_cons.
  destruct (add_hr_to_db_cases E day) as [(e & _ & H)|(d & r & text & _ & H)].
  - destruct (integrity_text e) as [text|] eqn:He.
    + destruct (H w) as [[_ Hn]| ->]; [congruence|].
      destruct (H w') as [[_ Hn]| ->]; [congruence|].
      rewrite He. apply IH; simpl; [exact Hh | reflexivity].
    + destruct (H w) as [[-> _]| ->], (H w') as [[-> _]| ->]; rewrite He;
        simpl; auto.
  - assert (seen w = seen w') as Hs by (unfold seen; rewrite Hh, Ht; reflexivity).
    rewrite !H, Hs, Ht. destruct (seen w' !! d).
    + apply IH; simpl; [exact Hh | reflexivity].
    + destruct (transaction w') as [t'|] eqn:Ht'.
      * apply IH; simpl; [exact Hh | reflexivity].
      * apply IH; simpl; [rewrite Hh; reflexivity | congruence].
Qed.

(** A loop that starts inside an open transaction commits nothing until
    an insert is rejected: either the committed table is in the end what
    it was, or some payload was the first to be rejected, the transaction
    was rolled back there, and the loop went on from the committed table
    with the payloads after it. *)
Lemma persist_in_transaction E x w t :
  transaction w = Some t ->
  store_of (persist E x w) = heart_rate w
  \/ exists pre day rest text,
       x = pre ++ day :: rest
       /\ persist E x w
          = persist E rest
              (set_stdout (stdout w ++ [report text]) (set_transaction None w)).
Proof.
  revert w t. induction x as [|day rest IH]; intros w t Ht; [left; reflexivity|].
  rewrite persist_cons.
  destruct (add_hr_to_db_cases E day) as [(e & _ & H)|(d & r & text & _ & H)].
  - destruct (H w) as [[-> Hne]| ->].
    + rewrite Hne. left. reflexivity.
    + destruct (integrity_text e) as [text|]; [|left; reflexivity].
      right. exists [], day, rest, text. split; reflexivity.
  - rewrite H, Ht. destruct (seen w !! d).
    + right. exists [], day, rest, text. split; reflexivity.
    + destruct (IH (set_transaction (Some (<[d:=r]> t)) w) _ eq_refl)
        as [Hsame|(pre & day' & rest' & text' & -> & Hrun)].
      * left. exact Hsame.
      * right. exists (day :: pre), day', rest', text'.
        split; [reflexivity | exact Hrun].
Qed.

(** A loop that starts with no transaction open ends with none open. *)
Lemma persist_no_transaction E x w :
  transaction w = None -> transaction (fst (persist E x w)) = None.
Proof.
  revert w. induction x as [|day rest IH]; intros w Hw; [exact Hw|].
  rewrite persist_cons.
  destruct (add_hr_to_db_committed E day) as [(e & _ & H)|(d & r & text & _ & H)];
    rewrite (H w Hw).
  - destruct (integrity_text e); [apply IH|]; exact Hw.
  - destruct (heart_rate w !! d); apply IH; exact Hw.
Qed.

(** With no transaction open: running the loop on a table that already
    holds everything a run of the loop on the same payloads has committed
    changes nothing and ends the same way. *)
Lemma persist_rerun E x w w2 :
  transaction w = None -> transaction w2 = None ->
  store_of (persist E x w) ⊆ heart_rate w2 ->
  store_of (persist E x w2) = heart_rate w2
  /\ snd (persist E x w2) = snd (persist E x w).
Proof.
  revert w w2. induction x as [|day rest IH]; intros w w2 Hw Hw2 Hsub.
  { simpl. auto. }
  rewrite !persist_cons in *.
  destruct (add_hr_to_db_committed E day) as [(e & _ & H)|(d & r & text & _ & H)];
    rewrite (H w Hw) in *; rewrite (H w2 Hw2).
  - destruct (integrity_text e); [|split; reflexivity].
    apply (IH (set_stdout _ w) (set_stdout _ w2) Hw Hw2 Hsub).
  - assert (is_Some (heart_rate w2 !! d)) as [r2 Hr2].
    { destruct (heart_rate w !! d) as [r0|] eqn:Hd.
      - exists r0. eapply lookup_weaken; [|exact Hsub].
        eapply lookup_weaken; [|apply persist_grows]. exact Hd.
      - exists r. eapply lookup_weaken; [|exact Hsub].
        eapply lookup_weaken; [|apply persist_grows]. simpl.
        apply lookup_insert_eq. }
    rewrite Hr2. simpl integrity_text. cbv iota.
    destruct (heart_rate w !! d).
    + apply (IH (set_stdout _ w) (set_stdout _ w2) Hw Hw2 Hsub).
    + apply (IH (set_heart_rate _ w) (set_stdout _ w2) Hw Hw2 Hsub).
Qed.

(** When every payload is under a committed date, the loop prints one
    report for each payload, commits nothing and ends normally. *)
Lemma persist_all_duplicates E x w :
  heart_rate w ⊆ seen w ->
  Forall (already_stored E (heart_rate w)) x ->
  exists texts,
    length texts = length x
    /\ snd (persist E x w) = Ok tt
    /\ store_of (persist E x w) = heart_rate w
    /\ stdout (fst (persist E x w)) = stdout w ++ (report <$> texts).
Proof.
  intros Hsub Hx. revert w Hsub Hx. induction x as [|day rest IH]; intros w Hsub Hx.
  { exists []. simpl. rewrite app_nil_r. auto. }
  inversion Hx as [|? ? Hday Hrest]; subst.
  assert (already_stored E (seen w) day) as Hseen.
  { destruct Hday as (d & Hk & r & Hr). exists d. split; [exact Hk|].
    exists r. eapply lookup_weaken; [exact Hr | exact Hsub]. }
  destruct (add_hr_to_db_duplicate E day w Hseen) as [text Hdup].
  rewrite persist_cons, Hdup. simpl integrity_text. cbv iota.
  destruct (IH (set_stdout (stdout (set_transaction None w) ++ [report text])
                  (set_transaction None w)))
    as (texts & Hlen & Hok & Hstore & Hout).
  { reflexivity. }
  { exact Hrest. }
  exists (text :: texts). split; [simpl; lia|]. split; [exact Hok|].
  split; [exact Hstore|]. rewrite Hout. simpl. rewrite <- app_assoc. reflexivity.
Qed.

Lemma persist_app E pre l w0 w :
  persist E pre w0 = (w, Ok tt) -> persist E (pre ++ l) w0 = persist E l w.
Proof.
  revert w0. induction pre as [|day pre IH]; intros w0 H.
  - simpl in H. unfold ret in H. inversion H. reflexivity.
  - simpl app. rewrite persist_cons in *.
    destruct (add_hr_to_db E day w0) as [w' [[]|e]]; [apply IH, H|].
    destruct (integrity_text e); [apply IH, H | discriminate].
Qed.

(** When every day of the range is served, [get_intra_hr] fetches the days
    from [s] to [e] in order and returns their payloads. *)
Lemma get_intra_hr_served E c s e w :
  datetime.valid s -> datetime.valid e ->
  (forall k, s <= k <= e -> is_ok (intraday_reply E (OnDate k)) = true) ->
  get_intra_hr E c (Some s) (Some e) w
  = (after_call E (set_calls (calls w ++ (fetch_of c <$> seqZ s (e - s + 1)))
                     (before_call E 1 w)),
     Ok (payload_of E <$> seqZ s (e - s + 1))).
Proof.
  intros Hs He Hserved. rewrite get_intra_hr_eq. unfold get_intra_hr_body.
  rewrite (daterange_yields _ _ Hs He), fetch_each_served.
  - rewrite before_call_calls. reflexivity.
  - apply Forall_seqZ. intros k Hk. apply Hserved. lia.
Qed.

(** ** Malformed payloads *)

(** C7, as stated, fails: a payload without its intraday part makes the
    loop raise [AttributeError]; the payload after it is not processed and
    its date is not stored. *)
Lemma missing_intraday_aborts :
  snd (persist (Samples.env_ok Samples.d_2015_12_29)
         [Samples.payload_no_intraday "2015-12-26" 58;
          Samples.payload "2015-12-27" 58]
         (Samples.world_with ∅))
  = Raise AttributeError
  /\ store_of (persist (Samples.env_ok Samples.d_2015_12_29)
                 [Samples.payload_no_intraday "2015-12-26" 58;
                  Samples.payload "2015-12-27" 58]
                 (Samples.world_with ∅))
     = ∅.
Proof. split; vm_compute; reflexivity. Qed.

(** C7, amended. The payload is not validated and there is no
    [MalformedPayloadError]. A payload without ['activities-heart'] makes
    [add_hr_to_db] raise [KeyError]; one without
    ['activities-heart-intraday'], or whose day has no ['value'], makes it
    raise [AttributeError]; the world is left as it was. Since [main]
    catches [IntegrityError] only, any other exception of [add_hr_to_db]
    ends the loop there: the later payloads are not processed, and the
    committed table is the one the earlier payloads have left. That need
    not hold their rows: in a loop that started inside an open
    transaction, as the loop of [main] does, and in which no insert was
    rejected so far (nothing was printed), the rows inserted so far are
    not committed. With the three entries present, an absent ['dateTime'],
    ['restingHeartRate'] or ['dataset'] is read as [None] and the reads
    raise nothing. *)
Theorem malformed_payload_aborts (E : env) (kv : list (string * pyval)) (w : world) :
  (assoc "activities-heart" kv = None ->
   add_hr_to_db E (PDict kv) w = (w, Raise KeyError))
  /\ (forall first more,
        assoc "activities-heart" kv = Some (PList (PDict first :: more)) ->
        assoc "activities-heart-intraday" kv = None ->
        add_hr_to_db E (PDict kv) w = (w, Raise AttributeError))
  /\ (forall first more intraday,
        assoc "activities-heart" kv = Some (PList (PDict first :: more)) ->
        assoc "activities-heart-intraday" kv = Some (PDict intraday) ->
        assoc "value" first = None ->
        add_hr_to_db E (PDict kv) w = (w, Raise AttributeError))
  /\ (forall day e pre rest w0 w',
        persist E pre w0 = (w, Ok tt) ->
        add_hr_to_db E day w = (w', Raise e) ->
        integrity_text e = None ->
        persist E (pre ++ day :: rest) w0 = (w', Raise e)
        /\ heart_rate w' = heart_rate w
        /\ stdout w' = stdout w)
  /\ (forall pre w0 t,
        transaction w0 = Some t ->
        persist E pre w0 = (w, Ok tt) ->
        stdout w = stdout w0 ->
        heart_rate w = heart_rate w0)
  /\ (forall first more intraday value,
        assoc "activities-heart" kv = Some (PList (PDict first :: more)) ->
        assoc "activities-heart-intraday" kv = Some (PDict intraday) ->
        assoc "value" first = Some (PDict value) ->
        heart_rate_object (PDict kv)
        = Ok (HeartRate.new (or_None (assoc "dateTime" first))
                (or_None (assoc "restingHeartRate" value))
                (or_None (assoc "dataset" intraday)))).
Proof.
  split; [|split; [|split; [|split; [|split]]]].
  - intros H. rewrite add_hr_to_db_eq. unfold heart_rate_object, getitem.
    rewrite H. reflexivity.
  - intros first more H1 H2. rewrite add_hr_to_db_eq.
    unfold heart_rate_object, getitem, get. rewrite H1, H2. simpl.
    destruct (assoc "dateTime" first); reflexivity.
  - intros first more intraday H1 H2 H3. rewrite add_hr_to_db_eq.
    unfold heart_rate_object, getitem, get. rewrite H1, H2. simpl.
    rewrite H3.
    destruct (assoc "dateTime" first), (assoc "dataset" intraday); reflexivity.
  - intros day e pre rest w0 w' Hpre Hday Hne.
    rewrite (persist_app E pre _ w0 w Hpre), persist_cons, Hday, Hne.
    split; [reflexivity|].
    destruct (add_hr_to_db_raises E day w w' e Hday) as [-> | ->];
      split; reflexivity.
  - intros pre w0 t Ht Hpre Hout.
    destruct (persist_in_transaction E pre w0 t Ht)
      as [Hsame|(pre' & day & rest & text & _ & Hrun)].
    + rewrite Hpre in Hsame. exact Hsame.
    + destruct (persist_stdout E rest
                  (set_stdout (stdout w0 ++ [report text]) (set_transaction None w0)))
        as (texts & _ & Hmore).
      rewrite <- Hrun, Hpre in Hmore. simpl in Hmore. rewrite Hout in Hmore.
      apply (f_equal length) in Hmore. rewrite !length_app in Hmore.
      simpl in Hmore. lia.
  - intros first more intraday value H1 H2 H3.
    unfold heart_rate_object, getitem, get. rewrite H1, H2. simpl.
    rewrite H3.
    destruct (assoc "dateTime" first), (assoc "dataset" intraday); simpl;
      destruct (assoc "restingHeartRate" value); reflexivity.
Qed.

Lemma malformed_payload_aborts_witness :
  persist (Samples.env_ok Samples.d_2015_12_29)
    ([Samples.payload "2015-12-26" 58]
       ++ Samples.payload_no_intraday "2015-12-27" 58
       :: [Samples.payload "2015-12-28" 58])
    (set_transaction (Some ∅) (Samples.world_with ∅))
  = (set_transaction
       (Some (<[Samples.d_2015_12_26 := Samples.a_row]> ∅))
       (Samples.world_with ∅),
     Raise AttributeError)
  /\ heart_rate
       (set_transaction
          (Some (<[Samples.d_2015_12_26 := Samples.a_row]> ∅))
          (Samples.world_with ∅))
     = ∅.
Proof.
  destruct (malformed_payload_aborts (Samples.env_ok Samples.d_2015_12_29)
              [("activities-heart",
                 PList [Samples.day_summary "2015-12-27" 58])]
              (set_transaction
                 (Some (<[Samples.d_2015_12_26 := Samples.a_row]> ∅))
                 (Samples.world_with ∅))) as (_ & H2 & _ & H4 & H5 & _).
  split.
  - apply H4.
    + reflexivity.
    + eapply H2; reflexivity.
    + reflexivity.
  - apply (H5 [Samples.payload "2015-12-26" 58]
              (set_transaction (Some ∅) (Samples.world_with ∅)) ∅);
      reflexivity.
Defined.

(** From an empty table, in the loop as [main] enters it: the row of
    2015-12-26 is inserted, the payload of 2015-12-27 has no intraday
    part, the run ends with [AttributeError] and the committed table is
    still empty. *)
Example earlier_row_is_lost :
  snd (persist (Samples.env_ok Samples.d_2015_12_29)
         [Samples.payload "2015-12-26" 58;
          Samples.payload_no_intraday "2015-12-27" 58]
         (set_transaction (Some ∅) (Samples.world_with ∅)))
  = Raise AttributeError
  /\ store_of (persist (Samples.env_ok Samples.d_2015_12_29)
                 [Samples.payload "2015-12-26" 58;
                  Samples.payload_no_intraday "2015-12-27" 58]
                 (set_transaction (Some ∅) (Samples.world_with ∅)))
     = ∅.
Proof. split; vm_compute; reflexivity. Qed.

(** ** The credentials *)

Lemma get_tokens_ok w f doc id secret refresh access :
  files w !! f = Some (Json doc) ->
  getitem doc "CLIENT_ID" = Ok id ->
  getitem doc "CLIENT_SECRET" = Ok secret ->
  getitem doc "REFRESH_TOKEN" = Ok refresh ->
  getitem doc "ACCESS_TOKEN" = Ok access ->
  get_tokens f w
  = (w, Ok (PDict [("CLIENT_ID", id); ("CLIENT_SECRET", secret);
                   ("REFRESH_TOKEN", refresh); ("ACCESS_TOKEN", access)])).
Proof.
  intros Hf H1 H2 H3 H4. unfold get_tokens, bind, json_load, lift.
  rewrite Hf, H1, H2, H3, H4. reflexivity.
Qed.

Lemma watermark_same_seen E w w' :
  seen w' = seen w ->
  snd (get_most_recent_date E w') = snd (get_most_recent_date E w).
Proof. intros H. rewrite !get_most_recent_date_eq. simpl. rewrite H. reflexivity. Qed.

Lemma watermark_exists E w : exists s, snd (get_most_recent_date E w) = Ok s.
Proof.
  rewrite get_most_recent_date_eq. simpl.
  destruct (query_first_by_date_desc (seen w)) as [[d r]|]; eauto.
Qed.

Lemma watermark_cases E w s :
  snd (get_most_recent_date E w) = Ok s ->
  (seen w = ∅ /\ s = epoch)
  \/ (is_Some (seen w !! s)
      /\ forall k, is_Some (seen w !! k) -> k <= s).
Proof.
  rewrite get_most_recent_date_eq. simpl.
  destruct (decide (seen w = ∅)) as [Hempty|Hne].
  - rewrite (query_first_empty _ Hempty). intros H. inversion H. auto.
  - destruct (query_first_latest _ Hne) as (d & r & -> & Hd & Hmax).
    intros H. inversion H; subst. right. split; [exists r; exact Hd | exact Hmax].
Qed.

(** The world in which the loop of [main] starts, after a fetch that
    returned: the fetch has left the table, the connection and the output
    as they were. *)
Lemma after_fetch E mi cs w :
  heart_rate (after_call E (set_calls cs (before_call E mi w))) = heart_rate w
  /\ transaction (after_call E (set_calls cs (before_call E mi w))) = transaction w
  /\ stdout (after_call E (set_calls cs (before_call E mi w))) = stdout w.
Proof.
  unfold before_call. simpl. destruct (Qle_bool _ _); simpl; auto.
Qed.

(** After the client is built, the run leaves the files alone and calls
    the service only to fetch, through that client. *)
Lemma main_after_set_client E w w1 c :
  set_client E None w = (w1, Ok c) ->
  files (fst (main E w)) = files w1
  /\ exists tr, calls (fst (main E w)) = calls w1 ++ tr
       /\ Forall (fetched_by c) tr.
Proof.
  intros Hc.
  destruct (watermark_exists E w1) as [s Hs].
  destruct (datetime.sub (today E) 1) as [e|err] eqn:He.
  - rewrite (main_plan E w w1 c s e Hc Hs He). unfold bind.
    pose proof (get_intra_hr_keeps_files E c (Some s) (Some e)
                  (set_transaction (Some (seen w1)) w1)) as Hf.
    destruct (get_intra_hr_calls E c (Some s) (Some e)
                (set_transaction (Some (seen w1)) w1)) as (tr & Htr & Hall).
    destruct (get_intra_hr E c (Some s) (Some e) _) as [w2 [x|err]];
      simpl in *.
    + pose proof (persist_keeps_files E x w2) as Hpf.
      pose proof (persist_keeps_calls E x w2) as Hpc.
      unfold preserves in Hpf, Hpc. rewrite Hpf, Hpc. eauto.
    + eauto.
  - rewrite (main_no_yesterday E w w1 c err Hc He).
    simpl. split; [reflexivity|]. exists []. rewrite app_nil_r.
    split; [reflexivity|constructor].
Qed.

(** C9. When the probe [client.sleep()] raises, [set_client] makes one
    refresh call. If it answers with both tokens, they replace the old
    pair in the record, the record of four entries is written over
    ['tokens.json'], and the client is returned; in the rest of the run
    the files stay as they are and every further call to the service is a
    fetch through that client, so the refresh is the only one. If the
    refresh raises, nothing is written and the exception ends
    [set_client] and [main]. *)
Theorem probe_failure_refreshes_once (E : env) (w : world)
    (doc id secret access refresh : pyval) (e : exn) :
  files w !! "tokens.json" = Some (Json doc) ->
  getitem doc "CLIENT_ID" = Ok id ->
  getitem doc "CLIENT_SECRET" = Ok secret ->
  getitem doc "REFRESH_TOKEN" = Ok refresh ->
  getitem doc "ACCESS_TOKEN" = Ok access ->
  sleep_reply E = Raise e ->
  let c := mkFitbit id secret access refresh in
  let probed := set_calls (calls w ++ [Sleep c; RefreshToken c]) w in
  (forall params r a,
     refresh_token_reply E = Ok params ->
     getitem params "refresh_token" = Ok r ->
     getitem params "access_token" = Ok a ->
     let record := PDict [("CLIENT_ID", id); ("CLIENT_SECRET", secret);
                          ("REFRESH_TOKEN", r); ("ACCESS_TOKEN", a)] in
     set_client E None w
     = (set_files (<["tokens.json" := Json record]> (files w)) probed, Ok c)
     /\ files (fst (main E w)) = <["tokens.json" := Json record]> (files w)
     /\ exists tr,
         calls (fst (main E w)) = calls w ++ [Sleep c; RefreshToken c] ++ tr
         /\ Forall (fetched_by c) tr)
  /\ (forall e',
        refresh_token_reply E = Raise e' ->
        set_client E None w = (probed, Raise e')
        /\ main E w = (probed, Raise e')).
Proof.
  intros Hf H1 H2 H3 H4 Hprobe c probed.
  pose proof (get_tokens_ok w _ doc id secret refresh access Hf H1 H2 H3 H4) as Htok.
  split.
  - intros params r a Hreply Hr Ha record.
    assert (set_client E None w
            = (set_files (<["tokens.json" := Json record]> (files w)) probed, Ok c))
      as Hset.
    { unfold set_client. unfold bind at 1. rewrite Htok. simpl.
      unfold try_except_any, bind at 1, remote at 1. rewrite Hprobe.
      unfold update_tokens, bind, remote, lift, json_dump. rewrite Hreply, Hr, Ha.
      simpl. unfold probed, set_files, set_calls. simpl.
      rewrite <- app_assoc. reflexivity. }
    split; [exact Hset|].
    destruct (main_after_set_client E w _ c Hset) as (Hfiles & tr & Htr & Hall).
    split; [exact Hfiles|]. exists tr. split; [|exact Hall].
    rewrite Htr. simpl. rewrite <- app_assoc. reflexivity.
  - intros e' Hreply.
    assert (set_client E None w = (probed, Raise e')) as Hset.
    { unfold set_client. unfold bind at 1. rewrite Htok. simpl.
      unfold try_except_any, bind at 1, remote at 1. rewrite Hprobe.
      unfold update_tokens, bind, remote. rewrite Hreply.
      simpl. unfold probed, set_calls. simpl.
      rewrite <- app_assoc. reflexivity. }
    split; [exact Hset|]. apply main_set_client_raises, Hset.
Qed.

Lemma probe_failure_refreshes_once_witness :
  set_client (Samples.env_expired Samples.d_2015_12_29) None (Samples.world_with ∅)
  = (set_files
       (<["tokens.json" :=
            Json (PDict [("CLIENT_ID", PStr "22ABCD");
                         ("CLIENT_SECRET", PStr "s3cr3t");
                         ("REFRESH_TOKEN", PStr "refresh-1");
                         ("ACCESS_TOKEN", PStr "access-1")])]>
          (files (Samples.world_with ∅)))
       (set_calls
          (calls (Samples.world_with ∅)
           ++ [Sleep Samples.client; RefreshToken Samples.client])
          (Samples.world_with ∅)),
     Ok Samples.client)
  /\ main (Samples.env_revoked Samples.d_2015_12_29) (Samples.world_with ∅)
     = (set_calls
          (calls (Samples.world_with ∅)
           ++ [Sleep Samples.client; RefreshToken Samples.client])
          (Samples.world_with ∅),
        Raise (HTTPError 400)).
Proof.
  split.
  - pose proof (probe_failure_refreshes_once
                  (Samples.env_expired Samples.d_2015_12_29) (Samples.world_with ∅)
                  Samples.tokens (PStr "22ABCD") (PStr "s3cr3t")
                  (PStr "access-0") (PStr "refresh-0") (HTTPError 401)
                  eq_refl eq_refl eq_refl eq_refl eq_refl eq_refl) as [H _].
    exact (proj1 (H Samples.new_tokens (PStr "refresh-1") (PStr "access-1")
                    eq_refl eq_refl eq_refl)).
  - pose proof (probe_failure_refreshes_once
                  (Samples.env_revoked Samples.d_2015_12_29) (Samples.world_with ∅)
                  Samples.tokens (PStr "22ABCD") (PStr "s3cr3t")
                  (PStr "access-0") (PStr "refresh-0") (HTTPError 401)
                  eq_refl eq_refl eq_refl eq_refl eq_refl eq_refl) as [_ H].
    exact (proj2 (H (HTTPError 400) eq_refl)).
Defined.

(** With another [tokens_file], the refreshed record still goes to
    ['tokens.json'], the default [outfile] of [update_tokens]; the file
    that was read keeps the old pair. *)
Example refresh_with_other_tokens_file :
  files (fst (set_client (Samples.env_expired Samples.d_2015_12_29)
                (Some "other.json")
                (World {[ "other.json" := Json Samples.tokens ]} ∅ [] [] 0 [] 0 None)))
  = {[ "other.json" := Json Samples.tokens;
       "tokens.json" :=
         Json (PDict [("CLIENT_ID", PStr "22ABCD");
                      ("CLIENT_SECRET", PStr "s3cr3t");
                      ("REFRESH_TOKEN", PStr "refresh-1");
                      ("ACCESS_TOKEN", PStr "access-1")]) ]}.
Proof. vm_compute. reflexivity. Qed.

(** ** Where the planned range begins *)

(** The first day a generator yields is the first day fetched. *)
Lemma fetch_each_first E c d g w :
  exists tr, calls (fst (fetch_each E c (Yield d g) w))
             = calls w ++ fetch_of c d :: tr.
Proof.
  simpl. unfold bind at 1, get_daily_data, remote.
  destruct (intraday_reply E (OnDate d)) as [v|err].
  - unfold bind at 1.
    destruct (fetch_each_calls E c g
                (set_calls (calls w ++ [IntradayTimeSeries c (OnDate d)]) w))
      as (tr & Htr & _).
    exists tr.
    destruct (fetch_each E c g _) as [w' [vs|err]]; simpl in *;
      rewrite Htr, <- app_assoc; reflexivity.
  - exists []. reflexivity.
Qed.

Lemma get_intra_hr_first E c s e w :
  datetime.valid s -> datetime.valid e -> s <= e ->
  exists tr, calls (fst (get_intra_hr E c (Some s) (Some e) w))
             = calls w ++ fetch_of c s :: tr.
Proof.
  intros Hs He Hle. rewrite get_intra_hr_eq. unfold get_intra_hr_body.
  rewrite (daterange_yields _ _ Hs He), seqZ_cons by lia. simpl yields.
  destruct (fetch_each_first E c s (yields (seqZ (Z.succ s) (Z.pred (e - s + 1))))
              (before_call E 1 w)) as [tr Htr].
  rewrite before_call_calls in Htr. exists tr.
  destruct (fetch_each E c _ _) as [w' [x|err]]; simpl in *; exact Htr.
Qed.

(** C10, as stated, fails: a run against a table with rows does not
    always come to have the insert of the watermark day rejected. With
    2015-12-26 stored and the fetch of 2015-12-27 answered by an error,
    the watermark day is fetched, but the run ends with that error before
    any insert: nothing is rejected and nothing is printed. And with
    2015-12-29 stored on 2015-12-29, the watermark is after yesterday and
    its day is not even fetched. *)
Lemma watermark_insert_not_reached :
  snd (main (Samples.env_one_bad_day Samples.d_2015_12_29)
         (Samples.world_with (Samples.table [(Samples.d_2015_12_26, Samples.a_row)])))
  = Raise (HTTPError 500)
  /\ calls (fst (main (Samples.env_one_bad_day Samples.d_2015_12_29)
                   (Samples.world_with
                      (Samples.table [(Samples.d_2015_12_26, Samples.a_row)]))))
     = [Sleep Samples.client;
        fetch_of Samples.client Samples.d_2015_12_26;
        fetch_of Samples.client Samples.d_2015_12_27]
  /\ stdout (fst (main (Samples.env_one_bad_day Samples.d_2015_12_29)
                    (Samples.world_with
                       (Samples.table [(Samples.d_2015_12_26, Samples.a_row)]))))
     = []
  /\ snd (main (Samples.env_ok Samples.d_2015_12_29)
            (Samples.world_with (Samples.table [(Samples.d_2015_12_29, Samples.a_row)])))
     = Ok tt
  /\ calls (fst (main (Samples.env_ok Samples.d_2015_12_29)
                   (Samples.world_with
                      (Samples.table [(Samples.d_2015_12_29, Samples.a_row)]))))
     = [Sleep Samples.client]
  /\ stdout (fst (main (Samples.env_ok Samples.d_2015_12_29)
                    (Samples.world_with
                       (Samples.table [(Samples.d_2015_12_29, Samples.a_row)]))))
     = [].
Proof. repeat split; vm_compute; reflexivity. Qed.

(** C10, amended. [main] hands the watermark itself to the fetch as
    [start_date]: on a run against a table with rows the plan is the
    range from the latest stored date to yesterday. When that date is not
    after yesterday, the first fetch is that of the watermark day, but its
    insert is rejected as a duplicate only when moreover every day of the
    range is served and the payload of the watermark day carries that
    date: then its report is the first thing printed and the stored row
    is still there at the end of the run. When the fetch of some day of
    the range raises, the run ends with that exception before any insert,
    and when the watermark is after yesterday nothing is fetched at all:
    in both cases nothing is rejected and nothing is printed. *)
Theorem range_starts_at_watermark (E : env) (w0 w : world) (c : Fitbit)
    (wm e : datetime.date) :
  transaction w0 = None ->
  set_client E None w0 = (w, Ok c) ->
  heart_rate w0 <> ∅ ->
  snd (get_most_recent_date E w0) = Ok wm ->
  datetime.sub (today E) 1 = Ok e ->
  datetime.valid wm ->
  is_Some (heart_rate w0 !! wm)
  /\ (forall k, is_Some (heart_rate w0 !! k) -> k <= wm)
  /\ main E w0 = bind (get_intra_hr E c (Some wm) (Some e)) (persist E)
                   (set_transaction (Some (heart_rate w)) w)
  /\ (wm <= e ->
      daterange wm e = Yield wm (yields (seqZ (wm + 1) (e - wm)))
      /\ (exists tr, calls (fst (main E w0)) = calls w ++ fetch_of c wm :: tr)
      /\ ((forall k, wm <= k <= e ->
             is_ok (intraday_reply E (OnDate k)) = true) ->
          key_of E (payload_of E wm) = Ok wm ->
          (exists text more,
              stdout (fst (main E w0)) = stdout w0 ++ report text :: more)
          /\ heart_rate (fst (main E w0)) !! wm = heart_rate w0 !! wm)
      /\ (forall d err,
            wm <= d <= e ->
            (forall k, wm <= k < d ->
               is_ok (intraday_reply E (OnDate k)) = true) ->
            intraday_reply E (OnDate d) = Raise err ->
            snd (main E w0) = Raise err
            /\ heart_rate (fst (main E w0)) = heart_rate w0
            /\ stdout (fst (main E w0)) = stdout w0))
  /\ (e < wm ->
      daterange wm e = StopIteration
      /\ snd (main E w0) = Ok tt
      /\ heart_rate (fst (main E w0)) = heart_rate w0
      /\ calls (fst (main E w0)) = calls w
      /\ stdout (fst (main E w0)) = stdout w0).
Proof.
  intros Hfresh Hc Hne Hwm He Hvalid.
  pose proof (sub_valid _ _ _ He) as Hve.
  pose proof (set_client_keeps_table E None w0) as Ht.
  pose proof (set_client_keeps_stdout E None w0) as Ho.
  pose proof (set_client_keeps_transaction E None w0) as Hx.
  rewrite Hc in Ht, Ho, Hx. simpl in Ht, Ho, Hx. rewrite Hfresh in Hx.
  pose proof (seen_committed w Hx) as Hseen.
  pose proof (seen_committed w0 Hfresh) as Hseen0.
  assert (snd (get_most_recent_date E w) = Ok wm) as Hwm'.
  { rewrite (watermark_same_seen E w0 w); [exact Hwm|]. congruence. }
  assert (is_Some (heart_rate w0 !! wm)
          /\ forall k, is_Some (heart_rate w0 !! k) -> k <= wm) as [Hin Hmax].
  { destruct (watermark_cases E w0 wm Hwm) as [[Hempty _]|H].
    - rewrite Hseen0 in Hempty. contradiction.
    - rewrite Hseen0 in H. exact H. }
  pose proof (main_plan E w0 w c wm e Hc Hwm' He) as Hmain.
  rewrite Hseen in Hmain.
  split; [exact Hin|]. split; [exact Hmax|]. split; [exact Hmain|]. split.
  - intros Hle. split.
    { rewrite (daterange_yields _ _ Hvalid Hve), seqZ_cons by lia. simpl.
      do 3 f_equal; lia. }
    split; [|split].
    + rewrite Hmain. unfold bind.
      destruct (get_intra_hr_first E c wm e
                  (set_transaction (Some (heart_rate w)) w) Hvalid Hve Hle)
        as [tr Htr].
      exists tr.
      destruct (get_intra_hr E c (Some wm) (Some e) _) as [w2 [x|err]];
        simpl in *.
      * pose proof (persist_keeps_calls E x w2) as Hpc.
        unfold preserves in Hpc. rewrite Hpc. exact Htr.
      * exact Htr.
    + intros Hserved Hkey. rewrite Hmain. unfold bind.
      rewrite (get_intra_hr_served E c wm e _ Hvalid Hve Hserved).
      rewrite seqZ_cons by lia. rewrite fmap_cons.
      destruct (after_fetch E 1
                  (calls (set_transaction (Some (heart_rate w)) w)
                   ++ (fetch_of c
                         <$> wm :: seqZ (Z.succ wm) (Z.pred (e - wm + 1))))
                  (set_transaction (Some (heart_rate w)) w))
        as (Htf & Hxf & Hof).
      remember (after_call E _) as wf eqn:Hwf. clear Hwf.
      simpl in Htf, Hxf, Hof.
      rewrite persist_cons.
      destruct (add_hr_to_db_duplicate E (payload_of E wm) wf) as [text Hdup].
      { exists wm. split; [exact Hkey|].
        rewrite (seen_in_transaction wf _ Hxf), Ht. exact Hin. }
      rewrite Hdup. simpl integrity_text. cbv iota.
      remember (payload_of E <$> _) as rest eqn:Hrest. clear Hrest.
      split.
      * destruct (persist_stdout E rest
                    (set_stdout
                       (stdout (set_transaction None wf) ++ [report text])
                       (set_transaction None wf)))
          as (texts & _ & Hmore).
        exists text, (report <$> texts). rewrite Hmore. simpl.
        rewrite Hof, Ho, <- app_assoc. reflexivity.
      * destruct Hin as [r Hr]. rewrite Hr.
        eapply lookup_weaken; [|apply persist_grows].
        simpl. rewrite Htf, Ht. exact Hr.
    + intros d err Hd Hserved Hfail.
      exact (main_fetch_failure E w0 w c wm e d err Hc Hwm' He Hvalid Hd
               Hserved Hfail).
  - intros Hlt. split.
    { unfold daterange, range, datetime.days_between.
      rewrite seqZ_nil by lia. reflexivity. }
    exact (main_empty_plan E w0 w c wm e Hc Hwm' He Hlt).
Qed.

Lemma range_starts_at_watermark_witness :
  (exists tr,
     calls (fst (main (Samples.env_ok Samples.d_2015_12_29)
                   (Samples.world_with
                      (Samples.table [(Samples.d_2015_12_27, Samples.a_row)]))))
     = [Sleep Samples.client]
       ++ fetch_of Samples.client Samples.d_2015_12_27 :: tr)
  /\ exists text more,
       stdout (fst (main (Samples.env_ok Samples.d_2015_12_29)
                      (Samples.world_with
                         (Samples.table
                            [(Samples.d_2015_12_27, Samples.a_row)]))))
       = [] ++ report text :: more.
Proof.
  destruct (range_starts_at_watermark (Samples.env_ok Samples.d_2015_12_29)
              (Samples.world_with
                 (Samples.table [(Samples.d_2015_12_27, Samples.a_row)]))
              (set_calls [Sleep Samples.client]
                 (Samples.world_with
                    (Samples.table [(Samples.d_2015_12_27, Samples.a_row)])))
              Samples.client Samples.d_2015_12_27 Samples.d_2015_12_28)
    as (_ & _ & _ & Hplan & _).
  - reflexivity.
  - vm_compute. reflexivity.
  - intros Hempty.
    apply (f_equal (fun t : gmap Z row => t !! Samples.d_2015_12_27)) in Hempty.
    vm_compute in Hempty. discriminate.
  - vm_compute. reflexivity.
  - vm_compute. reflexivity.
  - unfold datetime.valid. vm_compute. split; discriminate.
  - destruct Hplan as (_ & Hfirst & Hrejected & _).
    + vm_compute. discriminate.
    + split; [exact Hfirst|].
      destruct Hrejected as [Hout _].
      * intros k Hk. unfold Samples.d_2015_12_27, Samples.d_2015_12_28 in Hk.
        assert (k = 735959 \/ k = 735960) as [-> | ->] by lia; reflexivity.
      * vm_compute. reflexivity.
      * exact Hout.
Defined.

(** The run of 2015-12-29 against a table that holds 2015-12-27: that day
    is fetched again and its insert is reported, the row of 2015-12-28 is
    committed. *)
Example watermark_day_is_fetched_again :
  calls (fst (main (Samples.env_ok Samples.d_2015_12_29)
                (Samples.world_with
                   (Samples.table [(Samples.d_2015_12_27, Samples.a_row)]))))
  = [Sleep Samples.client;
     fetch_of Samples.client Samples.d_2015_12_27;
     fetch_of Samples.client Samples.d_2015_12_28]
  /\ stdout (fst (main (Samples.env_ok Samples.d_2015_12_29)
                    (Samples.world_with
                       (Samples.table [(Samples.d_2015_12_27, Samples.a_row)]))))
     = [report (Samples.error_text
                  (HeartRate.new (PStr "2015-12-27") (PInt 58) Samples.dataset))]
  /\ heart_rate (fst (main (Samples.env_ok Samples.d_2015_12_29)
                        (Samples.world_with
                           (Samples.table [(Samples.d_2015_12_27, Samples.a_row)]))))
     = Samples.table [(Samples.d_2015_12_27, Samples.a_row);
                      (Samples.d_2015_12_28, Samples.a_row)].
Proof. repeat split; vm_compute; reflexivity. Qed.

(** ** The dates a run can store *)

Lemma daterange_loop_yielded s ns d :
  d ∈ yielded (daterange_loop s ns) -> exists n, n ∈ ns /\ d = s + n.
Proof.
  induction ns as [|n ns IH]; simpl; intros Hd.
  - inversion Hd.
  - destruct (datetime.add s n) as [d'|err] eqn:Hadd; simpl in Hd.
    + apply elem_of_cons in Hd as [->|Hd].
      * exists n. split; [apply list_elem_of_here|].
        unfold datetime.add in Hadd.
        destruct (datetime.in_range (s + n)); inversion Hadd; reflexivity.
      * destruct (IH Hd) as (m & Hm & ->).
        exists m. split; [apply list_elem_of_further, Hm | reflexivity].
    + inversion Hd.
Qed.

(** Whatever the two dates, [daterange] yields days between them only. *)
Lemma daterange_yielded s e d :
  d ∈ yielded (daterange s e) -> s <= d <= e.
Proof.
  intros Hd. apply daterange_loop_yielded in Hd as (n & Hn & ->).
  unfold range, datetime.days_between in Hn. apply elem_of_seqZ in Hn. lia.
Qed.

(** A comprehension that ends normally returns the payloads of the days
    the generator yielded. *)
Lemma fetch_each_payloads E c g w w' x :
  fetch_each E c g w = (w', Ok x) -> x = payload_of E <$> yielded g.
Proof.
  revert w w' x. induction g as [|d rest IH|err]; intros w w' x; simpl.
  - unfold ret. intros H. inversion H. reflexivity.
  - unfold bind at 1, get_daily_data, remote. unfold payload_of at 1.
    destruct (intraday_reply E (OnDate d)) as [v|err]; [|discriminate].
    unfold bind at 1.
    destruct (fetch_each E c rest _) as [w1 [vs|err]] eqn:Hrest; [|discriminate].
    unfold ret. intros H. inversion H; subst.
    rewrite (IH _ _ _ Hrest). reflexivity.
  - unfold raise. discriminate.
Qed.

Lemma get_intra_hr_payloads E c s e w w' x :
  get_intra_hr E c (Some s) (Some e) w = (w', Ok x) ->
  x = payload_of E <$> yielded (daterange s e).
Proof.
  rewrite get_intra_hr_eq. unfold get_intra_hr_body.
  destruct (fetch_each E c (daterange s e) (before_call E 1 w))
    as [w1 [vs|err]] eqn:Hf; [|discriminate].
  intros H. inversion H; subst. eapply fetch_each_payloads, Hf.
Qed.

(** When the service answers each fetch with the payload of the day asked
    for, a run commits dates of its plan only: from the watermark to
    yesterday. *)
Lemma main_keys E w k :
  dated_as_asked E ->
  is_Some (heart_rate (fst (main E w)) !! k) ->
  is_Some (heart_rate w !! k)
  \/ exists s e, snd (get_most_recent_date E w) = Ok s
       /\ datetime.sub (today E) 1 = Ok e /\ s <= k <= e.
Proof.
  intros Hasked.
  pose proof (set_client_keeps_table E None w) as Ht. unfold preserves in Ht.
  pose proof (set_client_keeps_seen E None w) as Hseen.
  destruct (set_client E None w) as [w1 [c|err]] eqn:Hc; simpl in Ht, Hseen.
  2:{ rewrite (main_set_client_raises E w w1 err Hc). simpl. rewrite Ht. auto. }
  destruct (watermark_exists E w1) as [s Hs].
  assert (snd (get_most_recent_date E w) = Ok s) as Hs0.
  { rewrite <- (watermark_same_seen E w w1 Hseen). exact Hs. }
  destruct (datetime.sub (today E) 1) as [e|err] eqn:He.
  2:{ rewrite (main_no_yesterday E w w1 c err Hc He). simpl. rewrite Ht. auto. }
  rewrite (main_plan E w w1 c s e Hc Hs He). unfold bind.
  pose proof (get_intra_hr_keeps_table E c (Some s) (Some e)
                (set_transaction (Some (seen w1)) w1)) as Ht2.
  unfold preserves in Ht2.
  destruct (get_intra_hr E c (Some s) (Some e) _) as [w2 [x|err]] eqn:Hg;
    simpl in Ht2.
  2:{ simpl. rewrite Ht2, Ht. auto. }
  intros Hk. apply persist_keys in Hk as [Hk|(day & Hin & Hkey)].
  - left. rewrite <- Ht, <- Ht2. exact Hk.
  - right. exists s, e. split; [exact Hs0|]. split; [reflexivity|].
    rewrite (get_intra_hr_payloads E c s e _ w2 x Hg) in Hin.
    apply list_elem_of_fmap in Hin as (d & -> & Hd).
    apply Hasked in Hkey as ->. apply daterange_yielded, Hd.
Qed.

(** So a table whose dates are all before today stays such a table. *)
Lemma main_keeps_dates_before_today E w :
  dated_as_asked E ->
  (forall k, is_Some (heart_rate w !! k) -> k < today E) ->
  forall k, is_Some (heart_rate (fst (main E w)) !! k) -> k < today E.
Proof.
  intros Hasked Hpast k Hk.
  destruct (main_keys E w k Hasked Hk) as [H|(s & e & _ & He & Hke)].
  - apply Hpast, H.
  - unfold datetime.sub, datetime.add in He.
    destruct (datetime.in_range (today E + - (1))); inversion He. lia.
Qed.

(** ** A second run of the whole script *)

Ltac set_client_step :=
  match goal with
  | |- context [files ?w !! ?p] => destruct (files w !! p) as [[?|]|] eqn:?
  | |- context [getitem ?a ?k] => is_var a; destruct (getitem a k) eqn:?
  | |- context [sleep_reply ?E] => destruct (sleep_reply E) eqn:?
  | |- context [refresh_token_reply ?E] => destruct (refresh_token_reply E) eqn:?
  end; simpl; unfold bind, lift, ret; simpl.

Ltac set_client_unfold :=
  unfold set_client, get_tokens, json_load, bind, lift, try_except_any,
    update_tokens, remote, json_dump, ret.

(** The outcome of [set_client] is fixed by the files and the service. *)
Lemma set_client_outcome E f w w' :
  files w' = files w -> snd (set_client E f w') = snd (set_client E f w).
Proof.
  intros Hf. set_client_unfold. rewrite Hf.
  repeat set_client_step; reflexivity.
Qed.

(** When [set_client] raises, nothing was written. *)
Lemma set_client_raises_files E f w :
  match snd (set_client E f w) with
  | Raise _ => files (fst (set_client E f w)) = files w
  | Ok _ => True
  end.
Proof. set_client_unfold. repeat set_client_step; reflexivity || exact I. Qed.

(** The outcome of the fetch is fixed by the range and the service. *)
Lemma fetch_each_outcome E c c' g w w' :
  snd (fetch_each E c g w) = snd (fetch_each E c' g w').
Proof.
  revert w w'. induction g as [|d rest IH|err]; intros w w'; simpl;
    [reflexivity| |reflexivity].
  unfold bind at 1 3, get_daily_data, remote.
  destruct (intraday_reply E (OnDate d)) as [v|err]; [|reflexivity].
  unfold bind.
  specialize (IH (set_calls (calls w ++ [IntradayTimeSeries c (OnDate d)]) w)
                (set_calls (calls w' ++ [IntradayTimeSeries c' (OnDate d)]) w')).
  destruct (fetch_each E c rest _) as [w1 [vs|err]],
           (fetch_each E c' rest _) as [w1' [vs'|err']];
    simpl in *; congruence.
Qed.

Lemma get_intra_hr_outcome E c c' s e w w' :
  snd (get_intra_hr E c (Some s) (Some e) w)
  = snd (get_intra_hr E c' (Some s) (Some e) w').
Proof.
  rewrite !get_intra_hr_eq. unfold get_intra_hr_body.
  pose proof (fetch_each_outcome E c c' (daterange s e)
                (before_call E 1 w) (before_call E 1 w')) as H.
  destruct (fetch_each E c _ _) as [w1 [vs|err]],
           (fetch_each E c' _ _) as [w1' [vs'|err']];
    simpl in *; congruence.
Qed.

(** A generator that was consumed to a normal end threw nothing. *)
Lemma fetch_each_ended E c g w w' x :
  fetch_each E c g w = (w', Ok x) -> g = yields (yielded g).
Proof.
  revert w w' x. induction g as [|d rest IH|err]; intros w w' x; simpl;
    [reflexivity| |discriminate].
  unfold bind at 1, get_daily_data, remote.
  destruct (intraday_reply E (OnDate d)) as [v|err]; [|discriminate].
  unfold bind at 1.
  destruct (fetch_each E c rest _) as [w1 [vs|err]] eqn:Hrest; [|discriminate].
  intros _. f_equal. eapply IH, Hrest.
Qed.

Lemma daterange_loop_ended s ns l :
  daterange_loop s ns = yields l -> l = Z.add s <$> ns.
Proof.
  revert l. induction ns as [|n ns IH]; intros l; simpl.
  - destruct l; [reflexivity|discriminate].
  - unfold datetime.add. destruct (datetime.in_range (s + n)); [|destruct l; discriminate].
    destruct l as [|d l]; [discriminate|]. simpl. intros H. inversion H; subst.
    f_equal. apply IH. assumption.
Qed.

(** What a fetch that returned has returned: the payloads of the days
    from [s] to [e]. *)
Lemma get_intra_hr_returned E c s e w w' x :
  get_intra_hr E c (Some s) (Some e) w = (w', Ok x) ->
  x = payload_of E <$> seqZ s (e - s + 1).
Proof.
  intros Hg. rewrite (get_intra_hr_payloads E c s e w w' x Hg).
  rewrite get_intra_hr_eq in Hg. unfold get_intra_hr_body in Hg.
  destruct (fetch_each E c (daterange s e) (before_call E 1 w))
    as [w1 [vs|err]] eqn:Hf; [|discriminate].
  pose proof (fetch_each_ended E c _ _ _ _ Hf) as Hend.
  unfold daterange in Hend at 1. apply daterange_loop_ended in Hend.
  rewrite Hend. unfold range, datetime.days_between.
  rewrite fmap_add_seqZ. do 2 f_equal. lia.
Qed.

(** With no transaction open: if a date that no payload of [pre] carries
    was committed by the loop, the loop got past [pre]. *)
Lemma persist_reaches E pre suf w k :
  transaction w = None ->
  is_Some (store_of (persist E (pre ++ suf) w) !! k) ->
  heart_rate w !! k = None ->
  (forall day, day ∈ pre -> key_of E day <> Ok k) ->
  exists w3, persist E pre w = (w3, Ok tt) /\ transaction w3 = None.
Proof.
  revert w. induction pre as [|day pre IH]; intros w Hw Hk Hnone Hpre.
  { exists w. split; [reflexivity | exact Hw]. }
  simpl app in Hk. rewrite persist_cons in *.
  assert (forall day', day' ∈ pre -> key_of E day' <> Ok k) as Hpre'.
  { intros day' Hin. apply Hpre, list_elem_of_further, Hin. }
  destruct (add_hr_to_db_committed E day) as [(e & _ & H)|(d & r & text & Hkey & H)];
    rewrite (H w Hw) in *.
  - destruct (integrity_text e).
    + apply (IH (set_stdout _ w)); assumption.
    + unfold store_of in Hk. simpl in Hk. rewrite Hnone in Hk.
      destruct Hk as [? Hk]. discriminate.
  - assert (d <> k) as Hdk.
    { intros ->. apply (Hpre day); [apply list_elem_of_here | exact Hkey]. }
    destruct (heart_rate w !! d).
    + apply (IH (set_stdout _ w)); assumption.
    + apply (IH (set_heart_rate _ w)); [assumption|assumption| |assumption].
      simpl. rewrite lookup_insert_ne by exact Hdk. exact Hnone.
Qed.

Lemma seqZ_app_cons_inv (s n : Z) (l1 : list Z) (r : Z) (l2 : list Z) :
  seqZ s n = l1 ++ r :: l2 ->
  l2 = seqZ (r + 1) (s + n - r - 1) /\ s <= r < s + n.
Proof.
  intros H.
  assert (Z.of_nat (length l1) < n) as Hlen.
  { apply (f_equal length) in H. rewrite length_seqZ, length_app in H.
    simpl in H. lia. }
  remember (Z.of_nat (length l1)) as k eqn:Hk.
  replace n with (k + (n - k)) in H by lia.
  rewrite seqZ_app in H by lia.
  apply app_inj_1 in H as [_ H2]; [|rewrite length_seqZ; lia].
  rewrite seqZ_cons in H2 by lia. inversion H2; subst r l2.
  split; [f_equal; lia | lia].
Qed.

(** The loop of a second run starts from the new watermark, inside a new
    transaction, and commits nothing: either the first run has committed
    nothing and the second repeats it, or the new watermark was committed
    by the first run after a rejected insert, its insert is now the
    rejected one, and every later date the second run would insert is
    already committed. *)
Lemma rerun_from_watermark E w2 W2 s1 s2 e :
  dated_as_asked E ->
  transaction w2 = Some (heart_rate w2) ->
  snd (get_most_recent_date E w2) = Ok s1 ->
  heart_rate W2 = store_of (persist E (payload_of E <$> seqZ s1 (e - s1 + 1)) w2) ->
  transaction W2 = Some (heart_rate W2) ->
  snd (get_most_recent_date E W2) = Ok s2 ->
  store_of (persist E (payload_of E <$> seqZ s2 (e - s2 + 1)) W2) = heart_rate W2.
Proof.
  intros Hasked Hx1 Hs1 HT Hx2 Hs2.
  assert (heart_rate w2 ⊆ heart_rate W2) as Hsub.
  { rewrite HT. apply persist_grows. }
  pose proof (seen_in_transaction w2 _ Hx1) as Hseen1.
  pose proof (seen_in_transaction W2 _ Hx2) as Hseen2.
  assert (forall k, is_Some (heart_rate W2 !! k) ->
            is_Some (heart_rate w2 !! k)
            \/ (s1 <= k <= e /\ key_of E (payload_of E k) = Ok k)) as Hkeys.
  { intros k Hk. rewrite HT in Hk.
    apply persist_keys in Hk as [Hk|(day & Hday & Hkey)]; [auto|].
    right. apply list_elem_of_fmap in Hday as (d & -> & Hd).
    pose proof (Hasked _ _ Hkey) as ->. apply elem_of_seqZ in Hd.
    split; [lia | exact Hkey]. }
  assert (heart_rate W2 = heart_rate w2 ->
          store_of (persist E (payload_of E <$> seqZ s2 (e - s2 + 1)) W2)
          = heart_rate W2) as Hsame.
  { intros Heq.
    assert (s2 = s1) as ->.
    { rewrite (watermark_same_seen E w2 W2) in Hs2 by congruence. congruence. }
    destruct (persist_determined E (payload_of E <$> seqZ s1 (e - s1 + 1)) W2 w2)
      as [Hst _]; [exact Heq | congruence |].
    rewrite Hst. symmetry. exact HT. }
  destruct (watermark_cases E W2 s2 Hs2) as [[HW _]|[Hin2 Hmax2]].
  - apply Hsame. rewrite Hseen2 in HW. rewrite HW. symmetry. apply map_empty.
    intros i. destruct (heart_rate w2 !! i) eqn:Hi; [|reflexivity].
    eapply lookup_weaken in Hi; [|exact Hsub].
    rewrite HW, lookup_empty in Hi. discriminate.
  - rewrite Hseen2 in Hin2, Hmax2.
    destruct (heart_rate w2 !! s2) as [r0|] eqn:H0.
    + apply Hsame. apply map_eq. intros i.
      destruct (heart_rate w2 !! i) as [ri|] eqn:Hi.
      * eapply lookup_weaken; [exact Hi | exact Hsub].
      * destruct (heart_rate W2 !! i) as [ri|] eqn:Hi2; [|reflexivity]. exfalso.
        destruct (Hkeys i) as [[? Hold]|[Hrange _]];
          [rewrite Hi2; eauto | congruence |].
        destruct (watermark_cases E w2 s1 Hs1) as [[HE _]|[Hin1 Hmax1]].
        -- rewrite Hseen1 in HE. rewrite HE, lookup_empty in H0. discriminate.
        -- rewrite Hseen1 in Hin1, Hmax1.
           assert (s2 <= s1) by (apply Hmax1; rewrite H0; eauto).
           assert (i <= s2) by (apply Hmax2; rewrite Hi2; eauto).
           assert (i = s1) as -> by lia.
           rewrite Hi in Hin1. destruct Hin1; discriminate.
    + destruct (Hkeys s2 Hin2) as [[? Hold]|[Hrange Hkey2]]; [congruence|].
      destruct (persist_in_transaction E
                  (payload_of E <$> seqZ s1 (e - s1 + 1)) w2 _ Hx1)
        as [Hnone|(pre & day & rest & text & Hsplit & Hrun)].
      { rewrite <- HT in Hnone. rewrite Hnone, H0 in Hin2.
        destruct Hin2; discriminate. }
      apply fmap_app_inv in Hsplit as (l1 & l2' & _ & Hrest & Hl).
      symmetry in Hrest. apply fmap_cons_inv in Hrest as (r & l2 & _ & -> & ->).
      apply seqZ_app_cons_inv in Hl as [-> Hr].
      rewrite Hrun in HT. clear Hrun.
      remember (set_stdout (stdout w2 ++ [report text]) (set_transaction None w2))
        as wr eqn:Hwr.
      assert (transaction wr = None) as Hxr by (rewrite Hwr; reflexivity).
      assert (heart_rate wr = heart_rate w2) as Htr by (rewrite Hwr; reflexivity).
      clear Hwr.
      replace (s1 + (e - s1 + 1) - r - 1) with (e - r) in HT by lia.
      assert (r + 1 <= s2) as Hafter.
      { rewrite HT in Hin2.
        apply persist_keys in Hin2 as [Hold|(day' & Hday & Hkey)].
        - rewrite Htr, H0 in Hold. destruct Hold; discriminate.
        - apply list_elem_of_fmap in Hday as (d & -> & Hd).
          pose proof (Hasked _ _ Hkey) as <-. apply elem_of_seqZ in Hd. lia. }
      assert (payload_of E <$> seqZ (r + 1) (e - r)
              = (payload_of E <$> seqZ (r + 1) (s2 - r - 1))
                  ++ (payload_of E <$> seqZ s2 (e - s2 + 1))) as Hx.
      { rewrite <- fmap_app. f_equal.
        replace (e - r) with ((s2 - r - 1) + (e - s2 + 1)) by lia.
        rewrite seqZ_app by lia. do 2 f_equal; lia. }
      rewrite Hx in HT.
      destruct (persist_reaches E (payload_of E <$> seqZ (r + 1) (s2 - r - 1))
                  (payload_of E <$> seqZ s2 (e - s2 + 1)) wr s2 Hxr)
        as (w3 & Hw3 & Hx3).
      { rewrite <- HT. exact Hin2. }
      { rewrite Htr. exact H0. }
      { intros day' Hday Hkey. apply list_elem_of_fmap in Hday as (d & -> & Hd).
        apply Hasked in Hkey. apply elem_of_seqZ in Hd. lia. }
      rewrite (persist_app E _ _ wr w3 Hw3) in HT.
      destruct (persist_rerun E (payload_of E <$> seqZ s2 (e - s2 + 1)) w3
                  (set_transaction None W2) Hx3 eq_refl) as [Hstore _].
      { simpl. rewrite HT. reflexivity. }
      simpl in Hstore. rewrite <- Hstore.
      rewrite seqZ_cons by lia. rewrite fmap_cons, !persist_cons.
      destruct (add_hr_to_db_cases E (payload_of E s2))
        as [(e' & Hk & _)|(d & r' & text' & Hk & H)];
        rewrite Hk in Hkey2; inversion Hkey2; subst d.
      rewrite !H, Hseen2. unfold seen at 1. simpl transaction. cbv iota.
      simpl heart_rate.
      destruct Hin2 as [rr ->]. reflexivity.
Qed.

(** A run leaves the committed table as it found it as soon as its loop,
    if reached, does. *)
Lemma main_table_unchanged E W s :
  snd (get_most_recent_date E W) = Ok s ->
  (forall e c w1 w2 x,
     datetime.sub (today E) 1 = Ok e ->
     heart_rate w1 = heart_rate W ->
     transaction w1 = Some (seen W) ->
     get_intra_hr E c (Some s) (Some e) w1 = (w2, Ok x) ->
     store_of (persist E x w2) = heart_rate W) ->
  heart_rate (fst (main E W)) = heart_rate W.
Proof.
  intros Hs Hloop.
  pose proof (set_client_keeps_table E None W) as Ht. unfold preserves in Ht.
  pose proof (set_client_keeps_seen E None W) as Hseen.
  destruct (set_client E None W) as [w1 [c|err]] eqn:Hc; simpl in Ht, Hseen.
  2:{ rewrite (main_set_client_raises E W w1 err Hc). exact Ht. }
  assert (snd (get_most_recent_date E w1) = Ok s) as Hs1.
  { rewrite (watermark_same_seen E W w1 Hseen). exact Hs. }
  destruct (datetime.sub (today E) 1) as [e|err] eqn:He.
  - rewrite (main_plan E W w1 c s e Hc Hs1 He). unfold bind.
    pose proof (get_intra_hr_keeps_table E c (Some s) (Some e)
                  (set_transaction (Some (seen w1)) w1)) as Ht2.
    unfold preserves in Ht2.
    destruct (get_intra_hr E c (Some s) (Some e) _) as [w2 [x|err]] eqn:Hg;
      simpl in Ht2.
    + apply (Hloop e c _ w2 x eq_refl) in Hg; [exact Hg | exact Ht |].
      simpl. rewrite Hseen. reflexivity.
    + simpl. rewrite Ht2. exact Ht.
  - rewrite (main_no_yesterday E W w1 c err Hc He). exact Ht.
Qed.

(** Two runs in a row, on the same day and with the same answers from a
    service that answers each fetch with the payload of the day asked
    for, commit what one run commits. *)
Lemma main_rerun E w :
  transaction w = None ->
  dated_as_asked E ->
  heart_rate (fst (main E (restart (fst (main E w))))) = heart_rate (fst (main E w)).
Proof.
  intros Hfresh Hasked.
  change (heart_rate (fst (main E (restart (fst (main E w)))))
          = heart_rate (restart (fst (main E w)))).
  pose proof (set_client_keeps_table E None w) as Ht. unfold preserves in Ht.
  pose proof (set_client_keeps_transaction E None w) as Hx. unfold preserves in Hx.
  pose proof (set_client_raises_files E None w) as Hfiles.
  destruct (set_client E None w) as [w1 [c|err]] eqn:Hc; simpl in Ht, Hx, Hfiles.
  - rewrite Hfresh in Hx. pose proof (seen_committed w1 Hx) as Hseen1.
    destruct (watermark_exists E w1) as [s1 Hs1].
    destruct (datetime.sub (today E) 1) as [e|err] eqn:He.
    + rewrite (main_plan E w w1 c s1 e Hc Hs1 He). unfold bind.
      pose proof (get_intra_hr_keeps_table E c (Some s1) (Some e)
                    (set_transaction (Some (seen w1)) w1)) as Ht2.
      pose proof (get_intra_hr_keeps_transaction E c (Some s1) (Some e)
                    (set_transaction (Some (seen w1)) w1)) as Hx2.
      unfold preserves in Ht2, Hx2.
      destruct (get_intra_hr E c (Some s1) (Some e) _) as [w2 [x1|err]] eqn:Hg;
        simpl in Ht2, Hx2; simpl fst.
      * destruct (watermark_exists E (restart (fst (persist E x1 w2)))) as [s2 Hs2].
        apply (main_table_unchanged E _ s2 Hs2).
        intros e' c' w1' w2' x2 He' Hw1' Hxw1' Hg2.
        rewrite He in He'. injection He' as <-.
        pose proof (get_intra_hr_keeps_table E c' (Some s2) (Some e) w1') as Ht3.
        pose proof (get_intra_hr_keeps_transaction E c' (Some s2) (Some e) w1') as Hx3.
        unfold preserves in Ht3, Hx3. rewrite Hg2 in Ht3, Hx3. simpl in Ht3, Hx3.
        rewrite (get_intra_hr_returned E c' s2 e w1' w2' x2 Hg2).
        rewrite <- Hw1', <- Ht3.
        assert (seen (restart (fst (persist E x1 w2)))
                = heart_rate (restart (fst (persist E x1 w2)))) as Hseen2
          by reflexivity.
        apply (rerun_from_watermark E w2 w2' s1 s2 e Hasked).
        -- rewrite Hx2, Ht2, Hseen1. reflexivity.
        -- rewrite (watermark_same_seen E w1 w2); [exact Hs1|].
           unfold seen at 1. rewrite Hx2. reflexivity.
        -- rewrite Ht3, Hw1'.
           rewrite (get_intra_hr_returned E c s1 e _ w2 x1 Hg). reflexivity.
        -- rewrite Hx3, Hxw1', Hseen2, Ht3, Hw1'. reflexivity.
        -- rewrite (watermark_same_seen E (restart (fst (persist E x1 w2))) w2');
             [exact Hs2|].
           unfold seen at 1. rewrite Hx3, Hxw1'. reflexivity.
      * apply (main_table_unchanged E (restart w2) s1).
        { rewrite (watermark_same_seen E w1 (restart w2)); [exact Hs1|].
          unfold seen. simpl. rewrite Ht2, Hx. reflexivity. }
        intros e' c' w1' w2' x2 He' Hw1' Hxw1' Hg2.
        rewrite He in He'. injection He' as <-.
        pose proof (get_intra_hr_outcome E c c' s1 e
                      (set_transaction (Some (seen w1)) w1) w1') as Hsame.
        rewrite Hg, Hg2 in Hsame. discriminate.
    + rewrite (main_no_yesterday E w w1 c err Hc He). simpl fst.
      destruct (watermark_exists E (restart (set_transaction (Some (seen w1)) w1)))
        as [s2 Hs2].
      apply (main_table_unchanged E _ s2 Hs2).
      intros e' c' w1' w2' x2 He'. rewrite He in He'. discriminate.
  - rewrite (main_set_client_raises E w w1 err Hc). simpl fst.
    pose proof (set_client_outcome E None w (restart w1) Hfiles) as Hagain.
    rewrite Hc in Hagain. simpl in Hagain.
    pose proof (set_client_keeps_table E None (restart w1)) as Ht1.
    unfold preserves in Ht1.
    destruct (set_client E None (restart w1)) as [w1' [c|err']] eqn:Hc1;
      simpl in Hagain; [discriminate|].
    rewrite (main_set_client_raises E (restart w1) w1' err' Hc1). exact Ht1.
Qed.

(** C1. A payload whose date the connection sees as a key makes the insert
    raise [IntegrityError]: the transaction of the connection is rolled
    back, the committed table is as it was, and the loop of [main]
    catches the exception, prints its report and goes on with the next
    payload. When every payload is under a committed date the loop ends
    normally with one report for each payload and the committed table
    unchanged, and so does a whole run whose planned days are all served
    with such payloads. Once no transaction is open, running the loop a
    second time over the same payloads leaves the committed table as the
    first pass left it and ends as the first pass ended. And when the
    service answers each fetch with the payload of the day asked for, a
    second run of the whole script, on the same day and with the same
    answers, leaves the committed table as the first run left it. *)
Theorem rerun_is_idempotent (E : env) (x : list pyval) (w : world) :
  (forall day rest,
     already_stored E (seen w) day ->
     exists text,
       add_hr_to_db E day w
       = (set_transaction None w, Raise (IntegrityError text))
       /\ heart_rate (set_transaction None w) = heart_rate w
       /\ persist E (day :: rest) w
          = persist E rest
              (set_stdout (stdout w ++ [report text]) (set_transaction None w)))
  /\ (heart_rate w ⊆ seen w ->
      Forall (already_stored E (heart_rate w)) x ->
      exists texts,
        length texts = length x
        /\ snd (persist E x w) = Ok tt
        /\ store_of (persist E x w) = heart_rate w
        /\ stdout (fst (persist E x w)) = stdout w ++ (report <$> texts))
  /\ (forall w0 c s e,
        transaction w0 = None ->
        set_client E None w0 = (w, Ok c) ->
        snd (get_most_recent_date E w) = Ok s ->
        datetime.sub (today E) 1 = Ok e ->
        datetime.valid s ->
        (forall k, s <= k <= e ->
           is_ok (intraday_reply E (OnDate k)) = true
           /\ already_stored E (heart_rate w) (payload_of E k)) ->
        snd (main E w0) = Ok tt
        /\ heart_rate (fst (main E w0)) = heart_rate w0
        /\ exists texts,
             Z.of_nat (length texts) = Z.max 0 (e - s + 1)
             /\ stdout (fst (main E w0)) = stdout w0 ++ (report <$> texts))
  /\ (transaction w = None ->
      store_of (persist E x (fst (persist E x w))) = store_of (persist E x w)
      /\ snd (persist E x (fst (persist E x w))) = snd (persist E x w))
  /\ (transaction w = None ->
      dated_as_asked E ->
      heart_rate (fst (main E (restart (fst (main E w)))))
      = heart_rate (fst (main E w))).
Proof.
  split; [|split; [|split; [|split]]].
  - intros day rest Hday.
    destruct (add_hr_to_db_duplicate E day w Hday) as [text Hdup].
    exists text. split; [exact Hdup|]. split; [reflexivity|].
    rewrite persist_cons, Hdup. reflexivity.
  - intros Hsub Hx. apply persist_all_duplicates; assumption.
  - intros w0 c s e Hfresh Hc Hs He Hvs Hdays.
    pose proof (set_client_keeps_table E None w0) as Ht.
    pose proof (set_client_keeps_stdout E None w0) as Ho.
    pose proof (set_client_keeps_transaction E None w0) as Hx.
    rewrite Hc in Ht, Ho, Hx. simpl in Ht, Ho, Hx. rewrite Hfresh in Hx.
    rewrite (main_plan E w0 w c s e Hc Hs He). unfold bind.
    rewrite get_intra_hr_served;
      [|exact Hvs|exact (sub_valid _ _ _ He)|intros k Hk; apply Hdays, Hk].
    destruct (after_fetch E 1
                (calls (set_transaction (Some (seen w)) w)
                 ++ (fetch_of c <$> seqZ s (e - s + 1)))
                (set_transaction (Some (seen w)) w)) as (Htf & Hxf & Hof).
    remember (after_call E _) as wf eqn:Hwf. clear Hwf.
    simpl in Htf, Hxf, Hof.
    destruct (persist_all_duplicates E (payload_of E <$> seqZ s (e - s + 1)) wf)
      as (texts & Hlen & Hok & Hstore & Hout).
    + rewrite (seen_in_transaction wf _ Hxf), (seen_committed w Hx), Htf.
      reflexivity.
    + apply Forall_fmap, Forall_seqZ. intros k Hk.
      destruct (Hdays k) as [_ Hstored]; [lia|]. simpl.
      rewrite Htf. exact Hstored.
    + unfold store_of in Hstore.
      split; [exact Hok|]. split; [rewrite Hstore, Htf; exact Ht|].
      exists texts. split.
      * rewrite Hlen, length_fmap, length_seqZ. lia.
      * rewrite Hout, Hof, Ho. reflexivity.
  - intros Hw.
    apply (persist_rerun E x w (fst (persist E x w)) Hw);
      [apply persist_no_transaction, Hw | reflexivity].
  - intros Hw Hasked. apply main_rerun; assumption.
Qed.

Lemma samples_dated_as_asked (today : datetime.date) :
  dated_as_asked (Samples.env_ok today).
Proof.
  intros k d. unfold payload_of. simpl. unfold Samples.served.
  destruct (Z.leb_spec Samples.d_2015_12_26 k) as [H1|H1]; simpl;
    [|vm_compute; discriminate].
  destruct (Z.leb_spec k Samples.d_2015_12_29) as [H2|H2]; simpl;
    [|vm_compute; discriminate].
  unfold Samples.d_2015_12_26, Samples.d_2015_12_29 in *.
  assert (k = 735958 \/ k = 735959 \/ k = 735960 \/ k = 735961)
    as [-> | [-> | [-> | ->]]] by lia;
    vm_compute; intros H; inversion H; reflexivity.
Qed.

Lemma rerun_is_idempotent_witness :
  (exists text,
     add_hr_to_db (Samples.env_ok Samples.d_2015_12_29)
       (Samples.payload "2015-12-26" 58)
       (Samples.world_with (Samples.table [(Samples.d_2015_12_26, Samples.a_row)]))
     = (set_transaction None
          (Samples.world_with
             (Samples.table [(Samples.d_2015_12_26, Samples.a_row)])),
        Raise (IntegrityError text)))
  /\ heart_rate
       (fst (main (Samples.env_ok Samples.d_2015_12_29)
               (restart
                  (fst (main (Samples.env_ok Samples.d_2015_12_29)
                          (Samples.world_with
                             (Samples.table
                                [(Samples.d_2015_12_26, Samples.a_row)])))))))
     = heart_rate
         (fst (main (Samples.env_ok Samples.d_2015_12_29)
                 (Samples.world_with
                    (Samples.table [(Samples.d_2015_12_26, Samples.a_row)])))).
Proof.
  destruct (rerun_is_idempotent (Samples.env_ok Samples.d_2015_12_29) []
              (Samples.world_with
                 (Samples.table [(Samples.d_2015_12_26, Samples.a_row)])))
    as (H & _ & _ & _ & Hrun).
  split.
  - destruct (H (Samples.payload "2015-12-26" 58) []) as (text & Hdup & _).
    + exists Samples.d_2015_12_26. split.
      * vm_compute. reflexivity.
      * exists Samples.a_row. vm_compute. reflexivity.
    + exists text. exact Hdup.
  - apply Hrun; [reflexivity | apply samples_dated_as_asked].
Defined.

(** A first run, on 2015-12-29 against an empty table: the three days are
    fetched and inserted, no insert is rejected, and the run ends with
    its rows in the transaction the watermark query left open. Nothing is
    committed, so a second run finds the table empty again. *)
Example empty_table_sample_run :
  snd (main (Samples.env_ok Samples.d_2015_12_29) (Samples.world_with ∅)) = Ok tt
  /\ heart_rate (fst (main (Samples.env_ok Samples.d_2015_12_29)
                        (Samples.world_with ∅)))
     = ∅
  /\ transaction (fst (main (Samples.env_ok Samples.d_2015_12_29)
                         (Samples.world_with ∅)))
     = Some (Samples.table [(Samples.d_2015_12_26, Samples.a_row);
                            (Samples.d_2015_12_27, Samples.a_row);
                            (Samples.d_2015_12_28, Samples.a_row)])
  /\ stdout (fst (main (Samples.env_ok Samples.d_2015_12_29)
                    (Samples.world_with ∅)))
     = []
  /\ heart_rate
       (fst (main (Samples.env_ok Samples.d_2015_12_29)
               (restart (fst (main (Samples.env_ok Samples.d_2015_12_29)
                               (Samples.world_with ∅))))))
     = ∅.
Proof. repeat split; vm_compute; reflexivity. Qed.

(** Payloads dated 26, 26 and 28 in the loop as [main] enters it on an
    empty table: the second insert is rejected and takes the uncommitted
    first row with it; only the row of the 28th is committed, and one
    report is printed for three payloads. *)
Example rejected_insert_rolls_back :
  store_of (persist (Samples.env_ok Samples.d_2015_12_29)
              [Samples.payload "2015-12-26" 58;
               Samples.payload "2015-12-26" 58;
               Samples.payload "2015-12-28" 58]
              (set_transaction (Some ∅) (Samples.world_with ∅)))
  = Samples.table [(Samples.d_2015_12_28, Samples.a_row)]
  /\ stdout (fst (persist (Samples.env_ok Samples.d_2015_12_29)
                    [Samples.payload "2015-12-26" 58;
                     Samples.payload "2015-12-26" 58;
                     Samples.payload "2015-12-28" 58]
                    (set_transaction (Some ∅) (Samples.world_with ∅))))
     = [report (Samples.error_text
                  (HeartRate.new (PStr "2015-12-26") (PInt 58) Samples.dataset))].
Proof. split; vm_compute; reflexivity. Qed.

(** * Further properties of the script *)

(** ** The rate limiter at work *)

(** X1. [rateLimitedFunction] reads the clock, sleeps for what is left of
    [minInterval] since [lastTimeCalled] when something is left and not at
    all otherwise, and then calls the wrapped function once, in a world
    where nothing else has changed. A result is handed through after the
    clock has been read again into [lastTimeCalled]; an exception is
    handed through with [lastTimeCalled] left as the function left it. *)
Theorem rate_limiter_sleeps_the_remainder (E : env) (minInterval : Q)
    {A : Type} (func : M A) (w : world) :
  let leftToWait :=
    (minInterval - (clock E (clock_reads w) - lastTimeCalled w))%Q in
  exists w0,
    files w0 = files w /\ heart_rate w0 = heart_rate w
    /\ calls w0 = calls w /\ stdout w0 = stdout w
    /\ transaction w0 = transaction w
    /\ lastTimeCalled w0 = lastTimeCalled w
    /\ clock_reads w0 = S (clock_reads w)
    /\ ((leftToWait <= 0)%Q -> sleeps w0 = sleeps w)
    /\ (~ (leftToWait <= 0)%Q -> sleeps w0 = sleeps w ++ [leftToWait])
    /\ rateLimitedFunction E minInterval func w
       = match func w0 with
         | (w', Ok r) =>
             (set_lastTimeCalled (clock E (clock_reads w'))
                (set_clock_reads (S (clock_reads w')) w'), Ok r)
         | (w', Raise e) => (w', Raise e)
         end.
Proof.
  intros leftToWait. exists (before_call E minInterval w).
  rewrite rateLimitedFunction_eq. unfold before_call. fold leftToWait.
  destruct (Qle_bool leftToWait 0) eqn:Hle; simpl;
    repeat (split; [reflexivity|]).
  - split; [|reflexivity].
    intros Hnot. apply Qle_bool_iff in Hle. contradiction.
  - split; [|split; reflexivity].
    intros Hyes. apply Qle_bool_iff in Hyes. congruence.
Qed.

Lemma rate_limiter_sleeps_the_remainder_witness :
  sleeps (fst (rateLimitedFunction (Samples.env_ok Samples.d_2015_12_29) 1
                 (ret tt) (Samples.world_with ∅)))
  = [1%Q].
Proof.
  destruct (rate_limiter_sleeps_the_remainder
              (Samples.env_ok Samples.d_2015_12_29) 1 (ret tt)
              (Samples.world_with ∅))
    as (w0 & _ & _ & _ & _ & _ & _ & _ & _ & Hsleep & ->).
  unfold ret. simpl. rewrite Hsleep.
  - vm_compute. reflexivity.
  - vm_compute. intros H. apply H. reflexivity.
Defined.

Lemma before_call_sleeps E mi w :
  sleeps (before_call E mi w) = sleeps w
  \/ sleeps (before_call E mi w)
     = sleeps w ++ [(mi - (clock E (clock_reads w) - lastTimeCalled w))%Q].
Proof. unfold before_call. destruct (Qle_bool _ _); simpl; auto. Qed.

Lemma before_call_clock_reads E mi w :
  clock_reads (before_call E mi w) = S (clock_reads w).
Proof. unfold before_call. destruct (Qle_bool _ _); reflexivity. Qed.

(** X2. The limiter is around [get_intra_hr] as a whole, not around the
    fetch of a day: over a range whose days are all served, the fetches of
    all the days are made one after the other, with at most one sleep,
    before the first of them, and two readings of the clock, the second of
    which becomes [lastTimeCalled]. *)
Theorem range_is_fetched_without_pause (E : env) (c : Fitbit)
    (s e : datetime.date) (w : world) :
  datetime.valid s -> datetime.valid e ->
  (forall k, s <= k <= e -> is_ok (intraday_reply E (OnDate k)) = true) ->
  calls (fst (get_intra_hr E c (Some s) (Some e) w))
  = calls w ++ (fetch_of c <$> seqZ s (e - s + 1))
  /\ (sleeps (fst (get_intra_hr E c (Some s) (Some e) w)) = sleeps w
      \/ sleeps (fst (get_intra_hr E c (Some s) (Some e) w))
         = sleeps w ++ [(1 - (clock E (clock_reads w) - lastTimeCalled w))%Q])
  /\ clock_reads (fst (get_intra_hr E c (Some s) (Some e) w))
     = S (S (clock_reads w))
  /\ lastTimeCalled (fst (get_intra_hr E c (Some s) (Some e) w))
     = clock E (S (clock_reads w)).
Proof.
  intros Hs He Hserved. rewrite (get_intra_hr_served E c s e w Hs He Hserved).
  simpl. split; [reflexivity|]. split; [apply before_call_sleeps|].
  rewrite before_call_clock_reads. split; reflexivity.
Qed.

Lemma range_is_fetched_without_pause_witness :
  calls (fst (get_intra_hr (Samples.env_ok Samples.d_2015_12_29) Samples.client
                (Some Samples.d_2015_12_26) (Some Samples.d_2015_12_28)
                (Samples.world_with ∅)))
  = calls (Samples.world_with ∅)
    ++ (fetch_of Samples.client
          <$> seqZ Samples.d_2015_12_26
                (Samples.d_2015_12_28 - Samples.d_2015_12_26 + 1)).
Proof.
  apply (range_is_fetched_without_pause (Samples.env_ok Samples.d_2015_12_29)).
  - unfold datetime.valid. vm_compute. split; discriminate.
  - unfold datetime.valid. vm_compute. split; discriminate.
  - intros k Hk. unfold Samples.d_2015_12_26, Samples.d_2015_12_28 in Hk.
    assert (k = 735958 \/ k = 735959 \/ k = 735960)
      as [-> | [-> | ->]] by lia; reflexivity.
Defined.

(** X3. Over a range whose days are all served, [get_intra_hr] returns
    one payload per day, in the order of the days: the entry at position
    [i] is what the service answered for the day [start_date + i]. *)
Theorem payloads_come_back_in_date_order (E : env) (c : Fitbit)
    (s e : datetime.date) (w : world) :
  datetime.valid s -> datetime.valid e ->
  (forall k, s <= k <= e -> is_ok (intraday_reply E (OnDate k)) = true) ->
  exists x,
    snd (get_intra_hr E c (Some s) (Some e) w) = Ok x
    /\ Z.of_nat (length x) = Z.max 0 (e - s + 1)
    /\ forall i : nat, Z.of_nat i < e - s + 1 ->
         exists v, x !! i = Some v
           /\ intraday_reply E (OnDate (s + Z.of_nat i)) = Ok v.
Proof.
  intros Hs He Hserved. rewrite (get_intra_hr_served E c s e w Hs He Hserved).
  eexists. split; [reflexivity|]. split.
  - rewrite length_fmap, length_seqZ. lia.
  - intros i Hi. rewrite list_lookup_fmap, lookup_seqZ_lt by exact Hi. simpl.
    unfold payload_of. specialize (Hserved (s + Z.of_nat i)).
    destruct (intraday_reply E (OnDate (s + Z.of_nat i))) as [v|err].
    + exists v. split; reflexivity.
    + discriminate Hserved. lia.
Qed.

Lemma payloads_come_back_in_date_order_witness :
  exists x,
    snd (get_intra_hr (Samples.env_ok Samples.d_2015_12_29) Samples.client
           (Some Samples.d_2015_12_26) (Some Samples.d_2015_12_28)
           (Samples.world_with ∅)) = Ok x
    /\ Z.of_nat (length x) = 3.
Proof.
  destruct (payloads_come_back_in_date_order
              (Samples.env_ok Samples.d_2015_12_29) Samples.client
              Samples.d_2015_12_26 Samples.d_2015_12_28 (Samples.world_with ∅))
    as (x & Hx & Hlen & _).
  - unfold datetime.valid. vm_compute. split; discriminate.
  - unfold datetime.valid. vm_compute. split; discriminate.
  - intros k Hk. unfold Samples.d_2015_12_26, Samples.d_2015_12_28 in Hk.
    assert (k = 735958 \/ k = 735959 \/ k = 735960)
      as [-> | [-> | ->]] by lia; reflexivity.
  - exists x. split; [exact Hx | exact Hlen].
Defined.

(** X4. When [start_date] or [end_date] is [None] the other one is not
    looked at: [get_intra_hr] makes a single fetch, for yesterday given as
    text, and returns the one payload in a list, or raises what the fetch
    raised. When yesterday does not exist ([today] is the first date) it
    raises without fetching. *)
Theorem missing_bound_means_yesterday (E : env) (c : Fitbit)
    (s e : option datetime.date) (w : world) :
  s = None \/ e = None ->
  (forall y, datetime.sub (today E) 1 = Ok y ->
     calls (fst (get_intra_hr E c s e w))
     = calls w ++ [IntradayTimeSeries c (OnText y)]
     /\ snd (get_intra_hr E c s e w)
        = rbind (intraday_reply E (OnText y)) (fun v => Ok [v]))
  /\ (forall err, datetime.sub (today E) 1 = Raise err ->
        calls (fst (get_intra_hr E c s e w)) = calls w
        /\ snd (get_intra_hr E c s e w) = Raise err).
Proof.
  intros Hnone. rewrite get_intra_hr_eq.
  assert (get_intra_hr_body E c s e
          = (dr <- lift (datetime.sub (today E) 1) ;;
             v <- get_daily_data E c (OnText dr) ;;
             ret [v])) as ->.
  { unfold get_intra_hr_body. destruct Hnone as [-> | ->]; [reflexivity|].
    destruct s; reflexivity. }
  unfold bind, lift, get_daily_data, remote, ret. split.
  - intros y ->. rewrite before_call_calls.
    destruct (intraday_reply E (OnText y)); simpl;
      rewrite ?before_call_calls; split; reflexivity.
  - intros err ->. simpl. rewrite before_call_calls. split; reflexivity.
Qed.

Lemma missing_bound_means_yesterday_witness :
  calls (fst (get_intra_hr (Samples.env_ok Samples.d_2015_12_29) Samples.client
                (Some Samples.d_2015_12_26) None (Samples.world_with ∅)))
  = calls (Samples.world_with ∅)
    ++ [IntradayTimeSeries Samples.client (OnText Samples.d_2015_12_28)].
Proof.
  destruct (missing_bound_means_yesterday (Samples.env_ok Samples.d_2015_12_29)
              Samples.client (Some Samples.d_2015_12_26) None
              (Samples.world_with ∅)) as [H _].
  - right. reflexivity.
  - apply (H Samples.d_2015_12_28). vm_compute. reflexivity.
Defined.

(** X5. A range can be fetched in two parts: for [start <= d < end], what
    [daterange] yields from [start] to [end] is what it yields from
    [start] to [d] followed by what it yields from the day after [d] to
    [end]. *)
Theorem daterange_splits (s d e : datetime.date) :
  datetime.valid s -> datetime.valid e -> s <= d -> d < e ->
  exists l1 l2,
    daterange s d = yields l1
    /\ daterange (d + 1) e = yields l2
    /\ daterange s e = yields (l1 ++ l2).
Proof.
  intros Hs He Hsd Hde.
  assert (datetime.valid d) as Hd by (unfold datetime.valid in *; lia).
  assert (datetime.valid (d + 1)) as Hd1 by (unfold datetime.valid in *; lia).
  exists (seqZ s (d - s + 1)), (seqZ (d + 1) (e - (d + 1) + 1)).
  rewrite !daterange_yields by assumption.
  split; [reflexivity|]. split; [reflexivity|]. f_equal.
  replace (e - s + 1) with ((d - s + 1) + (e - (d + 1) + 1)) by lia.
  rewrite seqZ_app by lia. do 2 f_equal. lia.
Qed.

Lemma daterange_splits_witness :
  exists l1 l2,
    daterange Samples.d_2015_12_26 Samples.d_2015_12_27 = yields l1
    /\ daterange (Samples.d_2015_12_27 + 1) Samples.d_2015_12_29 = yields l2
    /\ daterange Samples.d_2015_12_26 Samples.d_2015_12_29 = yields (l1 ++ l2).
Proof.
  apply (daterange_splits Samples.d_2015_12_26 Samples.d_2015_12_27
           Samples.d_2015_12_29).
  - unfold datetime.valid. vm_compute. split; discriminate.
  - unfold datetime.valid. vm_compute. split; discriminate.
  - vm_compute. discriminate.
  - vm_compute. reflexivity.
Defined.

(** ** Loading and refreshing the credentials *)

(** X6. [get_tokens] changes nothing. It raises [IOError] when the file
    is missing and [ValueError] when it is not JSON; on a JSON object it
    returns the four entries CLIENT_ID, CLIENT_SECRET, REFRESH_TOKEN and
    ACCESS_TOKEN and drops every other entry, and it raises [KeyError] as
    soon as one of the four is absent. *)
Theorem get_tokens_keeps_the_four_entries (in_file : string) (w : world) :
  fst (get_tokens in_file w) = w
  /\ (files w !! in_file = None -> snd (get_tokens in_file w) = Raise IOError)
  /\ (files w !! in_file = Some Garbage ->
      snd (get_tokens in_file w) = Raise ValueError)
  /\ (forall kv, files w !! in_file = Some (Json (PDict kv)) ->
      snd (get_tokens in_file w)
      = match assoc "CLIENT_ID" kv, assoc "CLIENT_SECRET" kv,
              assoc "REFRESH_TOKEN" kv, assoc "ACCESS_TOKEN" kv with
        | Some id, Some secret, Some refresh, Some access =>
            Ok (PDict [("CLIENT_ID", id); ("CLIENT_SECRET", secret);
                       ("REFRESH_TOKEN", refresh); ("ACCESS_TOKEN", access)])
        | _, _, _, _ => Raise KeyError
        end).
Proof.
  unfold get_tokens, bind, json_load, lift, ret.
  split; [|split; [|split]].
  - destruct (files w !! in_file) as [[doc|]|]; [|reflexivity..].
    destruct (getitem doc "CLIENT_ID"); [|reflexivity].
    destruct (getitem doc "CLIENT_SECRET"); [|reflexivity].
    destruct (getitem doc "REFRESH_TOKEN"); [|reflexivity].
    destruct (getitem doc "ACCESS_TOKEN"); reflexivity.
  - intros ->. reflexivity.
  - intros ->. reflexivity.
  - intros kv ->. unfold getitem.
    destruct (assoc "CLIENT_ID" kv); [|reflexivity].
    destruct (assoc "CLIENT_SECRET" kv); [|reflexivity].
    destruct (assoc "REFRESH_TOKEN" kv); [|reflexivity].
    destruct (assoc "ACCESS_TOKEN" kv); reflexivity.
Qed.

Lemma get_tokens_keeps_the_four_entries_witness :
  snd (get_tokens "tokens.json" (Samples.world_with ∅))
  = Ok (PDict [("CLIENT_ID", PStr "22ABCD"); ("CLIENT_SECRET", PStr "s3cr3t");
               ("REFRESH_TOKEN", PStr "refresh-0");
               ("ACCESS_TOKEN", PStr "access-0")])
  /\ snd (get_tokens "missing.json" (Samples.world_with ∅)) = Raise IOError.
Proof.
  split.
  - destruct (get_tokens_keeps_the_four_entries "tokens.json"
                (Samples.world_with ∅)) as (_ & _ & _ & H).
    rewrite (H [("CLIENT_ID", PStr "22ABCD"); ("CLIENT_SECRET", PStr "s3cr3t");
                ("ACCESS_TOKEN", PStr "access-0");
                ("REFRESH_TOKEN", PStr "refresh-0");
                ("NOTE", PStr "not a credential")]); reflexivity.
  - destruct (get_tokens_keeps_the_four_entries "missing.json"
                (Samples.world_with ∅)) as (_ & H & _).
    apply H. reflexivity.
Defined.

(** X7. When the probe [client.sleep()] returns, [set_client] returns the
    client built from the stored tokens having made that one call: no
    refresh is asked for and no file is written. *)
Theorem probe_success_skips_refresh (E : env) (tokens_file : option string)
    (w : world) (id secret access refresh v : pyval) :
  snd (get_tokens
         (match tokens_file with None => "tokens.json" | Some f => f end) w)
  = Ok (PDict [("CLIENT_ID", id); ("CLIENT_SECRET", secret);
               ("REFRESH_TOKEN", refresh); ("ACCESS_TOKEN", access)]) ->
  sleep_reply E = Ok v ->
  set_client E tokens_file w
  = (set_calls (calls w ++ [Sleep (mkFitbit id secret access refresh)]) w,
     Ok (mkFitbit id secret access refresh)).
Proof.
  intros Htok Hprobe.
  pose proof (get_tokens_keeps (fun x => x)
                (match tokens_file with None => "tokens.json" | Some f => f end) w)
    as Hw.
  simpl in Hw.
  unfold set_client. unfold bind at 1.
  destruct (get_tokens _ w) as [w1 r]. simpl in *. subst w1 r. simpl.
  unfold try_except_any, bind, remote, ret. rewrite Hprobe. reflexivity.
Qed.

Lemma probe_success_skips_refresh_witness :
  set_client (Samples.env_ok Samples.d_2015_12_29) None (Samples.world_with ∅)
  = (set_calls (calls (Samples.world_with ∅) ++ [Sleep Samples.client])
       (Samples.world_with ∅),
     Ok Samples.client).
Proof.
  apply (probe_success_skips_refresh (Samples.env_ok Samples.d_2015_12_29) None
           (Samples.world_with ∅) (PStr "22ABCD") (PStr "s3cr3t")
           (PStr "access-0") (PStr "refresh-0") (PDict []));
    reflexivity.
Defined.

Lemma set_client_files E f w :
  files (fst (set_client E f w)) = files w
  \/ exists v, files (fst (set_client E f w))
               = <["tokens.json" := Json v]> (files w).
Proof.
  set_client_unfold. repeat set_client_step; eauto.
Qed.

(** X8. [set_client] writes at most one file, ['tokens.json'], and only on
    the way to returning a client: when it raises, whatever the reason
    (tokens not loaded, refresh refused, a token missing from the answer
    of the refresh), every file is as it was, so the stored pair is never
    left half replaced. *)
Theorem set_client_writes_tokens_json_only (E : env)
    (tokens_file : option string) (w : world) :
  (forall path, path <> "tokens.json" ->
     files (fst (set_client E tokens_file w)) !! path = files w !! path)
  /\ (forall e, snd (set_client E tokens_file w) = Raise e ->
        files (fst (set_client E tokens_file w)) = files w).
Proof.
  split.
  - intros path Hpath.
    destruct (set_client_files E tokens_file w) as [-> | [v ->]];
      [reflexivity|].
    rewrite lookup_insert_ne by congruence. reflexivity.
  - intros e He. pose proof (set_client_raises_files E tokens_file w) as H.
    rewrite He in H. exact H.
Qed.

Lemma set_client_writes_tokens_json_only_witness :
  files (fst (set_client (Samples.env_revoked Samples.d_2015_12_29) None
                (Samples.world_with ∅)))
  = files (Samples.world_with ∅).
Proof.
  destruct (set_client_writes_tokens_json_only
              (Samples.env_revoked Samples.d_2015_12_29) None
              (Samples.world_with ∅)) as [_ H].
  apply (H (HTTPError 400)). vm_compute. reflexivity.
Defined.

(** X9. Without tokens there is no run: when [get_tokens] raises on
    ['tokens.json'], [main] ends with that exception and the world is as
    it was, no call made to the service, nothing read from or written to
    the table. *)
Theorem no_tokens_no_run (E : env) (w : world) (e : exn) :
  snd (get_tokens "tokens.json" w) = Raise e ->
  main E w = (w, Raise e).
Proof.
  intros Htok. apply main_set_client_raises.
  pose proof (get_tokens_keeps (fun x => x) "tokens.json" w) as Hw.
  simpl in Hw. unfold set_client. unfold bind at 1.
  destruct (get_tokens "tokens.json" w) as [w1 r]. simpl in *. subst w1 r.
  reflexivity.
Qed.

Lemma no_tokens_no_run_witness :
  main (Samples.env_ok Samples.d_2015_12_29)
    (World ∅ ∅ [] [] 0 [] 0 None)
  = (World ∅ ∅ [] [] 0 [] 0 None, Raise IOError).
Proof. apply no_tokens_no_run. vm_compute. reflexivity. Defined.

(** ** What gets into the table *)

(** When the INSERT of an object passes with a resting rate that is an
    int, the int is within the range of the INTEGER column and is what
    the row holds. *)
Lemma insert_values_int E obj d r n :
  insert_values E obj = Ok (d, r) ->
  HeartRate.r_hr obj = PInt n ->
  INT4_MIN <= n <= INT4_MAX /\ row_r_hr r = PInt n.
Proof.
  unfold insert_values. intros H Hn. rewrite Hn in H.
  destruct (HeartRate.date obj) as [| | |s| |]; try discriminate.
  - destruct (to_jsonb E (HeartRate.hr obj)); [|discriminate].
    destruct (fits_integer (PInt n)); discriminate.
  - destruct (to_date E s); [|discriminate].
    destruct (to_jsonb E (HeartRate.hr obj)); [|discriminate].
    destruct (fits_integer (PInt n)) eqn:Hfit; [|discriminate].
    inversion H; subst. simpl in *.
    apply andb_prop in Hfit as [H1 H2].
    apply Z.leb_le in H1, H2. auto.
Qed.

(** X10. A payload whose values are accepted, under a date the connection
    does not see as a key, is inserted: the table as the connection sees
    it gets that one row more, the files, the output and the calls are
    as before. With no transaction open the row is committed; inside an
    open transaction the committed table is left as it was and the row
    stays uncommitted. A resting rate that is an int is stored only if it
    is within the range of the INTEGER column. Writing the same payload
    again is rejected with [IntegrityError]: the stored row is never
    replaced, and the rollback leaves the committed table as it is. *)
Theorem fresh_date_is_inserted (E : env) (day : pyval) (w : world) (d : Z) :
  key_of E day = Ok d ->
  seen w !! d = None ->
  exists obj r w',
    heart_rate_object day = Ok obj
    /\ insert_values E obj = Ok (d, r)
    /\ (forall n, HeartRate.r_hr obj = PInt n ->
          INT4_MIN <= n <= INT4_MAX /\ row_r_hr r = PInt n)
    /\ add_hr_to_db E day w = (w', Ok tt)
    /\ seen w' = <[d := r]> (seen w)
    /\ (transaction w = None ->
        transaction w' = None /\ heart_rate w' = <[d := r]> (heart_rate w))
    /\ (is_Some (transaction w) ->
        is_Some (transaction w') /\ heart_rate w' = heart_rate w)
    /\ files w' = files w /\ stdout w' = stdout w /\ calls w' = calls w
    /\ exists text,
         add_hr_to_db E day w'
         = (set_transaction None w', Raise (IntegrityError text))
         /\ heart_rate (set_transaction None w') = heart_rate w'.
Proof.
  unfold key_of, row_of. intros Hkey Hfresh.
  destruct (heart_rate_object day) as [obj|err] eqn:Hobj; [|discriminate].
  simpl in Hkey.
  destruct (insert_values E obj) as [[d' r]|err] eqn:Hv; [|discriminate].
  simpl in Hkey. inversion Hkey; subst d'.
  assert (forall w1, seen w1 = <[d := r]> (seen w) ->
            add_hr_to_db E day w1
            = (set_transaction None w1,
               Raise (IntegrityError (error_text E obj)))) as Hagain.
  { intros w1 Hw1. rewrite add_hr_to_db_eq, Hobj. unfold session_add_commit.
    rewrite Hv, Hw1, lookup_insert_eq. reflexivity. }
  destruct (transaction w) as [t|] eqn:Ht.
  - exists obj, r, (set_transaction (Some (<[d := r]> t)) w).
    split; [reflexivity|]. split; [exact Hv|].
    split; [intros n Hn; exact (insert_values_int E obj d r n Hv Hn)|].
    rewrite (seen_in_transaction w t Ht) in *.
    split.
    { rewrite add_hr_to_db_eq, Hobj. unfold session_add_commit.
      rewrite Hv, (seen_in_transaction w t Ht), Hfresh, Ht. reflexivity. }
    split; [reflexivity|]. split; [discriminate|].
    split; [intros _; split; [eexists|]; reflexivity|].
    repeat (split; [reflexivity|]).
    exists (error_text E obj). split; [|reflexivity].
    apply Hagain. reflexivity.
  - exists obj, r, (set_heart_rate (<[d := r]> (heart_rate w)) w).
    split; [reflexivity|]. split; [exact Hv|].
    split; [intros n Hn; exact (insert_values_int E obj d r n Hv Hn)|].
    rewrite (seen_committed w Ht) in *.
    assert (seen (set_heart_rate (<[d := r]> (heart_rate w)) w)
            = <[d := r]> (heart_rate w)) as Hseen.
    { apply seen_committed. exact Ht. }
    split.
    { rewrite add_hr_to_db_eq, Hobj. unfold session_add_commit.
      rewrite Hv, (seen_committed w Ht), Hfresh, Ht. reflexivity. }
    split; [exact Hseen|].
    split; [intros _; split; [exact Ht | reflexivity]|].
    split; [intros [? Hsome]; discriminate|].
    repeat (split; [reflexivity|]).
    exists (error_text E obj). split; [|reflexivity].
    apply Hagain. exact Hseen.
Qed.

Lemma fresh_date_is_inserted_witness :
  exists obj r w',
    heart_rate_object (Samples.payload "2015-12-27" 58) = Ok obj
    /\ insert_values (Samples.env_ok Samples.d_2015_12_29) obj
       = Ok (Samples.d_2015_12_27, r)
    /\ add_hr_to_db (Samples.env_ok Samples.d_2015_12_29)
         (Samples.payload "2015-12-27" 58) (Samples.world_with ∅) = (w', Ok tt)
    /\ heart_rate w' = <[Samples.d_2015_12_27 := r]> ∅.
Proof.
  destruct (fresh_date_is_inserted (Samples.env_ok Samples.d_2015_12_29)
              (Samples.payload "2015-12-27" 58) (Samples.world_with ∅)
              Samples.d_2015_12_27)
    as (obj & r & w' & H1 & H2 & _ & H3 & _ & H4 & _).
  - vm_compute. reflexivity.
  - vm_compute. reflexivity.
  - exists obj, r, w'. repeat split; try assumption.
    apply H4. reflexivity.
Defined.

(** A resting rate of [2**31] does not fit the INTEGER column: the insert
    raises [DataError] and stores nothing. A list as date raises
    [TypeError]. *)
Example values_refused :
  add_hr_to_db (Samples.env_ok Samples.d_2015_12_29)
    (Samples.payload "2015-12-27" (2 ^ 31)) (Samples.world_with ∅)
  = (Samples.world_with ∅, Raise DataError)
  /\ add_hr_to_db (Samples.env_ok Samples.d_2015_12_29)
       (Samples.payload "2015-12-27" (2 ^ 31 - 1)) (Samples.world_with ∅)
     = (set_heart_rate
          (<[Samples.d_2015_12_27 := Row (PInt (2 ^ 31 - 1)) Samples.dataset]> ∅)
          (Samples.world_with ∅),
        Ok tt)
  /\ snd (add_hr_to_db (Samples.env_ok Samples.d_2015_12_29)
            (PDict [("activities-heart",
                      PList [PDict [("dateTime", PList [PInt 2015; PInt 12; PInt 27]);
                                    ("value", PDict [])]]);
                    ("activities-heart-intraday", PDict [])])
            (Samples.world_with ∅))
     = Raise TypeError.
Proof. repeat split; vm_compute; reflexivity. Qed.

(** X11. Whatever happens in a run, the rows that were in the committed
    table are still there, unchanged, when [main] ends: nothing is ever
    deleted or overwritten. *)
Theorem main_keeps_stored_rows (E : env) (w : world) :
  heart_rate w ⊆ heart_rate (fst (main E w)).
Proof.
  pose proof (set_client_keeps_table E None w) as Ht. unfold preserves in Ht.
  destruct (set_client E None w) as [w1 [c|err]] eqn:Hc; simpl in Ht.
  2:{ rewrite (main_set_client_raises E w w1 err Hc). simpl. rewrite Ht.
      reflexivity. }
  destruct (watermark_exists E w1) as [s Hs].
  destruct (datetime.sub (today E) 1) as [e|err] eqn:He.
  2:{ rewrite (main_no_yesterday E w w1 c err Hc He). simpl. rewrite Ht.
      reflexivity. }
  rewrite (main_plan E w w1 c s e Hc Hs He). unfold bind.
  pose proof (get_intra_hr_keeps_table E c (Some s) (Some e)
                (set_transaction (Some (seen w1)) w1)) as Ht2.
  unfold preserves in Ht2.
  destruct (get_intra_hr E c (Some s) (Some e) _) as [w2 [x|err]];
    simpl in Ht2.
  - rewrite <- Ht, <- Ht2. apply persist_grows.
  - simpl. rewrite Ht2, Ht. reflexivity.
Qed.

(** X12. When the service answers each fetch with the payload of the day
    asked for, a date that a run adds to the table lies in the plan of
    that run, from the watermark to yesterday; in particular it is before
    today. *)
Theorem run_stores_planned_dates_only (E : env) (w : world) (k : Z) :
  dated_as_asked E ->
  heart_rate w !! k = None ->
  is_Some (heart_rate (fst (main E w)) !! k) ->
  exists s e,
    snd (get_most_recent_date E w) = Ok s
    /\ datetime.sub (today E) 1 = Ok e
    /\ s <= k <= e /\ k < today E.
Proof.
  intros Hasked Hnew Hk.
  destruct (main_keys E w k Hasked Hk) as [[r Hr]|(s & e & Hs & He & Hke)].
  - rewrite Hnew in Hr. discriminate.
  - exists s, e. split; [exact Hs|]. split; [exact He|]. split; [exact Hke|].
    unfold datetime.sub, datetime.add in He.
    destruct (datetime.in_range (today E + - (1))); inversion He. lia.
Qed.

Lemma run_stores_planned_dates_only_witness :
  exists s e,
    snd (get_most_recent_date (Samples.env_ok Samples.d_2015_12_29)
           (Samples.world_with
              (Samples.table [(Samples.d_2015_12_26, Samples.a_row)]))) = Ok s
    /\ datetime.sub (today (Samples.env_ok Samples.d_2015_12_29)) 1 = Ok e
    /\ s <= Samples.d_2015_12_27 <= e
    /\ Samples.d_2015_12_27 < today (Samples.env_ok Samples.d_2015_12_29).
Proof.
  apply (run_stores_planned_dates_only (Samples.env_ok Samples.d_2015_12_29)
           (Samples.world_with
              (Samples.table [(Samples.d_2015_12_26, Samples.a_row)]))
           Samples.d_2015_12_27).
  - apply samples_dated_as_asked.
  - vm_compute. reflexivity.
  - exists Samples.a_row. vm_compute. reflexivity.
Defined.

(** X13. When the latest stored date is after yesterday the plan is
    empty: [main] fetches nothing, inserts nothing, prints nothing and
    ends normally. *)
Theorem empty_plan_is_a_no_op (E : env) (w0 w : world) (c : Fitbit)
    (s e : datetime.date) :
  set_client E None w0 = (w, Ok c) ->
  snd (get_most_recent_date E w) = Ok s ->
  datetime.sub (today E) 1 = Ok e ->
  e < s ->
  snd (main E w0) = Ok tt
  /\ heart_rate (fst (main E w0)) = heart_rate w0
  /\ calls (fst (main E w0)) = calls w
  /\ stdout (fst (main E w0)) = stdout w0.
Proof.
  intros Hc Hs He Hlt.
  pose proof (set_client_keeps_table E None w0) as Ht.
  pose proof (set_client_keeps_stdout E None w0) as Ho.
  rewrite Hc in Ht, Ho. simpl in Ht, Ho.
  rewrite (main_plan E w0 w c s e Hc Hs He). unfold bind.
  rewrite get_intra_hr_eq. unfold get_intra_hr_body.
  unfold daterange, range, datetime.days_between.
  rewrite seqZ_nil by lia. simpl.
  rewrite before_call_calls. unfold before_call. simpl.
  destruct (Qle_bool _ _); simpl; auto.
Qed.

Lemma empty_plan_is_a_no_op_witness :
  snd (main (Samples.env_ok Samples.d_2015_12_29)
         (Samples.world_with (Samples.table [(Samples.d_2015_12_29, Samples.a_row)])))
  = Ok tt
  /\ heart_rate
       (fst (main (Samples.env_ok Samples.d_2015_12_29)
               (Samples.world_with
                  (Samples.table [(Samples.d_2015_12_29, Samples.a_row)]))))
     = heart_rate
         (Samples.world_with
            (Samples.table [(Samples.d_2015_12_29, Samples.a_row)])).
Proof.
  destruct (empty_plan_is_a_no_op (Samples.env_ok Samples.d_2015_12_29)
              (Samples.world_with
                 (Samples.table [(Samples.d_2015_12_29, Samples.a_row)]))
              (set_calls [Sleep Samples.client]
                 (Samples.world_with
                    (Samples.table [(Samples.d_2015_12_29, Samples.a_row)])))
              Samples.client Samples.d_2015_12_29 Samples.d_2015_12_28)
    as (H1 & H2 & _).
  - vm_compute. reflexivity.
  - vm_compute. reflexivity.
  - vm_compute. reflexivity.
  - vm_compute. reflexivity.
  - split; assumption.
Defined.

(** When the payloads of the days of [l] are accepted under those days,
    no day occurs twice and none is a date the connection sees, the loop
    inserts them all, rejects nothing and ends normally: committed each
    on its own when no transaction is open, all left uncommitted inside
    an open transaction. *)
Lemma persist_inserts_all E (l : list Z) w :
  (forall k, k ∈ l -> key_of E (payload_of E k) = Ok k) ->
  NoDup l ->
  (forall k, k ∈ l -> seen w !! k = None) ->
  exists w',
    persist E (payload_of E <$> l) w = (w', Ok tt)
    /\ stdout w' = stdout w
    /\ (forall k, is_Some (seen w' !! k) <-> is_Some (seen w !! k) \/ k ∈ l)
    /\ (transaction w = None -> transaction w' = None)
    /\ (is_Some (transaction w) ->
        is_Some (transaction w') /\ heart_rate w' = heart_rate w).
Proof.
  revert w. induction l as [|k l IH]; intros w Hkeys Hnodup Hfresh.
  { exists w. split; [reflexivity|]. split; [reflexivity|]. split; [|auto].
    intros k. split; [auto|]. intros [H|H]; [exact H | inversion H]. }
  inversion Hnodup as [|? ? Hk Hl]; subst.
  rewrite fmap_cons, persist_cons.
  destruct (add_hr_to_db_cases E (payload_of E k))
    as [(e & He & _)|(d & r & text & Hd & H)].
  { rewrite (Hkeys k) in He by apply list_elem_of_here. discriminate. }
  rewrite (Hkeys k) in Hd by apply list_elem_of_here. inversion Hd; subst d.
  rewrite H, (Hfresh k) by apply list_elem_of_here.
  assert (forall w1, seen w1 = <[k := r]> (seen w) -> stdout w1 = stdout w ->
            (transaction w = None -> transaction w1 = None) ->
            (is_Some (transaction w) ->
             is_Some (transaction w1) /\ heart_rate w1 = heart_rate w) ->
            exists w',
              persist E (payload_of E <$> l) w1 = (w', Ok tt)
              /\ stdout w' = stdout w
              /\ (forall k', is_Some (seen w' !! k')
                             <-> is_Some (seen w !! k') \/ k' ∈ k :: l)
              /\ (transaction w = None -> transaction w' = None)
              /\ (is_Some (transaction w) ->
                  is_Some (transaction w') /\ heart_rate w' = heart_rate w))
    as Hnext.
  { intros w1 Hseen Hout Hnone Hsome.
    destruct (IH w1) as (w' & Hrun & Hout' & Hdom & Hnone' & Hsome').
    - intros k' Hk'. apply Hkeys, list_elem_of_further, Hk'.
    - exact Hl.
    - intros k' Hk'. rewrite Hseen, lookup_insert_ne.
      + apply Hfresh, list_elem_of_further, Hk'.
      + intros ->. contradiction.
    - exists w'. split; [exact Hrun|]. split; [congruence|]. split; [|split].
      + intros k'. rewrite Hdom, Hseen, lookup_insert_is_Some, elem_of_cons.
        destruct (decide (k = k')) as [->|Hne]; [tauto|].
        split; [intros [[?|[_ ?]]|?] | intros [?|[?|?]]]; auto; congruence.
      + intros Hw. apply Hnone', Hnone, Hw.
      + intros Hw. destruct (Hsome Hw) as [Hs1 Hh1].
        destruct (Hsome' Hs1) as [Hs2 Hh2]. split; [exact Hs2 | congruence]. }
  destruct (transaction w) as [t|] eqn:Ht.
  - apply Hnext.
    + rewrite (seen_in_transaction w t Ht). reflexivity.
    + reflexivity.
    + discriminate.
    + intros _. split; [eexists|]; reflexivity.
  - apply Hnext.
    + rewrite (seen_committed w Ht). apply seen_committed. exact Ht.
    + reflexivity.
    + intros _. exact Ht.
    + intros [? Hsome]. discriminate.
Qed.

(** X14. A run against a table with rows whose planned days, from the
    watermark [s] to yesterday [e], are all served with the payload of
    the day asked for: the insert of the watermark day is rejected, its
    report is the one thing printed, the days after it are committed, and
    the run ends normally with the table holding, besides the dates it
    held, exactly the dates from [s] to [e]. The watermark of the next
    run is then yesterday. *)
Theorem complete_run_backfills (E : env) (w0 w : world) (c : Fitbit)
    (s e : datetime.date) :
  transaction w0 = None ->
  heart_rate w0 <> ∅ ->
  set_client E None w0 = (w, Ok c) ->
  snd (get_most_recent_date E w) = Ok s ->
  datetime.sub (today E) 1 = Ok e ->
  datetime.valid s -> s <= e ->
  (forall k, s <= k <= e ->
     is_ok (intraday_reply E (OnDate k)) = true
     /\ key_of E (payload_of E k) = Ok k) ->
  snd (main E w0) = Ok tt
  /\ (forall k, is_Some (heart_rate (fst (main E w0)) !! k)
                <-> is_Some (heart_rate w0 !! k) \/ s <= k <= e)
  /\ (exists text, stdout (fst (main E w0)) = stdout w0 ++ [report text])
  /\ snd (get_most_recent_date E (restart (fst (main E w0)))) = Ok e.
Proof.
  intros Hfresh Hne Hc Hs He Hvs Hle Hdays.
  pose proof (set_client_keeps_table E None w0) as Ht.
  pose proof (set_client_keeps_stdout E None w0) as Ho.
  pose proof (set_client_keeps_transaction E None w0) as Hx.
  rewrite Hc in Ht, Ho, Hx. simpl in Ht, Ho, Hx. rewrite Hfresh in Hx.
  pose proof (seen_committed w Hx) as Hseen.
  assert (is_Some (heart_rate w0 !! s)
          /\ forall k, is_Some (heart_rate w0 !! k) -> k <= s) as [Hin Hmax].
  { destruct (watermark_cases E w s Hs) as [[Hempty _]|H].
    - rewrite Hseen, Ht in Hempty. contradiction.
    - rewrite Hseen, Ht in H. exact H. }
  rewrite (main_plan E w0 w c s e Hc Hs He). unfold bind.
  rewrite get_intra_hr_served;
    [|exact Hvs|exact (sub_valid _ _ _ He)|intros k Hk; apply Hdays, Hk].
  destruct (after_fetch E 1
              (calls (set_transaction (Some (seen w)) w)
               ++ (fetch_of c <$> seqZ s (e - s + 1)))
              (set_transaction (Some (seen w)) w)) as (Htf & Hxf & Hof).
  remember (after_call E _) as wf eqn:Hwf. clear Hwf.
  simpl in Htf, Hxf, Hof.
  rewrite seqZ_cons by lia. rewrite fmap_cons, persist_cons.
  destruct (add_hr_to_db_duplicate E (payload_of E s) wf) as [text Hdup].
  { exists s. split; [apply Hdays; lia|].
    rewrite (seen_in_transaction wf _ Hxf), Hseen, Ht. exact Hin. }
  rewrite Hdup. simpl integrity_text. cbv iota.
  remember (set_stdout (stdout (set_transaction None wf) ++ [report text])
              (set_transaction None wf)) as wr eqn:Hwr.
  assert (transaction wr = None) as Hxr by (rewrite Hwr; reflexivity).
  assert (heart_rate wr = heart_rate w0) as Htr.
  { rewrite Hwr. simpl. rewrite Htf. exact Ht. }
  assert (stdout wr = stdout w0 ++ [report text]) as Hor.
  { rewrite Hwr. simpl. rewrite Hof, Ho. reflexivity. }
  clear Hwr.
  destruct (persist_inserts_all E (seqZ (Z.succ s) (Z.pred (e - s + 1))) wr)
    as (w' & Hrun & Hout & Hdom & Hnone & _).
  { intros k Hk. apply elem_of_seqZ in Hk. apply Hdays. lia. }
  { apply NoDup_seqZ. }
  { intros k Hk. apply elem_of_seqZ in Hk.
    rewrite (seen_committed wr Hxr), Htr.
    destruct (heart_rate w0 !! k) eqn:Hk0; [|reflexivity].
    assert (k <= s) by (apply Hmax; rewrite Hk0; eauto). lia. }
  rewrite Hrun. simpl.
  pose proof (Hnone Hxr) as Hx'.
  assert (forall k, is_Some (heart_rate w' !! k)
                    <-> is_Some (heart_rate w0 !! k) \/ s <= k <= e) as Hkeys.
  { intros k. rewrite <- (seen_committed w' Hx'), Hdom,
      (seen_committed wr Hxr), Htr, elem_of_seqZ.
    split.
    - intros [H|H]; [auto | right; lia].
    - intros [H|H]; [auto|].
      destruct (decide (k = s)) as [->|Hks]; [auto | right; lia]. }
  split; [reflexivity|]. split; [exact Hkeys|].
  split; [exists text; rewrite Hout; exact Hor|].
  destruct (watermark_exists E (restart w')) as [m Hm].
  rewrite Hm. f_equal.
  destruct (watermark_cases E _ m Hm) as [[Hempty _]|[Hinm Hmaxm]].
  - assert (is_Some (heart_rate w' !! e)) as [re Hre].
    { apply Hkeys. right. lia. }
    unfold seen in Hempty. simpl in Hempty.
    rewrite Hempty, lookup_empty in Hre. discriminate.
  - unfold seen in Hinm, Hmaxm. simpl in Hinm, Hmaxm.
    assert (e <= m) by (apply Hmaxm, Hkeys; right; lia).
    apply Hkeys in Hinm as [Hold|Hrange]; [apply Hmax in Hold|]; lia.
Qed.

Lemma complete_run_backfills_witness :
  snd (main (Samples.env_ok Samples.d_2015_12_29)
         (Samples.world_with
            (Samples.table [(Samples.d_2015_12_26, Samples.a_row)]))) = Ok tt
  /\ snd (get_most_recent_date (Samples.env_ok Samples.d_2015_12_29)
            (restart
               (fst (main (Samples.env_ok Samples.d_2015_12_29)
                       (Samples.world_with
                          (Samples.table
                             [(Samples.d_2015_12_26, Samples.a_row)]))))))
     = Ok Samples.d_2015_12_28.
Proof.
  destruct (complete_run_backfills (Samples.env_ok Samples.d_2015_12_29)
              (Samples.world_with
                 (Samples.table [(Samples.d_2015_12_26, Samples.a_row)]))
              (set_calls [Sleep Samples.client]
                 (Samples.world_with
                    (Samples.table [(Samples.d_2015_12_26, Samples.a_row)])))
              Samples.client Samples.d_2015_12_26 Samples.d_2015_12_28)
    as (H1 & _ & _ & H3).
  - reflexivity.
  - intros Hempty.
    apply (f_equal (fun t : gmap Z row => t !! Samples.d_2015_12_26)) in Hempty.
    vm_compute in Hempty. discriminate.
  - vm_compute. reflexivity.
  - vm_compute. reflexivity.
  - vm_compute. reflexivity.
  - unfold datetime.valid. vm_compute. split; discriminate.
  - vm_compute. discriminate.
  - intros k Hk. unfold Samples.d_2015_12_26, Samples.d_2015_12_28 in Hk.
    assert (k = 735958 \/ k = 735959 \/ k = 735960)
      as [-> | [-> | ->]] by lia; split; vm_compute; reflexivity.
  - split; assumption.
Defined.

(** X15. Once no transaction is open on the connection, as is the case
    after the first rejected insert of a run, every payload of a pass of
    the loop that ends normally is accounted for: it has added a row to
    the committed table or a report to the output, never both and never
    neither. *)
Theorem every_payload_is_stored_or_reported (E : env) (x : list pyval)
    (w : world) :
  transaction w = None ->
  snd (persist E x w) = Ok tt ->
  (size (store_of (persist E x w)) + length (stdout (fst (persist E x w)))
   = size (heart_rate w) + length (stdout w) + length x)%nat.
Proof.
  revert w. induction x as [|day rest IH]; intros w Hw.
  { intros _. unfold store_of. simpl. unfold ret. simpl. lia. }
  rewrite persist_cons.
  destruct (add_hr_to_db_committed E day) as [(e & _ & H)|(d & r & text & _ & H)];
    rewrite (H w Hw).
  - destruct (integrity_text e); [|discriminate].
    intros Hok. rewrite (IH (set_stdout _ w) Hw Hok). simpl.
    rewrite length_app. simpl. lia.
  - destruct (heart_rate w !! d) eqn:Hd.
    + intros Hok. simpl integrity_text in *. cbv iota in *.
      rewrite (IH (set_stdout _ w) Hw Hok). simpl.
      rewrite length_app. simpl. lia.
    + intros Hok. rewrite (IH (set_heart_rate _ w) Hw Hok). simpl.
      rewrite (map_size_insert_None _ _ _ Hd). lia.
Qed.

Lemma every_payload_is_stored_or_reported_witness :
  (size (store_of (persist (Samples.env_ok Samples.d_2015_12_29)
                     [Samples.payload "2015-12-26" 58;
                      Samples.payload "2015-12-26" 58;
                      Samples.payload "2015-12-27" 58]
                     (Samples.world_with ∅)))
   + length (stdout (fst (persist (Samples.env_ok Samples.d_2015_12_29)
                            [Samples.payload "2015-12-26" 58;
                             Samples.payload "2015-12-26" 58;
                             Samples.payload "2015-12-27" 58]
                            (Samples.world_with ∅))))
   = size (heart_rate (Samples.world_with ∅))
     + length (stdout (Samples.world_with ∅)) + 3)%nat.
Proof.
  apply (every_payload_is_stored_or_reported
           (Samples.env_ok Samples.d_2015_12_29)
           [Samples.payload "2015-12-26" 58;
            Samples.payload "2015-12-26" 58;
            Samples.payload "2015-12-27" 58]).
  - reflexivity.
  - vm_compute. reflexivity.
Defined.


(** X17. A run against an empty table whose planned days, from 2015-12-26
    to yesterday, are all served with the payload of the day asked for
    ends normally and commits nothing: no insert is rejected, so every
    row stays in the transaction that the watermark query left open on
    the connection, and nothing is printed. The next run finds the table
    empty and starts from 2015-12-26 again. *)
Theorem first_run_commits_nothing (E : env) (w0 w : world) (c : Fitbit)
    (e : datetime.date) :
  transaction w0 = None ->
  heart_rate w0 = ∅ ->
  set_client E None w0 = (w, Ok c) ->
  datetime.sub (today E) 1 = Ok e ->
  (forall k, epoch <= k <= e ->
     is_ok (intraday_reply E (OnDate k)) = true
     /\ key_of E (payload_of E k) = Ok k) ->
  snd (main E w0) = Ok tt
  /\ heart_rate (fst (main E w0)) = ∅
  /\ stdout (fst (main E w0)) = stdout w0
  /\ (exists t, transaction (fst (main E w0)) = Some t
        /\ forall k, is_Some (t !! k) <-> epoch <= k <= e)
  /\ snd (get_most_recent_date E (restart (fst (main E w0)))) = Ok epoch.
Proof.
  intros Hfresh Hempty Hc He Hdays.
  pose proof (set_client_keeps_table E None w0) as Ht.
  pose proof (set_client_keeps_stdout E None w0) as Ho.
  pose proof (set_client_keeps_transaction E None w0) as Hx.
  rewrite Hc in Ht, Ho, Hx. simpl in Ht, Ho, Hx. rewrite Hfresh in Hx.
  pose proof (seen_committed w Hx) as Hseen.
  assert (snd (get_most_recent_date E w) = Ok epoch) as Hs.
  { rewrite get_most_recent_date_eq. simpl.
    rewrite (query_first_empty (seen w)); [reflexivity|].
    rewrite Hseen, Ht. exact Hempty. }
  assert (datetime.valid epoch) as Hvs.
  { unfold datetime.valid, epoch, datetime.MAXORDINAL. lia. }
  rewrite (main_plan E w0 w c epoch e Hc Hs He). unfold bind.
  rewrite get_intra_hr_served;
    [|exact Hvs|exact (sub_valid _ _ _ He)|intros k Hk; apply Hdays, Hk].
  destruct (after_fetch E 1
              (calls (set_transaction (Some (seen w)) w)
               ++ (fetch_of c <$> seqZ epoch (e - epoch + 1)))
              (set_transaction (Some (seen w)) w)) as (Htf & Hxf & Hof).
  remember (after_call E _) as wf eqn:Hwf. clear Hwf.
  simpl in Htf, Hxf, Hof.
  assert (seen wf = ∅) as Hseenf.
  { rewrite (seen_in_transaction wf _ Hxf), Hseen, Ht. exact Hempty. }
  destruct (persist_inserts_all E (seqZ epoch (e - epoch + 1)) wf)
    as (w' & Hrun & Hout & Hdom & _ & Hsome).
  { intros k Hk. apply elem_of_seqZ in Hk. apply Hdays. lia. }
  { apply NoDup_seqZ. }
  { intros k _. rewrite Hseenf. apply lookup_empty. }
  rewrite Hrun. simpl.
  destruct Hsome as [[t Hxt] Htable]; [rewrite Hxf; eauto|].
  split; [reflexivity|]. split; [congruence|]. split; [congruence|].
  split.
  - exists t. split; [exact Hxt|]. intros k.
    rewrite <- (seen_in_transaction w' t Hxt), Hdom, Hseenf, lookup_empty,
      elem_of_seqZ.
    split.
    + intros [[? H]|H]; [discriminate | lia].
    + intros H. right. lia.
  - rewrite get_most_recent_date_eq. simpl.
    rewrite (query_first_empty (seen (restart w'))); [reflexivity|].
    unfold seen. simpl. congruence.
Qed.

Lemma first_run_commits_nothing_witness :
  snd (main (Samples.env_ok Samples.d_2015_12_29) (Samples.world_with ∅)) = Ok tt
  /\ heart_rate (fst (main (Samples.env_ok Samples.d_2015_12_29)
                        (Samples.world_with ∅)))
     = ∅.
Proof.
  destruct (first_run_commits_nothing (Samples.env_ok Samples.d_2015_12_29)
              (Samples.world_with ∅)
              (set_calls [Sleep Samples.client] (Samples.world_with ∅))
              Samples.client Samples.d_2015_12_28)
    as (H1 & H2 & _).
  - reflexivity.
  - reflexivity.
  - vm_compute. reflexivity.
  - vm_compute. reflexivity.
  - intros k Hk. unfold epoch, Samples.d_2015_12_28 in Hk.
    assert (k = 735958 \/ k = 735959 \/ k = 735960)
      as [-> | [-> | ->]] by lia; split; vm_compute; reflexivity.
  - split; assumption.
Defined.
